(** * hetznerdns: the API client, the zone resolver and the configuration store

    A shallow embedding of [pkg/api], [pkg/config] and the record commands of
    [cmd/hetznerdns], followed by the properties of the specification that
    were checked against it.

    Go strings are byte sequences: they are modelled as [string], whose
    characters are the bytes.  Go's [int] is taken to be 64 bits wide. *)

From Stdlib Require Import ZArith String Ascii List Lia Bool.
From Stdlib Require Import Floats.SpecFloat.
From Stdlib Require Import Decimal DecimalString DecimalPos DecimalZ.
From stdpp Require Import base option gmap strings list.

Set Warnings "-register-all".
Open Scope string_scope.
Open Scope Z_scope.

(** ** Bytes and strings as the Go runtime sees them *)

Module GoStrings.

Definition byte_of (c : ascii) : Z := Z.of_N (N_of_ascii c).
Definition ascii_of (b : Z) : ascii := ascii_of_N (Z.to_N b).

(** [s[i]] as a byte; out of range reads are never performed by the callers
    below (they are guarded by length checks) and give 0 here. *)
Definition index (s : string) (i : nat) : Z :=
  match String.get i s with Some c => byte_of c | None => 0 end.

(** [strings.HasSuffix]:
    [len(s) >= len(suffix) && s[len(s)-len(suffix):] == suffix]. *)
Definition HasSuffix (s suffix : string) : bool :=
  (String.length suffix <=? String.length s)%nat
  && (substring (String.length s - String.length suffix)
                (String.length suffix) s =? suffix)%string.

(** [strings.TrimSuffix]: [s] without the trailing [suffix], once. *)
Definition TrimSuffix (s suffix : string) : string :=
  if HasSuffix s suffix
  then substring 0 (String.length s - String.length suffix) s
  else s.

(** *** unicode/utf8 *)

Definition RuneError : Z := 0xFFFD.
Definition RuneSelf : Z := 0x80.
Definition MaxRune : Z := 0x10FFFF.
Definition MaxASCII : Z := 0x7F.

(** The entries of utf8's [first] table: [as] for ASCII, [xx] for an invalid
    leading byte, and for a leading byte of a multi-byte sequence the size in
    the low bits and the index of the accept range in the high ones. *)
Definition xx : Z := 0xF1.
Definition as_ : Z := 0xF0.
Definition first (b : Z) : Z :=
  if b <? 0x80 then as_
  else if b <? 0xC2 then xx
  else if b <? 0xE0 then 0x02
  else if b =? 0xE0 then 0x13
  else if b <? 0xED then 0x03
  else if b =? 0xED then 0x23
  else if b <? 0xF0 then 0x03
  else if b =? 0xF0 then 0x34
  else if b <? 0xF4 then 0x04
  else if b =? 0xF4 then 0x44
  else xx.

Definition locb : Z := 0x80.
Definition hicb : Z := 0xBF.

(** [acceptRanges[i]] as a pair [(lo, hi)]. *)
Definition acceptRanges (i : Z) : Z * Z :=
  if i =? 1 then (0xA0, hicb)
  else if i =? 2 then (locb, 0x9F)
  else if i =? 3 then (0x90, hicb)
  else if i =? 4 then (locb, 0x8F)
  else (locb, hicb).

(** [utf8.DecodeRuneInString]: the first rune of [s] and its width in bytes;
    an invalid encoding gives [(RuneError, 1)], the empty string
    [(RuneError, 0)]. *)
Definition DecodeRuneInString (s : string) : Z * nat :=
  let n := String.length s in
  if (n <? 1)%nat then (RuneError, 0%nat) else
  let s0 := index s 0 in
  let x := first s0 in
  if as_ <=? x then ((if x =? xx then RuneError else s0), 1%nat) else
  let sz := Z.to_nat (Z.land x 7) in
  let accept := acceptRanges (Z.shiftr x 4) in
  if (n <? sz)%nat then (RuneError, 1%nat) else
  let s1 := index s 1 in
  if (s1 <? fst accept) || (snd accept <? s1) then (RuneError, 1%nat) else
  if (sz <=? 2)%nat
  then (Z.lor (Z.shiftl (Z.land s0 0x1F) 6) (Z.land s1 0x3F), 2%nat) else
  let s2 := index s 2 in
  if (s2 <? locb) || (hicb <? s2) then (RuneError, 1%nat) else
  if (sz <=? 3)%nat
  then (Z.lor (Z.lor (Z.shiftl (Z.land s0 0x0F) 12)
                     (Z.shiftl (Z.land s1 0x3F) 6))
              (Z.land s2 0x3F), 3%nat) else
  let s3 := index s 3 in
  if (s3 <? locb) || (hicb <? s3) then (RuneError, 1%nat) else
  (Z.lor (Z.lor (Z.lor (Z.shiftl (Z.land s0 0x07) 18)
                       (Z.shiftl (Z.land s1 0x3F) 12))
                (Z.shiftl (Z.land s2 0x3F) 6))
         (Z.land s3 0x3F), 4%nat).

(** [utf8.AppendRune] on the empty buffer: the UTF-8 encoding of [r];
    surrogates and values out of range are written as [RuneError]. *)
Definition EncodeRune (r : Z) : string :=
  let b (z : Z) := ascii_of (Z.land z 0xFF) in
  let tx (z : Z) := b (Z.lor 0x80 (Z.land z 0x3F)) in
  if (0 <=? r) && (r <=? 0x7F) then String (b r) ""
  else if (0 <=? r) && (r <=? 0x7FF)
  then String (b (Z.lor 0xC0 (Z.shiftr r 6))) (String (tx r) "")
  else if ((0 <=? r) && (r <? 0xD800)) || ((0xDFFF <? r) && (r <=? 0xFFFF))
  then String (b (Z.lor 0xE0 (Z.shiftr r 12)))
         (String (tx (Z.shiftr r 6)) (String (tx r) ""))
  else if (0xFFFF <? r) && (r <=? MaxRune)
  then String (b (Z.lor 0xF0 (Z.shiftr r 18)))
         (String (tx (Z.shiftr r 12))
            (String (tx (Z.shiftr r 6)) (String (tx r) "")))
  else String (ascii_of 0xEF) (String (ascii_of 0xBF) (String (ascii_of 0xBD) "")).

(** [for _, c := range s]: the runes of [s] in order, each mapped and
    re-encoded.  [skip] counts the bytes of the current rune that are still
    to be stepped over, which keeps the recursion structural. *)
Fixpoint mapRunes (mapping : Z -> Z) (skip : nat) (s : string) : string :=
  match s with
  | EmptyString => ""
  | String _ rest =>
      match skip with
      | S k => mapRunes mapping k rest
      | O =>
          let '(c, width) := DecodeRuneInString s in
          let r := mapping c in
          (if 0 <=? r then EncodeRune r else "")
            ++ mapRunes mapping (Nat.pred width) rest
      end
  end.

(** [strings.Map]: a copy of [s] with every rune replaced by its image under
    [mapping]; a negative image drops the rune, and a byte that is not part
    of a valid encoding reads as [RuneError].  The runes before the first
    change, which the Go code copies as they stand, are written here through
    [EncodeRune] like the others: for a valid encoding these are the same
    bytes. *)
Definition Map (mapping : Z -> Z) (s : string) : string := mapRunes mapping 0 s.

Section Unicode.

(** [unicode.To(unicode.LowerCase, r)] for the runes above ASCII: the case
    tables of the Go distribution, which are not part of this repository. *)
Variable To_LowerCase : Z -> Z.

(** [unicode.ToLower]. *)
Definition unicode_ToLower (r : Z) : Z :=
  if r <=? MaxASCII
  then (if (65 <=? r) && (r <=? 90) then r + (97 - 65) else r)
  else To_LowerCase r.

Definition isUpperByte (b : Z) : bool := (65 <=? b) && (b <=? 90).

(** The ASCII loop of [strings.ToLower]: [c += 'a' - 'A'] on upper-case
    letters. *)
Definition lowerByte (c : ascii) : ascii :=
  if isUpperByte (byte_of c) then ascii_of (byte_of c + (97 - 65)) else c.

Fixpoint lowerASCII (s : string) : string :=
  match s with
  | EmptyString => ""
  | String c rest => String (lowerByte c) (lowerASCII rest)
  end.

Fixpoint isASCII (s : string) : bool :=
  match s with
  | EmptyString => true
  | String c rest => if RuneSelf <=? byte_of c then false else isASCII rest
  end.

Fixpoint hasUpper (s : string) : bool :=
  match s with
  | EmptyString => false
  | String c rest => isUpperByte (byte_of c) || hasUpper rest
  end.

(** [strings.ToLower]: the ASCII fast path, else [Map(unicode.ToLower, s)]. *)
Definition ToLower (s : string) : string :=
  if isASCII s
  then (if hasUpper s then lowerASCII s else s)
  else Map unicode_ToLower s.

End Unicode.

End GoStrings.

(** [strconv.Itoa]: the decimal representation of an [int]. *)
Definition Itoa (n : Z) : string := NilZero.string_of_int (Z.to_int n).

(** The newline of the format strings. *)
Definition nl : string := String (ascii_of_nat 10) "".
(** The tab of the table rows. *)
Definition tab : string := String (ascii_of_nat 9) "".

(** ** encoding/json as the client uses it *)

Module GoJSON.

(** The dynamic values [encoding/json] stores in an [interface{}]: [nil],
    [bool], [float64], [string], [[]interface{}], [map[string]interface{}]. *)
Inductive any : Type :=
| ANil
| ABool (b : bool)
| AFloat64 (f : spec_float)
| AString (s : string)
| ASlice (l : list any)
| AMap (m : gmap string any).

(** The comma-ok type assertions [v.(string)], [v.(float64)],
    [v.([]interface{})] and [v.(map[string]interface{})] on the result of a
    map index expression: a missing key reads as [nil], on which every
    assertion fails. *)
Definition assertString (v : option any) : option string :=
  match v with Some (AString s) => Some s | _ => None end.
Definition assertFloat64 (v : option any) : option spec_float :=
  match v with Some (AFloat64 f) => Some f | _ => None end.
Definition assertSlice (v : option any) : option (list any) :=
  match v with Some (ASlice l) => Some l | _ => None end.
Definition assertMap (v : option any) : option (gmap string any) :=
  match v with Some (AMap m) => Some m | _ => None end.

Definition minInt : Z := - 2 ^ 63.
Definition maxInt : Z := 2 ^ 63 - 1.

(** The integral part of a finite [float64], the fraction discarded. *)
Definition truncFloat64 (f : spec_float) : option Z :=
  match f with
  | S754_zero _ => Some 0
  | S754_finite s m e =>
      let mag := Z.shiftl (Z.pos m) e in
      Some (if s then - mag else mag)
  | S754_infinity _ | S754_nan => None
  end.

(** The conversion [int(f)].  Where the integral part does not fit an [int]
    the language leaves the value to the implementation: [outOfRange]. *)
Definition intOfFloat64 (outOfRange : spec_float -> Z) (f : spec_float) : Z :=
  match truncFloat64 f with
  | Some t => if (minInt <=? t) && (t <=? maxInt) then t else outOfRange f
  | None => outOfRange f
  end.

(** What [json.Marshal] writes for the fields of the structs of this
    package: strings and integers. *)
Inductive jsonValue : Type :=
| JString (s : string)
| JNumber (n : Z).

(** A struct field as [json.Marshal] sees it: the key of its tag, the
    [omitempty] option and the value. *)
Record field : Type := mkField {
  fieldKey : string;
  fieldOmitEmpty : bool;
  fieldValue : jsonValue
}.

(** [isEmptyValue] of encoding/json: the empty string, the number 0. *)
Definition isEmptyValue (v : jsonValue) : bool :=
  match v with
  | JString s => (s =? "")%string
  | JNumber n => n =? 0
  end.

(** The members of the object [json.Marshal] writes for a struct, in field
    order; a field tagged [omitempty] is left out when its value is empty. *)
Fixpoint marshalFields (fs : list field) : list (string * jsonValue) :=
  match fs with
  | [] => []
  | f :: rest =>
      if fieldOmitEmpty f && isEmptyValue (fieldValue f)
      then marshalFields rest
      else (fieldKey f, fieldValue f) :: marshalFields rest
  end.

(** The keys of a written object. *)
Definition keys (o : list (string * jsonValue)) : list string := map fst o.

(** The value written under [k], if any. *)
Fixpoint member (k : string) (o : list (string * jsonValue)) : option jsonValue :=
  match o with
  | [] => None
  | (k', v) :: rest => if (k' =? k)%string then Some v else member k rest
  end.

End GoJSON.

(** ** pkg/api: the client *)

Module Api.
Import GoStrings GoJSON.

Definition baseURL : string := "https://dns.hetzner.com/api/v1".

Definition StatusOK : Z := 200.
Definition StatusCreated : Z := 201.
Definition StatusNoContent : Z := 204.

(** Go errors.  The errors this package makes with [fmt.Errorf] keep the
    arguments of their format; an error of net/http or encoding/json is known
    by its message only. *)
Inductive error : Type :=
| ErrExternal (msg : string)
| ErrAPI (body : string) (status : Z)
| ErrFormat (what : string)
| ErrZoneName (name : string)
| ErrZoneIDOrName (zoneIDOrName : string).

(** [err.Error()]. *)
Definition Error (e : error) : string :=
  match e with
  | ErrExternal msg => msg
  | ErrAPI body status =>
      "API error: " ++ body ++ ", status code: " ++ Itoa status
  | ErrFormat what => "unexpected response format: " ++ what
  | ErrZoneName name => "zone with name '" ++ name ++ "' not found"
  | ErrZoneIDOrName z => "could not find zone with ID or name '" ++ z ++ "'"
  end.

(** A Go result pair [(v, err)] with exactly one side set. *)
Inductive result (A : Type) : Type :=
| Ok (a : A)
| Err (e : error).
Arguments Ok {A} a.
Arguments Err {A} e.

(** [if err != nil { return nil, err }]. *)
#[global] Instance result_bind : MBind result :=
  fun A B (k : A -> result B) (r : result A) =>
    match r with
    | Ok a => k a
    | Err e => Err e
    end.

Definition isOk {A : Type} (r : result A) : bool :=
  match r with Ok _ => true | Err _ => false end.

(** What a call into net/http or encoding/json gives: a value, or an error
    of which the client only ever uses the message. *)
Inductive outcome (A : Type) : Type :=
| Done (a : A)
| Failed (msg : string).
Arguments Done {A} a.
Arguments Failed {A} msg.

Definition external {A : Type} (o : outcome A) : result A :=
  match o with
  | Done a => Ok a
  | Failed msg => Err (ErrExternal msg)
  end.

(** [Client]: the token; the [http.Client] with its 10 s timeout is the
    transport of [Env] below. *)
Record Client : Type := NewClient { apiToken : string }.

Record Zone : Type := mkZone {
  Zone_ID : string;
  Zone_Name : string;
  Zone_TTL : Z;
  Zone_RecordsCount : Z
}.

(** The Go type [Record]. *)
Record DNSRecord : Type := mkRecord {
  Record_ID : string;
  Record_Type : string;
  Record_Name : string;
  Record_Value : string;
  Record_TTL : Z;
  Record_ZoneID : string;
  Record_Created : string;
  Record_Modified : string
}.

(** [Zone{}] and [Record{}]. *)
Definition zeroZone : Zone := mkZone "" "" 0 0.
Definition zeroRecord : DNSRecord := mkRecord "" "" "" "" 0 "" "" "".

(** Assignments to one field. *)
Definition setZoneID (z : Zone) (v : string) : Zone :=
  mkZone v (Zone_Name z) (Zone_TTL z) (Zone_RecordsCount z).
Definition setZoneName (z : Zone) (v : string) : Zone :=
  mkZone (Zone_ID z) v (Zone_TTL z) (Zone_RecordsCount z).
Definition setZoneTTL (z : Zone) (v : Z) : Zone :=
  mkZone (Zone_ID z) (Zone_Name z) v (Zone_RecordsCount z).
Definition setZoneRecordsCount (z : Zone) (v : Z) : Zone :=
  mkZone (Zone_ID z) (Zone_Name z) (Zone_TTL z) v.

Definition setRecordID (r : DNSRecord) (v : string) : DNSRecord :=
  mkRecord v (Record_Type r) (Record_Name r) (Record_Value r) (Record_TTL r)
           (Record_ZoneID r) (Record_Created r) (Record_Modified r).
Definition setRecordType (r : DNSRecord) (v : string) : DNSRecord :=
  mkRecord (Record_ID r) v (Record_Name r) (Record_Value r) (Record_TTL r)
           (Record_ZoneID r) (Record_Created r) (Record_Modified r).
Definition setRecordName (r : DNSRecord) (v : string) : DNSRecord :=
  mkRecord (Record_ID r) (Record_Type r) v (Record_Value r) (Record_TTL r)
           (Record_ZoneID r) (Record_Created r) (Record_Modified r).
Definition setRecordValue (r : DNSRecord) (v : string) : DNSRecord :=
  mkRecord (Record_ID r) (Record_Type r) (Record_Name r) v (Record_TTL r)
           (Record_ZoneID r) (Record_Created r) (Record_Modified r).
Definition setRecordTTL (r : DNSRecord) (v : Z) : DNSRecord :=
  mkRecord (Record_ID r) (Record_Type r) (Record_Name r) (Record_Value r) v
           (Record_ZoneID r) (Record_Created r) (Record_Modified r).
Definition setRecordZoneID (r : DNSRecord) (v : string) : DNSRecord :=
  mkRecord (Record_ID r) (Record_Type r) (Record_Name r) (Record_Value r)
           (Record_TTL r) v (Record_Created r) (Record_Modified r).

(** The struct tags of [Record], in field order. *)
Definition RecordFields (r : DNSRecord) : list field :=
  [ mkField "id" true (JString (Record_ID r));
    mkField "type" false (JString (Record_Type r));
    mkField "name" false (JString (Record_Name r));
    mkField "value" false (JString (Record_Value r));
    mkField "ttl" true (JNumber (Record_TTL r));
    mkField "zone_id" false (JString (Record_ZoneID r));
    mkField "created" true (JString (Record_Created r));
    mkField "modified" true (JString (Record_Modified r)) ].

(** [json.Marshal(record)]: the members of the written object.  It cannot
    fail on a struct of strings and integers. *)
Definition MarshalRecord (r : DNSRecord) : list (string * jsonValue) :=
  marshalFields (RecordFields r).

Record Request : Type := mkRequest {
  Method : string;
  URL : string;
  Header : list (string * string);
  Body : option (list (string * jsonValue))
}.

(** The part of an [http.Response] the client reads: the status code and
    what [io.ReadAll(resp.Body)] gives. *)
Record Response : Type := mkResponse {
  StatusCode : Z;
  RespBody : string
}.

(** What lies outside the repository: net/http, the JSON parser and the
    implementation-defined part of float conversion. *)
Record Env : Type := mkEnv {
  (** [http.NewRequest(method, url, body)] fails on a URL it cannot parse. *)
  NewRequestError : string -> string -> option string;
  (** [c.httpClient.Do(req)]. *)
  Do : Request -> outcome Response;
  (** [json.NewDecoder(body).Decode(&v)]: the first JSON value of the text. *)
  Decode : string -> outcome any;
  (** [json.Unmarshal(body, &v)]: the text as one JSON value. *)
  Unmarshal : string -> outcome any;
  (** The message of the [json.UnmarshalTypeError] for a value that is not
      an object. *)
  typeErrorMessage : any -> string;
  (** [int(f)] for an [f] beyond the range of [int]. *)
  intOutOfRange : spec_float -> Z
}.

Section Client.

Variable env : Env.

(** [http.NewRequest] followed by the two [req.Header.Set] calls. *)
Definition NewRequest (method url : string) (header : list (string * string))
    (body : option (list (string * jsonValue))) : result Request :=
  match NewRequestError env method url with
  | Some msg => Err (ErrExternal msg)
  | None => Ok (mkRequest method url header body)
  end.

(** Storing a decoded JSON value in a [map[string]interface{}]: an object
    fills the map, [null] leaves it nil (every lookup misses), any other
    value is a type error. *)
Definition intoMap (v : any) : result (gmap string any) :=
  match v with
  | AMap m => Ok m
  | ANil => Ok ∅
  | _ => Err (ErrExternal (typeErrorMessage env v))
  end.

Definition toInt (f : spec_float) : Z := intOfFloat64 (intOutOfRange env) f.

(** The body of the loop of [GetZones] on one object element. *)
Definition extractZone (zoneMap : gmap string any) : Zone :=
  let zone := zeroZone in
  let zone := match assertString (zoneMap !! "id") with
              | Some id => setZoneID zone id | None => zone end in
  let zone := match assertString (zoneMap !! "name") with
              | Some name => setZoneName zone name | None => zone end in
  let zone := match assertFloat64 (zoneMap !! "ttl") with
              | Some ttl => setZoneTTL zone (toInt ttl) | None => zone end in
  let zone := match assertFloat64 (zoneMap !! "records_count") with
              | Some recordsCount => setZoneRecordsCount zone (toInt recordsCount)
              | None => zone end in
  zone.

(** [for _, zoneData := range zonesData]: an element that is not an object
    is passed over ([continue]), an object is appended. *)
Definition zonesLoop (zonesData : list any) : list Zone :=
  fold_left
    (fun zones zoneData =>
       match assertMap (Some zoneData) with
       | None => zones
       | Some zoneMap => (zones ++ [extractZone zoneMap])%list
       end)
    zonesData [].

Definition GetZones (c : Client) : result (list Zone) :=
  req ← NewRequest "GET" (baseURL ++ "/zones")
           [("Auth-API-Token", apiToken c); ("Content-Type", "application/json")]
           None;
  resp ← external (Do env req);
  if negb (StatusCode resp =? StatusOK)
  then Err (ErrAPI (RespBody resp) (StatusCode resp))
  else
    v ← external (Decode env (RespBody resp));
    result ← intoMap v;
    match assertSlice (result !! "zones") with
    | None => Err (ErrFormat "zones field not found or not an array")
    | Some zonesData => Ok (zonesLoop zonesData)
    end.

(** The field extraction shared, copy for copy, by the loop of [GetRecords]
    and the ends of [CreateRecord] and [UpdateRecord]. *)
Definition extractRecord (recordMap : gmap string any) : DNSRecord :=
  let record := zeroRecord in
  let record := match assertString (recordMap !! "id") with
                | Some id => setRecordID record id | None => record end in
  let record := match assertString (recordMap !! "type") with
                | Some recordType => setRecordType record recordType
                | None => record end in
  let record := match assertString (recordMap !! "name") with
                | Some name => setRecordName record name | None => record end in
  let record := match assertString (recordMap !! "value") with
                | Some value => setRecordValue record value
                | None => record end in
  let record := match assertFloat64 (recordMap !! "ttl") with
                | Some ttl => setRecordTTL record (toInt ttl)
                | None => record end in
  let record := match assertString (recordMap !! "zone_id") with
                | Some zoneID => setRecordZoneID record zoneID
                | None => record end in
  record.

Definition recordsLoop (recordsData : list any) : list DNSRecord :=
  fold_left
    (fun records recordData =>
       match assertMap (Some recordData) with
       | None => records
       | Some recordMap => (records ++ [extractRecord recordMap])%list
       end)
    recordsData [].

Definition GetRecords (c : Client) (zoneID : string) : result (list DNSRecord) :=
  req ← NewRequest "GET" (baseURL ++ "/records?zone_id=" ++ zoneID)
           [("Auth-API-Token", apiToken c); ("Content-Type", "application/json")]
           None;
  resp ← external (Do env req);
  if negb (StatusCode resp =? StatusOK)
  then Err (ErrAPI (RespBody resp) (StatusCode resp))
  else
    v ← external (Decode env (RespBody resp));
    result ← intoMap v;
    match assertSlice (result !! "records") with
    | None => Err (ErrFormat "records field not found or not an array")
    | Some recordsData => Ok (recordsLoop recordsData)
    end.

(** The end of [CreateRecord] and [UpdateRecord]: the [record] object of
    the response. *)
Definition decodeRecordResponse (body : string) : result DNSRecord :=
  v ← external (Unmarshal env body);
  result ← intoMap v;
  match assertMap (result !! "record") with
  | None => Err (ErrFormat "record field not found or not an object")
  | Some recordData => Ok (extractRecord recordData)
  end.

(** The request [CreateRecord] builds. *)
Definition CreateRecordRequest (c : Client) (record : DNSRecord) : result Request :=
  let recordJSON := MarshalRecord record in
  NewRequest "POST" (baseURL ++ "/records")
    [("Auth-API-Token", apiToken c); ("Content-Type", "application/json")]
    (Some recordJSON).

Definition CreateRecord (c : Client) (record : DNSRecord) : result DNSRecord :=
  req ← CreateRecordRequest c record;
  resp ← external (Do env req);
  let body := RespBody resp in
  if negb (StatusCode resp =? StatusOK) && negb (StatusCode resp =? StatusCreated)
  then Err (ErrAPI body (StatusCode resp))
  else decodeRecordResponse body.

(** The request [UpdateRecord] builds. *)
Definition UpdateRecordRequest (c : Client) (record : DNSRecord) : result Request :=
  let recordJSON := MarshalRecord record in
  NewRequest "PUT" (baseURL ++ "/records/" ++ Record_ID record)
    [("Auth-API-Token", apiToken c); ("Content-Type", "application/json")]
    (Some recordJSON).

Definition UpdateRecord (c : Client) (record : DNSRecord) : result DNSRecord :=
  req ← UpdateRecordRequest c record;
  resp ← external (Do env req);
  let body := RespBody resp in
  if negb (StatusCode resp =? StatusOK)
  then Err (ErrAPI body (StatusCode resp))
  else decodeRecordResponse body.

Definition DeleteRecord (c : Client) (recordID : string) : result unit :=
  req ← NewRequest "DELETE" (baseURL ++ "/records/" ++ recordID)
           [("Auth-API-Token", apiToken c)] None;
  resp ← external (Do env req);
  if negb (StatusCode resp =? StatusOK) && negb (StatusCode resp =? StatusNoContent)
  then Err (ErrAPI (RespBody resp) (StatusCode resp))
  else Ok tt.

Section Names.

Variable To_LowerCase : Z -> Z.

(** [strings.ToLower(strings.TrimSuffix(name, "."))]. *)
Definition normalize (name : string) : string :=
  ToLower To_LowerCase (TrimSuffix name ".").

(** The loop of [GetZoneIDByName]: the ID of the first zone whose
    normalized name is [normalizedName]. *)
Fixpoint zoneIDByNameLoop (normalizedName : string) (zones : list Zone) : option string :=
  match zones with
  | [] => None
  | zone :: rest =>
      let zoneName := normalize (Zone_Name zone) in
      if (zoneName =? normalizedName)%string
      then Some (Zone_ID zone)
      else zoneIDByNameLoop normalizedName rest
  end.

Definition GetZoneIDByName (c : Client) (name : string) : result string :=
  let normalizedName := normalize name in
  zones ← GetZones c;
  match zoneIDByNameLoop normalizedName zones with
  | Some id => Ok id
  | None => Err (ErrZoneName name)
  end.

End Names.

End Client.

End Api.

(** ** pkg/config: the configuration store *)

Module Config.

Record Config : Type := mkConfig { APIToken : string }.

Inductive error : Type :=
| ErrHomeDir (cause : string)
| ErrCreateDir (cause : string).

Definition Error (e : error) : string :=
  match e with
  | ErrHomeDir cause => "error getting home directory: " ++ cause
  | ErrCreateDir cause => "error creating config directory: " ++ cause
  end.

(** What [os.Stat(configDir)] reports. *)
Inductive statResult : Type :=
| StatExists
| StatNotExist
| StatOtherError.

(** The configuration file on disk, as viper's YAML reader finds it: the
    settings of a well-formed file are kept as the strings [GetString]
    would give. *)
Inductive fileState : Type :=
| FileAbsent
| FileUnreadable
| FileMalformed (content : string)
| FileYAML (settings : gmap string string).

(** The errors of [viper.ReadInConfig]. *)
Inductive viperError : Type :=
| ConfigFileNotFoundError
| PathError
| ConfigParseError.

(** The process environment and the file system, as far as [LoadConfig]
    touches them. *)
Record World : Type := mkWorld {
  (** [os.UserHomeDir()]: the directory, or the message of its error. *)
  UserHomeDir : string + string;
  configDirStat : statResult;
  (** The error of [os.MkdirAll(configDir, 0755)], if it fails. *)
  MkdirAllError : option string;
  configFileOnDisk : fileState;
  (** The error [ReadInConfig] gives for a file set with [SetConfigFile]
      that does not exist; it depends on the version of viper. *)
  missingFileError : viperError;
  (** [os.LookupEnv]. *)
  environ : gmap string string
}.

(** The package variables [configDir] and [configFile] and the global viper
    instance. *)
Record State : Type := mkState {
  configDir : string;
  configFile : string;
  viperOverride : gmap string string;
  viperConfig : gmap string string;
  viperDefaults : gmap string string;
  viperEnvPrefix : string;
  viperAutomaticEnv : bool
}.

(** The state of a process that has just started. *)
Definition initialState : State :=
  mkState "" "" ∅ ∅ ∅ "" false.

(** [filepath.Join] on a Unix system, for elements that need no cleaning. *)
Definition Join (elems : list string) : string :=
  match elems with
  | [] => ""
  | e :: rest => fold_left (fun p x => p ++ "/" ++ x) rest e
  end.

(** The name of the environment variable viper binds to the key
    [api_token] under the prefix [HETZNER_DNS]. *)
Definition envKey (prefix key : string) : string :=
  if (prefix =? "HETZNER_DNS")%string && (key =? "api_token")%string
  then "HETZNER_DNS_API_TOKEN" else prefix ++ "_" ++ key.

(** [viper.GetString(key)]: an explicit [Set] first, then the environment
    (an empty variable counts as unset), then the file, then the default. *)
Definition GetString (w : World) (st : State) (key : string) : string :=
  match viperOverride st !! key with
  | Some v => v
  | None =>
      let fromEnv :=
        if viperAutomaticEnv st
        then match environ w !! envKey (viperEnvPrefix st) key with
             | Some v => if (v =? "")%string then None else Some v
             | None => None
             end
        else None in
      match fromEnv with
      | Some v => v
      | None =>
          match viperConfig st !! key with
          | Some v => v
          | None => default "" (viperDefaults st !! key)
          end
      end
  end.

(** [viper.ReadInConfig()]: on success the settings of the file replace
    the ones read before. *)
Definition ReadInConfig (w : World) (st : State) : State * option viperError :=
  match configFileOnDisk w with
  | FileAbsent => (st, Some (missingFileError w))
  | FileUnreadable => (st, Some PathError)
  | FileMalformed _ => (st, Some ConfigParseError)
  | FileYAML settings =>
      (mkState (configDir st) (configFile st) (viperOverride st) settings
               (viperDefaults st) (viperEnvPrefix st) (viperAutomaticEnv st),
       None)
  end.

(** [LoadConfig]: what it prints, the state and the file system it leaves,
    and its result. *)
Definition LoadConfig (w : World) (st : State)
    : list string * World * State * (Config + error) :=
  match UserHomeDir w with
  | inr cause => ([], w, st, inr (ErrHomeDir cause))
  | inl homeDir =>
      let dir := Join [homeDir; ".config"; "hetznerdns"] in
      let file := Join [dir; "config.yaml"] in
      let st := mkState dir file (viperOverride st) (viperConfig st)
                        (viperDefaults st) (viperEnvPrefix st)
                        (viperAutomaticEnv st) in
      let mkdir :=
        match configDirStat w with
        | StatNotExist =>
            match MkdirAllError w with
            | Some cause => inr (ErrCreateDir cause)
            | None =>
                inl (mkWorld (UserHomeDir w) StatExists (MkdirAllError w)
                             (configFileOnDisk w) (missingFileError w)
                             (environ w))
            end
        | _ => inl w
        end in
      match mkdir with
      | inr e => ([], w, st, inr e)
      | inl w =>
          let st := mkState (configDir st) (configFile st) (viperOverride st)
                            (viperConfig st)
                            (<["api_token" := ""]> (viperDefaults st))
                            "HETZNER_DNS" true in
          let '(st, err) := ReadInConfig w st in
          let out :=
            match err with
            | Some ConfigFileNotFoundError => []
            | Some _ =>
                ["Notice: Config file not found, will create a new one when you save settings." ++ nl]
            | None => []
            end in
          (out, w, st, inl (mkConfig (GetString w st "api_token")))
      end
  end.

End Config.

(** ** cmd/hetznerdns: the zone resolver and the record commands *)

Module Cmd.
Import GoStrings GoJSON Api.

(** What a command writes: text printed to standard output, and the lines
    written through the [tabwriter] and flushed as one aligned table. *)
Inductive output : Type :=
| Print (text : string)
| Table (lines : list string).

Section Commands.

Variable env : Env.
Variable To_LowerCase : Z -> Z.

(** The first loop of [resolveZoneID]: the first zone whose ID is the
    input, byte for byte. *)
Fixpoint idLoop (zoneIDOrName : string) (zones : list Zone) : option Zone :=
  match zones with
  | [] => None
  | zone :: rest =>
      if (Zone_ID zone =? zoneIDOrName)%string
      then Some zone
      else idLoop zoneIDOrName rest
  end.

(** The second loop: the first zone whose normalized name is the
    normalized input. *)
Fixpoint nameLoop (normalizedInput : string) (zones : list Zone) : option Zone :=
  match zones with
  | [] => None
  | zone :: rest =>
      let zoneName := normalize To_LowerCase (Zone_Name zone) in
      if (zoneName =? normalizedInput)%string
      then Some zone
      else nameLoop normalizedInput rest
  end.

(** The third loop: one line for each available zone. *)
Definition availableZones (zones : list Zone) : list output :=
  map (fun zone =>
         Print ("- " ++ Zone_Name zone ++ " (ID: " ++ Zone_ID zone ++ ")" ++ nl))
      zones.

Definition resolveZoneID (client : Client) (zoneIDOrName : string)
    : list output * result string :=
  let out :=
    [Print ("Attempting to resolve '" ++ zoneIDOrName ++ "' as a zone name..." ++ nl)] in
  match GetZones env client with
  | Err err =>
      ((out ++ [Print ("Error fetching zones: " ++ Error err ++ nl)])%list,
       Err err)
  | Ok zones =>
      match idLoop zoneIDOrName zones with
      | Some zone =>
          ((out ++ [Print ("Found exact match for zone ID: " ++ Zone_ID zone
                           ++ " (Name: " ++ Zone_Name zone ++ ")" ++ nl)])%list,
           Ok (Zone_ID zone))
      | None =>
          let normalizedInput := normalize To_LowerCase zoneIDOrName in
          match nameLoop normalizedInput zones with
          | Some zone =>
              ((out ++ [Print ("Found zone with name '" ++ Zone_Name zone
                               ++ "', ID: " ++ Zone_ID zone ++ nl)])%list,
               Ok (Zone_ID zone))
          | None =>
              ((out
                ++ [Print ("Could not find any zone matching '" ++ zoneIDOrName
                           ++ "'" ++ nl);
                    Print (nl ++ "Available zones:" ++ nl)]
                ++ availableZones zones)%list,
               Err (ErrZoneIDOrName zoneIDOrName))
          end
      end
  end.

(** The start of every record command: [config.LoadConfig()] and the check
    of the token.  It gives the client, or what the command prints before
    it returns. *)
Definition loadClient (w : Config.World) (st : Config.State)
    : list output * option Client :=
  let '(notes, _, _, r) := Config.LoadConfig w st in
  let out := map Print notes in
  match r with
  | inr err =>
      ((out ++ [Print ("Error loading config: " ++ Config.Error err ++ nl)])%list,
       None)
  | inl cfg =>
      if (Config.APIToken cfg =? "")%string
      then ((out ++ [Print ("API token not set. Please run 'hetznerdns config set' to configure your API token." ++ nl)])%list,
            None)
      else (out, Some (NewClient (Config.APIToken cfg)))
  end.

(** The TTL column of [record list]. *)
Definition ttlColumn (record : DNSRecord) : string :=
  let ttl := Itoa (Record_TTL record) in
  if Record_TTL record =? 0 then "default" else ttl.

(** One [Fprintf] of the loop of [record list]. *)
Definition recordRow (record : DNSRecord) : string :=
  Record_ID record ++ tab ++ Record_Name record ++ tab ++ Record_Type record
    ++ tab ++ Record_Value record ++ tab ++ ttlColumn record ++ nl.

Definition recordTable (records : list DNSRecord) : output :=
  Table (("ID" ++ tab ++ "NAME" ++ tab ++ "TYPE" ++ tab ++ "VALUE" ++ tab
          ++ "TTL" ++ nl) :: map recordRow records).

(** [recordListCmd.Run]. *)
Definition recordListCmd (zoneIDOrName : string)
    (w : Config.World) (st : Config.State) : list output :=
  match loadClient w st with
  | (out, None) => out
  | (out, Some client) =>
      let '(out', r) := resolveZoneID client zoneIDOrName in
      let out := (out ++ out')%list in
      match r with
      | Err err => (out ++ [Print ("Error: " ++ Error err ++ nl)])%list
      | Ok zoneID =>
          match GetRecords env client zoneID with
          | Err err =>
              (out ++ [Print ("Error fetching records: " ++ Error err ++ nl)])%list
          | Ok records =>
              if (length records =? 0)%nat
              then (out ++ [Print ("No records found for this zone." ++ nl)])%list
              else (out ++ [recordTable records])%list
          end
      end
  end.

(** The record [recordCreateCmd] passes to [CreateRecord]. *)
Definition createRecordOf (zoneID name recordType value : string) (ttl : Z)
    : DNSRecord :=
  mkRecord "" recordType name value ttl zoneID "" "".

(** [recordCreateCmd.Run]. *)
Definition recordCreateCmd (zoneIDOrName name recordType value : string)
    (ttl : Z) (w : Config.World) (st : Config.State) : list output :=
  match loadClient w st with
  | (out, None) => out
  | (out, Some client) =>
      let '(out', r) := resolveZoneID client zoneIDOrName in
      let out := (out ++ out')%list in
      match r with
      | Err err => (out ++ [Print ("Error: " ++ Error err ++ nl)])%list
      | Ok zoneID =>
          let record := createRecordOf zoneID name recordType value ttl in
          match CreateRecord env client record with
          | Err err =>
              (out ++ [Print ("Error creating record: " ++ Error err ++ nl)])%list
          | Ok createdRecord =>
              (out ++ [Print ("Record created successfully with ID: "
                              ++ Record_ID createdRecord ++ nl)])%list
          end
      end
  end.

(** The record [recordUpdateCmd] passes to [UpdateRecord]: the id and the
    zone, and of the other fields those whose flag was given a non-empty
    value; [ttlChanged] is [cmd.Flags().Changed("ttl")]. *)
Definition updateRecordOf (recordID zoneID name recordType value : string)
    (ttl : Z) (ttlChanged : bool) : DNSRecord :=
  let record := mkRecord recordID "" "" "" 0 zoneID "" "" in
  let record := if negb (name =? "")%string
                then setRecordName record name else record in
  let record := if negb (recordType =? "")%string
                then setRecordType record recordType else record in
  let record := if negb (value =? "")%string
                then setRecordValue record value else record in
  let record := if ttlChanged then setRecordTTL record ttl else record in
  record.

(** [recordUpdateCmd.Run]. *)
Definition recordUpdateCmd (recordID zoneIDOrName name recordType value : string)
    (ttl : Z) (ttlChanged : bool)
    (w : Config.World) (st : Config.State) : list output :=
  match loadClient w st with
  | (out, None) => out
  | (out, Some client) =>
      let '(out', r) := resolveZoneID client zoneIDOrName in
      let out := (out ++ out')%list in
      match r with
      | Err err => (out ++ [Print ("Error: " ++ Error err ++ nl)])%list
      | Ok zoneID =>
          let record :=
            updateRecordOf recordID zoneID name recordType value ttl ttlChanged in
          match UpdateRecord env client record with
          | Err err =>
              (out ++ [Print ("Error updating record: " ++ Error err ++ nl)])%list
          | Ok updatedRecord =>
              (out ++ [Print ("Record updated successfully: "
                              ++ Record_ID updatedRecord ++ nl)])%list
          end
      end
  end.

(** [recordDeleteCmd.Run]. *)
Definition recordDeleteCmd (recordID : string)
    (w : Config.World) (st : Config.State) : list output :=
  match loadClient w st with
  | (out, None) => out
  | (out, Some client) =>
      match DeleteRecord env client recordID with
      | Err err =>
          (out ++ [Print ("Error deleting record: " ++ Error err ++ nl)])%list
      | Ok _ => (out ++ [Print ("Record deleted successfully." ++ nl)])%list
      end
  end.

End Commands.

End Cmd.

(** ** The notions the specification is stated with *)

Module Spec.
Import GoStrings GoJSON Api.

(** Two bytes that are equal or the two cases of one ASCII letter. *)
Definition caseVariants (a b : ascii) : Prop :=
  a = b
  \/ (65 <= byte_of a <= 90 /\ byte_of b = byte_of a + 32)
  \/ (65 <= byte_of b <= 90 /\ byte_of a = byte_of b + 32).

(** Strings that differ only by ASCII letter case. *)
Inductive sameUpToCase : string -> string -> Prop :=
| sameNil : sameUpToCase "" ""
| sameCons a b s t :
    caseVariants a b -> sameUpToCase s t ->
    sameUpToCase (String a s) (String b t).

(** [s] is [base], or [base] followed by a single dot. *)
Definition optionalDot (base s : string) : Prop :=
  s = base \/ s = (base ++ ".")%string.

(** Strings that differ only by ASCII letter case and/or the presence of a
    single trailing dot. *)
Definition sameName (s1 s2 : string) : Prop :=
  exists b1 b2, sameUpToCase b1 b2 /\ optionalDot b1 s1 /\ optionalDot b2 s2.

(** The same, for names that carry no dot of their own at the end. *)
Definition sameBareName (s1 s2 : string) : Prop :=
  exists b1 b2,
    sameUpToCase b1 b2 /\ HasSuffix b1 "." = false
    /\ optionalDot b1 s1 /\ optionalDot b2 s2.

(** The elements of a decoded array that are objects, in order. *)
Fixpoint objects (l : list any) : list (gmap string any) :=
  match l with
  | [] => []
  | AMap m :: rest => m :: objects rest
  | _ :: rest => objects rest
  end.

Definition isArray (v : option any) : Prop := exists l, v = Some (ASlice l).
Definition isNumber (v : any) : Prop := exists f, v = AFloat64 f.

(** A string field of a list entry: the string under [k], and the zero
    value when [k] is missing or holds something else. *)
Definition stringField (m : gmap string any) (k s : string) : Prop :=
  m !! k = Some (AString s)
  \/ ((forall s', m !! k <> Some (AString s')) /\ s = "").

(** An integer field: the conversion of the number under [k], and the zero
    value when [k] is missing or holds something else. *)
Definition intField (env : Env) (m : gmap string any) (k : string) (n : Z) : Prop :=
  (exists f, m !! k = Some (AFloat64 f) /\ n = intOfFloat64 (intOutOfRange env) f)
  \/ ((forall f, m !! k <> Some (AFloat64 f)) /\ n = 0).

Definition recordOf (env : Env) (m : gmap string any) (r : DNSRecord) : Prop :=
  stringField m "id" (Record_ID r)
  /\ stringField m "type" (Record_Type r)
  /\ stringField m "name" (Record_Name r)
  /\ stringField m "value" (Record_Value r)
  /\ intField env m "ttl" (Record_TTL r)
  /\ stringField m "zone_id" (Record_ZoneID r).

Definition zoneOf (env : Env) (m : gmap string any) (z : Zone) : Prop :=
  stringField m "id" (Zone_ID z)
  /\ stringField m "name" (Zone_Name z)
  /\ intField env m "ttl" (Zone_TTL z)
  /\ intField env m "records_count" (Zone_RecordsCount z).

(** A list request that was answered with status 200 and a body whose
    first JSON value [doc] is an object (or [null], read as the empty one). *)
Definition fetched (env : Env) (req : Request) (doc : gmap string any) : Prop :=
  NewRequestError env (Method req) (URL req) = None
  /\ exists resp v,
       Do env req = Done resp /\ StatusCode resp = StatusOK
       /\ Decode env (RespBody resp) = Done v
       /\ intoMap env v = Ok doc.

Definition zonesRequest (c : Client) : Request :=
  mkRequest "GET" (baseURL ++ "/zones")
    [("Auth-API-Token", apiToken c); ("Content-Type", "application/json")] None.

Definition recordsRequest (c : Client) (zoneID : string) : Request :=
  mkRequest "GET" (baseURL ++ "/records?zone_id=" ++ zoneID)
    [("Auth-API-Token", apiToken c); ("Content-Type", "application/json")] None.

Definition deleteRequest (c : Client) (recordID : string) : Request :=
  mkRequest "DELETE" (baseURL ++ "/records/" ++ recordID)
    [("Auth-API-Token", apiToken c)] None.

(** The error of a provider response that is not a success: it is made of
    the raw body and the status code. *)
Definition apiError (resp : Response) : error :=
  ErrAPI (RespBody resp) (StatusCode resp).

Definition isApiError {A : Type} (r : result A) : Prop :=
  exists body status, r = Err (ErrAPI body status).

(** [t] is the integral part of the finite float [(-1)^s * m * 2^e]: the
    magnitudes agree up to the discarded fraction, and the sign is kept. *)
Definition truncates (s : bool) (m : positive) (e : Z) (t : Z) : Prop :=
  Z.abs t * 2 ^ Z.max 0 (- e) <= Z.pos m * 2 ^ Z.max 0 e
  /\ Z.pos m * 2 ^ Z.max 0 e < (Z.abs t + 1) * 2 ^ Z.max 0 (- e)
  /\ (if s then t <= 0 else 0 <= t).

(** The PUT body the specification describes for an update that names only
    the record and the zone: name, type, value and ttl at their zero
    values. *)
Definition carriesZeroFields (body : list (string * jsonValue)) : Prop :=
  member "name" body = Some (JString "")
  /\ member "type" body = Some (JString "")
  /\ member "value" body = Some (JString "")
  /\ member "ttl" body = Some (JNumber 0).

(** [s] is a decimal numeral of [n]. *)
Definition decimalOf (n : Z) (s : string) : Prop :=
  option_map Z.of_int (NilZero.int_of_string s) = Some n.

(** The token a process reads when no file was loaded and nothing was set:
    the environment variable, else the empty string. *)
Definition tokenWithoutFile (w : Config.World) : string :=
  match Config.environ w !! "HETZNER_DNS_API_TOKEN" with
  | Some v => v
  | None => ""
  end.

End Spec.

(** ** A provider and a machine to run the examples on *)

Module Stub.
Import GoStrings GoJSON Api.

(** An environment in which every request is answered by [reply] and every
    body parses to [parse body]. *)
Definition env (reply : Request -> outcome Response)
    (parse : string -> outcome any) : Env :=
  mkEnv (fun _ _ => None) reply parse parse
        (fun _ => "json: cannot unmarshal into Go value of type map[string]interface {}")
        (fun _ => minInt).

(** A provider that answers every request with [status] and a body that
    parses to [doc]. *)
Definition provider (status : Z) (body : string) (doc : any) : Env :=
  env (fun _ => Done (mkResponse status body)) (fun _ => Done doc).

Definition object (members : list (string * any)) : any :=
  AMap (list_to_map members).

Definition zoneObject (id name : string) : any :=
  object [("id", AString id); ("name", AString name)].

Definition zonesDocument (zones : list any) : any :=
  object [("zones", ASlice zones)].

(** 3600 as a [float64]: [0xE1 * 2^4]. *)
Definition f3600 : spec_float := S754_finite false 225 4.
(** 0.5 and -2.75. *)
Definition fHalf : spec_float := S754_finite false 1 (-1).
Definition fMinus2_75 : spec_float := S754_finite true 11 (-2).

Definition client : Client := NewClient "token".

(** A machine with a home directory, a configuration directory and the
    given configuration file. *)
Definition world (file : Config.fileState) (environ : gmap string string)
    : Config.World :=
  Config.mkWorld (inl "/home/op") Config.StatExists None file
                 Config.PathError environ.

(** Two zones: the ID of the first is what the name of the second
    normalizes to. *)
Definition twoZones : any :=
  zonesDocument [zoneObject "example.org" "first.com";
                 zoneObject "z2" "Example.ORG."].

(** A record with every field, and one without [value] and [ttl]. *)
Definition fullRecordFields : gmap string any :=
  list_to_map [("id", AString "r1"); ("type", AString "A");
               ("name", AString "www"); ("value", AString "192.168.1.1");
               ("ttl", AFloat64 f3600); ("zone_id", AString "zone1")].
Definition fullRecord : any := AMap fullRecordFields.
Definition partialRecord : any :=
  object [("id", AString "r2"); ("type", AString "A"); ("name", AString "mail");
          ("zone_id", AString "zone1")].

(** The elements of a record list: between the two records, one that is
    not an object. *)
Definition recordElements : list any :=
  [fullRecord; AString "junk"; partialRecord].

Definition recordsDocument : gmap string any :=
  list_to_map [("records", ASlice recordElements)].

(** A document without the [records] key. *)
Definition metaDocument : gmap string any :=
  list_to_map [("meta", AMap ∅)].

(** The answer to a create or an update: the record under [record]. *)
Definition recordDocument : any := object [("record", fullRecord)].

(** A zone whose [ttl] arrives as a string. *)
Definition stringTTLZone : gmap string any :=
  list_to_map [("id", AString "z1"); ("name", AString "example.com");
               ("ttl", AString "3600")].

End Stub.

(** ** Further notions: the wire, the transport, the disk *)

Module Wire.
Import GoStrings GoJSON Api.





(** The environment [env] with another transport. *)
Definition withDo (env : Env) (do : Request -> outcome Response) : Env :=
  mkEnv (NewRequestError env) do (Decode env) (Unmarshal env)
        (typeErrorMessage env) (intOutOfRange env).

(** The requests of [CreateRecord] and [UpdateRecord]. *)
Definition createRequest (c : Client) (record : DNSRecord) : Request :=
  mkRequest "POST" (baseURL ++ "/records")
    [("Auth-API-Token", apiToken c); ("Content-Type", "application/json")]
    (Some (MarshalRecord record)).

Definition updateRequest (c : Client) (record : DNSRecord) : Request :=
  mkRequest "PUT" (baseURL ++ "/records/" ++ Record_ID record)
    [("Auth-API-Token", apiToken c); ("Content-Type", "application/json")]
    (Some (MarshalRecord record)).

(** A request is accepted by [http.NewRequest] and answered with [resp]. *)
Definition answered (env : Env) (req : Request) (resp : Response) : Prop :=
  NewRequestError env (Method req) (URL req) = None /\ Do env req = Done resp.

End Wire.

(** ** cmd/hetznerdns: the zone command *)

Module ZoneCmd.
Import GoStrings GoJSON Api.

Section ZoneCommand.

Variable env : Env.

(** One [Fprintf] of the loop of [zone list]; [%d] writes the decimal
    numeral. *)
Definition zoneRow (zone : Zone) : string :=
  Zone_ID zone ++ tab ++ Zone_Name zone ++ tab ++ Itoa (Zone_TTL zone) ++ tab
    ++ Itoa (Zone_RecordsCount zone) ++ nl.

Definition zoneTable (zones : list Zone) : Cmd.output :=
  Cmd.Table (("ID" ++ tab ++ "NAME" ++ tab ++ "TTL" ++ tab ++ "RECORDS" ++ nl)
             :: map zoneRow zones).

(** [zoneListCmd.Run]. *)
Definition zoneListCmd (w : Config.World) (st : Config.State) : list Cmd.output :=
  match Cmd.loadClient w st with
  | (out, None) => out
  | (out, Some client) =>
      match GetZones env client with
      | Err err =>
          (out ++ [Cmd.Print ("Error fetching zones: " ++ Error err ++ nl)])%list
      | Ok zones =>
          if (length zones =? 0)%nat
          then (out ++ [Cmd.Print ("No zones found." ++ nl)])%list
          else (out ++ [zoneTable zones])%list
      end
  end.

End ZoneCommand.

End ZoneCmd.

(** ** pkg/config: [SaveConfig] *)

Module Store.

Inductive error : Type :=
| ErrCreateDir (cause : string)
| ErrWriteFile (cause : string).

Definition Error (e : error) : string :=
  match e with
  | ErrCreateDir cause => "error creating config directory: " ++ cause
  | ErrWriteFile cause => "error writing config file: " ++ cause
  end.

(** The file modes 0755 and 0600. *)
Definition mode0755 : Z := 7 * 64 + 5 * 8 + 5.
Definition mode0600 : Z := 6 * 64.

(** What the operating system and viper answer to [SaveConfig]. *)
Record Disk : Type := mkDisk {
  (** [os.Stat(path)] gives no error. *)
  statOK : string -> bool;
  (** [filepath.Dir]. *)
  Dir : string -> string;
  (** The error of [os.MkdirAll(path, 0755)], if it fails. *)
  mkdirAllError : string -> option string;
  (** The error of [os.WriteFile(path, content, 0600)], if it fails. *)
  writeFileError : string -> option string;
  (** The error of [viper.WriteConfig()], if it fails. *)
  writeConfigError : option string
}.

(** The calls [SaveConfig] makes on the disk, the last of which may have
    failed. *)
Inductive call : Type :=
| MkdirAll (path : string) (perm : Z)
| WriteFile (path content : string) (perm : Z)
| WriteConfig.

(** [viper.Set(key, value)]. *)
Definition Set_ (st : Config.State) (key value : string) : Config.State :=
  Config.mkState (Config.configDir st) (Config.configFile st)
                 (<[key := value]> (Config.viperOverride st))
                 (Config.viperConfig st) (Config.viperDefaults st)
                 (Config.viperEnvPrefix st) (Config.viperAutomaticEnv st).

(** [SaveConfig]: what it prints, the state it leaves, the calls it made
    and its error, if any. *)
Definition SaveConfig (d : Disk) (st : Config.State) (config : Config.Config)
    : list string * Config.State * list call * option error :=
  let st := Set_ st "api_token" (Config.APIToken config) in
  let configFile := Config.configFile st in
  let fileExists := statOK d configFile in
  if fileExists
  then
    match writeConfigError d with
    | Some cause => ([], st, [WriteConfig], Some (ErrWriteFile cause))
    | None => ([], st, [WriteConfig], None)
    end
  else
    match mkdirAllError d (Dir d configFile) with
    | Some cause =>
        ([], st, [MkdirAll (Dir d configFile) mode0755], Some (ErrCreateDir cause))
    | None =>
        let content := "api_token: " ++ Config.APIToken config ++ nl in
        match writeFileError d configFile with
        | Some cause =>
            ([], st,
             [MkdirAll (Dir d configFile) mode0755;
              WriteFile configFile content mode0600],
             Some (ErrWriteFile cause))
        | None =>
            (["Created config file at: " ++ configFile ++ nl], st,
             [MkdirAll (Dir d configFile) mode0755;
              WriteFile configFile content mode0600],
             None)
        end
    end.

(** The calls that write a file. *)
Definition isWrite (c : call) : bool :=
  match c with
  | MkdirAll _ _ => false
  | WriteFile _ _ _ => true
  | WriteConfig => true
  end.

End Store.

(** ** cmd/hetznerdns: the configuration commands *)

Module ConfigCmd.



(** The masked token of [config show]: [token[0:4] + "..." +
    token[tokenLen-4:tokenLen]]. *)
Definition maskedToken (token : string) : string :=
  let tokenLen := String.length token in
  substring 0 4 token ++ "..." ++ substring (tokenLen - 4) 4 token.

(** The line [config show] prints for a token. *)
Definition tokenLine (token : string) : string :=
  if (token =? "")%string then "API token: Not set" ++ nl
  else
    let tokenLen := String.length token in
    if (8 <? tokenLen)%nat
    then "API token: " ++ maskedToken token ++ nl
    else "API token: ********" ++ nl.

(** [configShowCmd.Run]. *)
Definition configShowCmd (w : Config.World) (st : Config.State) : list Cmd.output :=
  let '(notes, _, _, r) := Config.LoadConfig w st in
  let out := map Cmd.Print notes in
  match r with
  | inr err =>
      (out ++ [Cmd.Print ("Error loading config: " ++ Config.Error err ++ nl)])%list
  | inl cfg => (out ++ [Cmd.Print (tokenLine (Config.APIToken cfg))])%list
  end.

End ConfigCmd.

(** ** cmd/hetznerdns: the machine-readable help *)

Module LLMHelp.

Record Example : Type := mkExample {
  Example_Description : string;
  Example_Command : string
}.

Record FlagOption : Type := mkFlagOption {
  FlagOption_Name : string;
  FlagOption_Shorthand : string;
  FlagOption_Description : string;
  FlagOption_Type : string;
  FlagOption_Required : bool
}.

Inductive CommandOption : Type :=
| mkCommandOption (name description : string) (examples : list Example)
    (subcommands : list CommandOption) (flags : list FlagOption).

Definition Option_Name (o : CommandOption) : string :=
  match o with mkCommandOption n _ _ _ _ => n end.
Definition Option_Description (o : CommandOption) : string :=
  match o with mkCommandOption _ d _ _ _ => d end.
Definition Option_Examples (o : CommandOption) : list Example :=
  match o with mkCommandOption _ _ e _ _ => e end.
Definition Option_Subcommands (o : CommandOption) : list CommandOption :=
  match o with mkCommandOption _ _ _ s _ => s end.
Definition Option_Flags (o : CommandOption) : list FlagOption :=
  match o with mkCommandOption _ _ _ _ f => f end.

(** A [pflag.Flag]: its name, shorthand, usage and the type of its value,
    and whether it carries the annotation that marks it as required. *)
Record Flag : Type := mkFlag {
  Flag_Name : string;
  Flag_Shorthand : string;
  Flag_Usage : string;
  Flag_Type : string;
  Flag_Required : bool
}.

(** A [cobra.Command] as [getCommandOptions] reads it: [Flags] lists the
    flags in the order [VisitAll] visits them, [Commands] the children in
    the order [Commands()] returns them. *)
Inductive Command : Type :=
| mkCommand (name short long : string) (hidden : bool) (flags : list Flag)
    (commands : list Command).

Definition Name (c : Command) : string :=
  match c with mkCommand n _ _ _ _ _ => n end.
Definition Short (c : Command) : string :=
  match c with mkCommand _ s _ _ _ _ => s end.
Definition Long (c : Command) : string :=
  match c with mkCommand _ _ l _ _ _ => l end.
Definition Hidden (c : Command) : bool :=
  match c with mkCommand _ _ _ h _ _ => h end.
Definition Flags (c : Command) : list Flag :=
  match c with mkCommand _ _ _ _ f _ => f end.
Definition Commands (c : Command) : list Command :=
  match c with mkCommand _ _ _ _ _ s => s end.

(** [parseExamples]. *)
Definition parseExamples (cmdName : string) : list Example :=
  if (cmdName =? "config")%string then
    [ mkExample "Set API token interactively" "hetznerdns config set";
      mkExample "Set API token directly"
                "hetznerdns config set api-token YOUR_API_TOKEN";
      mkExample "Show current configuration" "hetznerdns config show" ]
  else if (cmdName =? "zone")%string then
    [ mkExample "List all DNS zones" "hetznerdns zone list" ]
  else if (cmdName =? "record")%string then
    [ mkExample "List records for a zone"
                "hetznerdns record list --zone example.com";
      mkExample "Create an A record"
                "hetznerdns record create --zone example.com --name www --type A --value 192.168.1.1 --ttl 3600";
      mkExample "Create a CNAME record"
                "hetznerdns record create --zone example.com --name blog --type CNAME --value example.com";
      mkExample "Create an MX record"
                ("hetznerdns record create --zone example.com --name @ --type MX --value "
                 ++ String (ascii_of_nat 34) "10 mail.example.com"
                 ++ String (ascii_of_nat 34) EmptyString);
      mkExample "Update a record"
                "hetznerdns record update --id RECORD_ID --zone example.com --value 192.168.1.2";
      mkExample "Delete a record" "hetznerdns record delete --id RECORD_ID" ]
  else if (cmdName =? "version")%string then
    [ mkExample "Show version information" "hetznerdns version" ]
  else if (cmdName =? "llmhelp")%string then
    [ mkExample "Get machine-readable help information" "hetznerdns llmhelp" ]
  else [].

(** [flags.Lookup(name)]. *)
Fixpoint Lookup (flags : list Flag) (name : string) : option Flag :=
  match flags with
  | [] => None
  | f :: rest => if (Flag_Name f =? name)%string then Some f else Lookup rest name
  end.

(** The annotation [MarkFlagRequired] sets on the flag called [name]. *)
Fixpoint annotate (flags : list Flag) (name : string) : list Flag :=
  match flags with
  | [] => []
  | f :: rest =>
      if (Flag_Name f =? name)%string
      then mkFlag (Flag_Name f) (Flag_Shorthand f) (Flag_Usage f) (Flag_Type f) true
             :: rest
      else f :: annotate rest name
  end.

(** [cmd.MarkFlagRequired(name)]: the flags afterwards, and whether the
    error is nil; a flag that does not exist is an error. *)
Definition MarkFlagRequired (flags : list Flag) (name : string) : list Flag * bool :=
  match Lookup flags name with
  | Some _ => (annotate flags name, true)
  | None => (flags, false)
  end.

(** The [VisitAll] loop over the flags still to visit: [flagSet] is
    [cmd.Flags()], which the closure changes as it goes. *)
Fixpoint visitAll (toVisit : list Flag) (flagSet : list Flag)
    : list FlagOption * list Flag :=
  match toVisit with
  | [] => ([], flagSet)
  | flag :: rest =>
      let '(flagSet, required) :=
        match Lookup flagSet (Flag_Name flag) with
        | Some _ => MarkFlagRequired flagSet (Flag_Name flag)
        | None => (flagSet, false)
        end in
      let '(options, flagSet) := visitAll rest flagSet in
      (mkFlagOption (Flag_Name flag) (Flag_Shorthand flag) (Flag_Usage flag)
                    (Flag_Type flag) required :: options,
       flagSet)
  end.

(** [getCommandOptions]: the option it returns, and the command tree as
    the calls of [MarkFlagRequired] leave it. *)
Fixpoint getCommandOptions (cmd : Command) : CommandOption * Command :=
  match cmd with
  | mkCommand name short long hidden flags commands =>
      let description := long in
      let description := if (description =? "")%string then short else description in
      let examples := parseExamples name in
      let '(flagOptions, flags) := visitAll flags flags in
      let subcommands :=
        (fix loop (l : list Command) : list CommandOption * list Command :=
           match l with
           | [] => ([], [])
           | subCmd :: rest =>
               if negb (Hidden subCmd)
               then
                 let '(o, subCmd) := getCommandOptions subCmd in
                 let '(os, rest) := loop rest in
                 (o :: os, subCmd :: rest)
               else
                 let '(os, rest) := loop rest in
                 (os, subCmd :: rest)
           end) commands in
      (mkCommandOption name description examples (fst subcommands) flagOptions,
       mkCommand name short long hidden flags (snd subcommands))
  end.

(** [llmHelpCmd.Run] up to the JSON text: the document it marshals. *)
Definition llmHelpCmd (rootCmd : Command) : CommandOption :=
  fst (getCommandOptions rootCmd).

(** Every flag of [o] and of the options below it is reported required. *)
Fixpoint allRequired (o : CommandOption) : bool :=
  match o with
  | mkCommandOption _ _ _ subcommands flags =>
      forallb FlagOption_Required flags && forallb allRequired subcommands
  end.

(** The names of an option tree, and of the part of a command tree that
    can be reached without passing a hidden command below the root. *)
Inductive names : Type :=
| Names (name : string) (below : list names).

Fixpoint optionNames (o : CommandOption) : names :=
  match o with
  | mkCommandOption name _ _ subcommands _ =>
      Names name (map optionNames subcommands)
  end.

Fixpoint visibleNames (c : Command) : names :=
  match c with
  | mkCommand name _ _ _ _ commands =>
      Names name
        ((fix all (l : list Command) : list names :=
            match l with
            | [] => []
            | c' :: rest =>
                if Hidden c' then all rest else visibleNames c' :: all rest
            end) commands)
  end.

(** Induction on a command tree: a property that holds for a command
    whenever it holds for its children holds for every command. *)
Section CommandInduction.

Variable P : Command -> Prop.
Hypothesis step :
  forall name short long hidden flags commands,
    Forall P commands ->
    P (mkCommand name short long hidden flags commands).

Fixpoint Command_tree_ind (c : Command) : P c :=
  match c with
  | mkCommand name short long hidden flags commands =>
      step name short long hidden flags commands
        ((fix all (l : list Command) : Forall P l :=
            match l with
            | [] => @List.Forall_nil _ P
            | c0 :: rest =>
                @List.Forall_cons _ P c0 rest (Command_tree_ind c0) (all rest)
            end) commands)
  end.

End CommandInduction.

(** [s] begins with [prefix]. *)
Definition HasPrefix (s prefix : string) : bool :=
  (String.length prefix <=? String.length s)%nat
  && (substring 0 (String.length prefix) s =? prefix)%string.

End LLMHelp.

(** ** Further examples *)

Module Examples.
Import GoStrings GoJSON Api Wire.


(** A record sent back with its timestamps. *)
Definition timedRecordDocument : any :=
  Stub.object
    [("record",
      Stub.object [("id", AString "r1"); ("type", AString "A");
                   ("name", AString "www"); ("value", AString "192.168.1.1");
                   ("zone_id", AString "zone1");
                   ("created", AString "2024-01-01 00:00:00 +0000 UTC");
                   ("modified", AString "2024-01-02 00:00:00 +0000 UTC")])].


(** A provider with two zones, whose every zone holds the records of
    [Stub.recordsDocument]: the body names the document it parses to. *)
Definition routes (req : Request) : outcome Response :=
  if (URL req =? "https://dns.hetzner.com/api/v1/zones")%string
  then Done (mkResponse 200 "zones")
  else if (Method req =? "DELETE")%string
       then Done (mkResponse 404 "record not found")
       else Done (mkResponse 200 "records").

Definition bodies (body : string) : outcome any :=
  if (body =? "zones")%string then Done Stub.twoZones
  else Done (AMap Stub.recordsDocument).

Definition hetzner : Env := Stub.env routes bodies.

(** A provider that knows the two zones and answers every other request
    with 201 and a record without fields. *)
Definition silent : Env :=
  Stub.env
    (fun req =>
       if (URL req =? "https://dns.hetzner.com/api/v1/zones")%string
       then Done (mkResponse 200 "zones") else Done (mkResponse 201 "record"))
    (fun body =>
       if (body =? "zones")%string then Done Stub.twoZones
       else Done (Stub.object [("record", Stub.object [])])).

(** A machine whose token comes from the environment. *)
Definition tokenWorld : Config.World :=
  Stub.world Config.FileAbsent {[ "HETZNER_DNS_API_TOKEN" := "secret-token-1234" ]}.

(** A machine without any token. *)
Definition bareWorld : Config.World := Stub.world Config.FileAbsent ∅.

(** A disk without the configuration file of [/home/op], on which every
    call succeeds. *)
Definition emptyDisk : Store.Disk :=
  Store.mkDisk (fun _ => false)
               (fun path =>
                  if (path =? "/home/op/.config/hetznerdns/config.yaml")%string
                  then "/home/op/.config/hetznerdns" else ".")
               (fun _ => None) (fun _ => None) None.

(** The [record] command as [init] builds it: the children by name and the
    flags by name, as cobra sorts them. *)
Definition zoneFlag : LLMHelp.Flag :=
  LLMHelp.mkFlag "zone" "z" "Zone ID or name (required)" "string" true.

Definition idFlag : LLMHelp.Flag :=
  LLMHelp.mkFlag "id" "i" "Record ID (required)" "string" true.

Definition recordCreateCmd : LLMHelp.Command :=
  LLMHelp.mkCommand "create" "Create a DNS record"
    "Create a new DNS record in a specific zone." false
    [ LLMHelp.mkFlag "name" "n" "Record name (required)" "string" true;
      LLMHelp.mkFlag "ttl" "" "Time to live in seconds (optional)" "int" false;
      LLMHelp.mkFlag "type" "t"
        "Record type (A, AAAA, CNAME, MX, TXT, etc.) (required)" "string" true;
      LLMHelp.mkFlag "value" "v" "Record value (required)" "string" true;
      zoneFlag ]
    [].

Definition recordUpdateCmd : LLMHelp.Command :=
  LLMHelp.mkCommand "update" "Update a DNS record"
    "Update an existing DNS record." false
    [ idFlag;
      LLMHelp.mkFlag "name" "n" "Record name" "string" false;
      LLMHelp.mkFlag "ttl" "" "Time to live in seconds" "int" false;
      LLMHelp.mkFlag "type" "t" "Record type (A, AAAA, CNAME, MX, TXT, etc.)"
        "string" false;
      LLMHelp.mkFlag "value" "v" "Record value" "string" false;
      zoneFlag ]
    [].

Definition recordCmd : LLMHelp.Command :=
  LLMHelp.mkCommand "record" "Manage DNS records"
    "Create, list, update, and delete DNS records." false []
    [ recordCreateCmd;
      LLMHelp.mkCommand "delete" "Delete a DNS record"
        "Delete an existing DNS record." false [idFlag] [];
      LLMHelp.mkCommand "list" "List DNS records"
        "List all DNS records for a specific zone." false [zoneFlag] [];
      recordUpdateCmd ].

(** A tree with a hidden command that has a visible child. *)
Definition withHidden : LLMHelp.Command :=
  LLMHelp.mkCommand "tool" "A tool" "" false []
    [ LLMHelp.mkCommand "debug" "Debugging" "" true []
        [ LLMHelp.mkCommand "dump" "Dump the state" "" false [] [] ];
      LLMHelp.mkCommand "version" "Print the version number" "" false [] [] ].

End Examples.

(** * Properties *)

Import GoStrings GoJSON Api Spec.

(** ** Bytes, [ToLower] and [TrimSuffix] *)

Lemma byte_of_range c : 0 <= byte_of c < 256.
Proof. destruct c as [[] [] [] [] [] [] [] []]; vm_compute; split; congruence. Qed.

Lemma ascii_of_byte_of c : ascii_of (byte_of c) = c.
Proof. unfold ascii_of, byte_of. rewrite N2Z.id. apply ascii_N_embedding. Qed.

Lemma byte_of_inj a b : byte_of a = byte_of b -> a = b.
Proof. intros H. rewrite <- (ascii_of_byte_of a), <- (ascii_of_byte_of b). congruence. Qed.

Lemma byte_of_ascii_of b : 0 <= b < 256 -> byte_of (ascii_of b) = b.
Proof.
  intros H. unfold ascii_of, byte_of.
  rewrite N_ascii_embedding; lia.
Qed.

Lemma lowerByte_upper c :
  65 <= byte_of c <= 90 -> byte_of (lowerByte c) = byte_of c + 32.
Proof.
  intros H. unfold lowerByte, isUpperByte.
  replace (65 <=? byte_of c) with true by lia.
  replace (byte_of c <=? 90) with true by lia. simpl.
  rewrite byte_of_ascii_of; lia.
Qed.

Lemma lowerByte_other c :
  ~ (65 <= byte_of c <= 90) -> lowerByte c = c.
Proof.
  intros H. unfold lowerByte, isUpperByte.
  destruct (65 <=? byte_of c) eqn:E1, (byte_of c <=? 90) eqn:E2; simpl; try reflexivity.
  lia.
Qed.

Lemma caseVariants_lowerByte a b : caseVariants a b -> lowerByte a = lowerByte b.
Proof.
  intros [-> | [[Ha Hb] | [Hb Ha]]]; [reflexivity | |]; apply byte_of_inj.
  - rewrite (lowerByte_upper a Ha), (lowerByte_other b); lia.
  - rewrite (lowerByte_upper b Hb), (lowerByte_other a); lia.
Qed.

Lemma sameUpToCase_lowerASCII s t : sameUpToCase s t -> lowerASCII s = lowerASCII t.
Proof.
  induction 1; simpl; [reflexivity |].
  f_equal; [by apply caseVariants_lowerByte | assumption].
Qed.

Lemma lowerByte_cases c :
  lowerByte c = c
  \/ (byte_of c < 128 /\ byte_of (lowerByte c) < 128
      /\ byte_of (lowerByte c) = byte_of c + 32 /\ 65 <= byte_of c <= 90).
Proof.
  destruct (Z_le_dec 65 (byte_of c)) as [H1 |]; [| left; apply lowerByte_other; lia].
  destruct (Z_le_dec (byte_of c) 90) as [H2 |]; [| left; apply lowerByte_other; lia].
  right. rewrite lowerByte_upper by lia. lia.
Qed.

Lemma lowerByte_idem c : lowerByte (lowerByte c) = lowerByte c.
Proof.
  destruct (lowerByte_cases c) as [E | (_ & _ & H & H')]; [by rewrite !E |].
  apply lowerByte_other. lia.
Qed.

Lemma lowerASCII_idem s : lowerASCII (lowerASCII s) = lowerASCII s.
Proof. induction s; simpl; [reflexivity |]. by rewrite lowerByte_idem, IHs. Qed.

Lemma lowerASCII_length s : String.length (lowerASCII s) = String.length s.
Proof. induction s; simpl; congruence. Qed.

Lemma isASCII_lowerASCII s : isASCII (lowerASCII s) = isASCII s.
Proof.
  induction s as [| c s IH]; simpl; [reflexivity |].
  rewrite IH. unfold RuneSelf.
  destruct (lowerByte_cases c) as [E | (H1 & H2 & _)]; [by rewrite E |].
  replace (128 <=? byte_of (lowerByte c)) with false by lia.
  replace (128 <=? byte_of c) with false by lia. reflexivity.
Qed.

Lemma hasUpper_false_lowerASCII s : hasUpper s = false -> lowerASCII s = s.
Proof.
  induction s as [| c s IH]; simpl; [reflexivity |].
  intros [H1 H2]%orb_false_iff. rewrite (IH H2). f_equal.
  unfold lowerByte. by rewrite H1.
Qed.

Lemma ToLower_ascii tbl s : isASCII s = true -> ToLower tbl s = lowerASCII s.
Proof.
  intros H. unfold ToLower. rewrite H.
  destruct (hasUpper s) eqn:E; [reflexivity |].
  symmetry. by apply hasUpper_false_lowerASCII.
Qed.

Lemma index_0 c s : index (String c s) 0 = byte_of c.
Proof. reflexivity. Qed.

Lemma index_S c s i : index (String c s) (S i) = index s i.
Proof. reflexivity. Qed.

(* bytes of the lowered string: same, or both below 0x80 *)
Lemma index_lowerASCII s i :
  index (lowerASCII s) i = index s i
  \/ (index s i < 128 /\ index (lowerASCII s) i < 128).
Proof.
  revert i. induction s as [| c s IH]; intros i; [left; reflexivity |].
  destruct i as [| i]; simpl lowerASCII.
  - rewrite !index_0. destruct (lowerByte_cases c) as [E | H]; [left; by rewrite E | right; lia].
  - rewrite !index_S. apply IH.
Qed.

Lemma unicode_ToLower_lowerByte tbl c :
  byte_of c < 128 ->
  unicode_ToLower tbl (byte_of (lowerByte c)) = unicode_ToLower tbl (byte_of c).
Proof.
  intros Hc. pose proof (byte_of_range c) as Hr.
  destruct (lowerByte_cases c) as [E | (_ & _ & H & H')]; [by rewrite E |].
  rewrite H. unfold unicode_ToLower, MaxASCII.
  replace (byte_of c + 32 <=? 127) with true by lia.
  replace (byte_of c <=? 127) with true by lia.
  replace (65 <=? byte_of c + 32) with true by lia.
  replace (byte_of c + 32 <=? 90) with false by lia.
  replace (65 <=? byte_of c) with true by lia.
  replace (byte_of c <=? 90) with true by lia.
  simpl. lia.
Qed.

Lemma Decode_congr s t :
  String.length t = String.length s ->
  index t 0 = index s 0 ->
  128 <= index s 0 ->
  (forall i, index t i = index s i \/ (index s i < 128 /\ index t i < 128)) ->
  DecodeRuneInString t = DecodeRuneInString s.
Proof.
  intros Hn H0 Hhi Hi.
  pose proof (Hi 1%nat) as H1. pose proof (Hi 2%nat) as H2.
  pose proof (Hi 3%nat) as H3. clear Hi.
  unfold DecodeRuneInString. cbv zeta. rewrite Hn, H0.
  destruct (String.length s <? 1)%nat; [reflexivity |].
  assert (Hlo : 128 <= fst (acceptRanges (Z.shiftr (first (index s 0)) 4))).
  { unfold acceptRanges, locb, hicb.
    repeat match goal with |- context [if ?b then _ else _] => destruct b end;
      simpl; lia. }
  destruct (as_ <=? first (index s 0)); [reflexivity |].
  destruct (String.length s <? Z.to_nat (Z.land (first (index s 0)) 7))%nat;
    [reflexivity |].
  destruct H1 as [-> | [H1 H1']].
  2:{ replace (index t 1 <? fst (acceptRanges (Z.shiftr (first (index s 0)) 4)))
        with true by lia.
      replace (index s 1 <? fst (acceptRanges (Z.shiftr (first (index s 0)) 4)))
        with true by lia.
      reflexivity. }
  destruct ((index s 1 <? _) || _); [reflexivity |].
  destruct (Z.to_nat (Z.land (first (index s 0)) 7) <=? 2)%nat; [reflexivity |].
  destruct H2 as [-> | [H2 H2']].
  2:{ unfold locb. replace (index t 2 <? 128) with true by lia.
      replace (index s 2 <? 128) with true by lia. reflexivity. }
  destruct ((index s 2 <? _) || _); [reflexivity |].
  destruct (Z.to_nat (Z.land (first (index s 0)) 7) <=? 3)%nat; [reflexivity |].
  destruct H3 as [-> | [H3 H3']].
  2:{ unfold locb. replace (index t 3 <? 128) with true by lia.
      replace (index s 3 <? 128) with true by lia. reflexivity. }
  reflexivity.
Qed.

Lemma Decode_ascii c s :
  byte_of c < 128 -> DecodeRuneInString (String c s) = (byte_of c, 1%nat).
Proof.
  intros Hc. unfold DecodeRuneInString. cbv zeta.
  rewrite index_0. simpl String.length. simpl (_ <? 1)%nat. cbv iota.
  unfold first. replace (byte_of c <? 128) with true by lia. reflexivity.
Qed.

(* decoding the lowered string: same width, and a rune with the same lower case *)
Lemma Decode_lowerASCII tbl c s :
  let d := DecodeRuneInString (String c s) in
  let d' := DecodeRuneInString (String (lowerByte c) (lowerASCII s)) in
  snd d' = snd d /\ unicode_ToLower tbl (fst d') = unicode_ToLower tbl (fst d).
Proof.
  intros d d'. subst d d'.
  pose proof (byte_of_range c) as Hr.
  destruct (Z_lt_dec (byte_of c) 128) as [Hc | Hc].
  - assert (byte_of (lowerByte c) < 128).
    { destruct (lowerByte_cases c) as [E | H]; [rewrite E |]; lia. }
    rewrite !Decode_ascii by lia. simpl. split; [reflexivity |].
    by apply unicode_ToLower_lowerByte.
  - rewrite (lowerByte_other c) by lia.
    rewrite (Decode_congr (String c s) (String c (lowerASCII s)));
      [split; reflexivity | | | |].
    + simpl. by rewrite lowerASCII_length.
    + reflexivity.
    + rewrite index_0. lia.
    + intros [| i]; [left; reflexivity |]. rewrite !index_S. apply index_lowerASCII.
Qed.

Lemma mapRunes_0 mapping c s :
  mapRunes mapping 0 (String c s)
  = String.append
      (if 0 <=? mapping (fst (DecodeRuneInString (String c s)))
       then EncodeRune (mapping (fst (DecodeRuneInString (String c s))))
       else "")
      (mapRunes mapping (Nat.pred (snd (DecodeRuneInString (String c s)))) s).
Proof.
  change (mapRunes mapping 0 (String c s))
    with (let '(r, width) := DecodeRuneInString (String c s) in
          String.append (if 0 <=? mapping r then EncodeRune (mapping r) else "")
                        (mapRunes mapping (Nat.pred width) s)).
  by destruct (DecodeRuneInString (String c s)).
Qed.

Lemma mapRunes_lowerASCII tbl skip s :
  mapRunes (unicode_ToLower tbl) skip (lowerASCII s)
  = mapRunes (unicode_ToLower tbl) skip s.
Proof.
  revert skip. induction s as [| c s IH]; intros skip; [reflexivity |].
  destruct skip as [| k]; [| simpl; apply IH].
  simpl lowerASCII. rewrite !mapRunes_0.
  destruct (Decode_lowerASCII tbl c s) as [Hw Hr].
  rewrite Hw, Hr, IH. reflexivity.
Qed.

Lemma ToLower_lowerASCII tbl s : ToLower tbl (lowerASCII s) = ToLower tbl s.
Proof.
  destruct (isASCII s) eqn:E.
  - rewrite !ToLower_ascii by (by rewrite ?isASCII_lowerASCII).
    apply lowerASCII_idem.
  - unfold ToLower. rewrite isASCII_lowerASCII, E. apply mapRunes_lowerASCII.
Qed.

Lemma ToLower_sameUpToCase tbl s t :
  sameUpToCase s t -> ToLower tbl s = ToLower tbl t.
Proof.
  intros H%sameUpToCase_lowerASCII.
  by rewrite <- (ToLower_lowerASCII tbl s), H, ToLower_lowerASCII.
Qed.

Lemma HasSuffix_dot_single c : HasSuffix (String c "") "." = (String c "" =? ".")%string.
Proof. reflexivity. Qed.

Lemma HasSuffix_dot_cons c d s :
  HasSuffix (String c (String d s)) "." = HasSuffix (String d s) ".".
Proof.
  unfold HasSuffix. simpl String.length.
  replace (S (S (String.length s)) - 1)%nat with (S (String.length s)) by lia.
  replace (S (String.length s) - 1)%nat with (String.length s) by lia.
  reflexivity.
Qed.

Lemma TrimSuffix_dot_cons c d s :
  TrimSuffix (String c (String d s)) "." = String c (TrimSuffix (String d s) ".").
Proof.
  unfold TrimSuffix. rewrite HasSuffix_dot_cons.
  destruct (HasSuffix (String d s) "."); [| reflexivity].
  simpl String.length.
  replace (S (S (String.length s)) - 1)%nat with (S (String.length s)) by lia.
  replace (S (String.length s) - 1)%nat with (String.length s) by lia.
  reflexivity.
Qed.

Lemma HasSuffix_app_dot s : HasSuffix (s ++ ".") "." = true.
Proof.
  induction s as [| c s IH]; [reflexivity |].
  destruct s as [| d s]; [reflexivity |].
  change (String c (String d s) ++ ".")%string with (String c (String d (s ++ "."))).
  rewrite HasSuffix_dot_cons. exact IH.
Qed.

Lemma TrimSuffix_app_dot s : TrimSuffix (s ++ ".") "." = s.
Proof.
  induction s as [| c s IH]; [reflexivity |].
  destruct s as [| d s]; [reflexivity |].
  change (String c (String d s) ++ ".")%string with (String c (String d (s ++ "."))).
  rewrite TrimSuffix_dot_cons. f_equal. exact IH.
Qed.

Lemma TrimSuffix_no_dot s : HasSuffix s "." = false -> TrimSuffix s "." = s.
Proof. intros H. unfold TrimSuffix. by rewrite H. Qed.

Lemma byte_of_dot : byte_of "." = 46.
Proof. reflexivity. Qed.

Lemma caseVariants_dot a b :
  caseVariants a b -> (String a "" =? ".")%string = (String b "" =? ".")%string.
Proof.
  unfold caseVariants. intros H.
  destruct (String.eqb_spec (String a "") ".") as [Ea | Na],
           (String.eqb_spec (String b "") ".") as [Eb | Nb]; try reflexivity; exfalso.
  - injection Ea as ->. rewrite byte_of_dot in H.
    destruct H as [<- | [[Ha Hb] | [Hb Ha]]]; [by apply Nb | lia |].
    pose proof (byte_of_range b). lia.
  - injection Eb as ->. rewrite byte_of_dot in H.
    destruct H as [-> | [[Ha Hb] | [Hb Ha]]]; [by apply Na | | lia].
    pose proof (byte_of_range a). lia.
Qed.

Lemma sameUpToCase_HasSuffix_dot s t :
  sameUpToCase s t -> HasSuffix s "." = HasSuffix t ".".
Proof.
  induction 1 as [| a b s t Hab Hst IH]; [reflexivity |].
  destruct Hst as [| a' b' s' t' Hab' Hst'].
  - rewrite !HasSuffix_dot_single. by apply caseVariants_dot.
  - by rewrite !HasSuffix_dot_cons.
Qed.

Lemma normalize_sameUpToCase tbl b1 b2 :
  sameUpToCase b1 b2 ->
  HasSuffix b1 "." = false ->
  Api.normalize tbl b1 = Api.normalize tbl b2.
Proof.
  intros H Hd. unfold Api.normalize.
  rewrite !TrimSuffix_no_dot by (by rewrite <- ?(sameUpToCase_HasSuffix_dot _ _ H)).
  by apply ToLower_sameUpToCase.
Qed.

(** ** The two loops of the resolver *)

Lemma lowerByte_caseVariants a b : lowerByte a = lowerByte b -> caseVariants a b.
Proof.
  intros H. unfold caseVariants.
  destruct (lowerByte_cases a) as [Ea | (_ & _ & Ea & Ha)],
           (lowerByte_cases b) as [Eb | (_ & _ & Eb & Hb)].
  - left. congruence.
  - right; right. split; [exact Hb |]. rewrite <- Eb, <- H, Ea. reflexivity.
  - right; left. split; [exact Ha |]. rewrite <- Ea, H, Eb. reflexivity.
  - left. apply byte_of_inj. rewrite H in Ea. lia.
Qed.

Lemma lowerASCII_sameUpToCase s t : lowerASCII s = lowerASCII t -> sameUpToCase s t.
Proof.
  revert t. induction s as [| a s IH]; intros [| b t] H; try discriminate.
  - constructor.
  - simpl in H. injection H as Hab Hst.
    constructor; [by apply lowerByte_caseVariants | by apply IH].
Qed.

Lemma sameUpToCase_sym s t : sameUpToCase s t -> sameUpToCase t s.
Proof.
  intros H. apply lowerASCII_sameUpToCase. symmetry. by apply sameUpToCase_lowerASCII.
Qed.

Lemma normalize_optionalDot tbl b s :
  HasSuffix b "." = false -> optionalDot b s ->
  normalize tbl s = ToLower tbl b.
Proof.
  intros Hb [-> | ->]; unfold normalize.
  - by rewrite TrimSuffix_no_dot.
  - by rewrite TrimSuffix_app_dot.
Qed.

Lemma normalize_sameBareName tbl s1 s2 :
  sameBareName s1 s2 -> normalize tbl s1 = normalize tbl s2.
Proof.
  intros (b1 & b2 & Hb & Hd & H1 & H2).
  rewrite (normalize_optionalDot tbl b1 s1 Hd H1).
  rewrite (normalize_optionalDot tbl b2 s2); [by apply ToLower_sameUpToCase | | exact H2].
  by rewrite <- (sameUpToCase_HasSuffix_dot _ _ Hb).
Qed.

Lemma idLoop_None input zones :
  Forall (fun z => Zone_ID z <> input) zones -> Cmd.idLoop input zones = None.
Proof.
  induction 1 as [| z zones Hz _ IH]; simpl; [reflexivity |].
  destruct (String.eqb_spec (Zone_ID z) input); [contradiction | exact IH].
Qed.

Lemma idLoop_Some input zones z :
  Cmd.idLoop input zones = Some z -> In z zones /\ Zone_ID z = input.
Proof.
  induction zones as [| z' zones IH]; simpl; [discriminate |].
  destruct (String.eqb_spec (Zone_ID z') input) as [E | _].
  - intros [= <-]. auto.
  - intros H. destruct (IH H). auto.
Qed.

Lemma idLoop_first input pre z post :
  Forall (fun z' => Zone_ID z' <> input) pre -> Zone_ID z = input ->
  Cmd.idLoop input (pre ++ z :: post) = Some z.
Proof.
  intros Hpre Hz. induction Hpre as [| z' pre Hz' _ IH]; simpl.
  - destruct (String.eqb_spec (Zone_ID z) input); [reflexivity | contradiction].
  - destruct (String.eqb_spec (Zone_ID z') input); [contradiction | exact IH].
Qed.

Lemma idLoop_Exists input zones :
  Exists (fun z => Zone_ID z = input) zones ->
  exists z, Cmd.idLoop input zones = Some z /\ Zone_ID z = input.
Proof.
  induction zones as [| z' zones IH]; intros H; [by apply Exists_nil in H |].
  simpl. destruct (String.eqb_spec (Zone_ID z') input) as [E | N]; [eauto |].
  apply Exists_cons in H as [H | H]; [contradiction | auto].
Qed.

Lemma nameLoop_None tbl n zones :
  Forall (fun z => normalize tbl (Zone_Name z) <> n) zones ->
  Cmd.nameLoop tbl n zones = None.
Proof.
  induction 1 as [| z zones Hz _ IH]; simpl; [reflexivity |].
  destruct (String.eqb_spec (normalize tbl (Zone_Name z)) n); [contradiction | exact IH].
Qed.

Lemma nameLoop_Some tbl n zones z :
  Cmd.nameLoop tbl n zones = Some z ->
  In z zones /\ normalize tbl (Zone_Name z) = n.
Proof.
  induction zones as [| z' zones IH]; simpl; [discriminate |].
  destruct (String.eqb_spec (normalize tbl (Zone_Name z')) n) as [E | _].
  - intros [= <-]. auto.
  - intros H. destruct (IH H). auto.
Qed.

Lemma nameLoop_first tbl n pre z post :
  Forall (fun z' => normalize tbl (Zone_Name z') <> n) pre ->
  normalize tbl (Zone_Name z) = n ->
  Cmd.nameLoop tbl n (pre ++ z :: post) = Some z.
Proof.
  intros Hpre Hz. induction Hpre as [| z' pre Hz' _ IH]; simpl.
  - destruct (String.eqb_spec (normalize tbl (Zone_Name z)) n); [reflexivity | contradiction].
  - destruct (String.eqb_spec (normalize tbl (Zone_Name z')) n); [contradiction | exact IH].
Qed.

(** What [resolveZoneID] returns, in terms of its two loops. *)
Lemma resolveZoneID_result env tbl client input zones :
  GetZones env client = Ok zones ->
  snd (Cmd.resolveZoneID env tbl client input)
  = match Cmd.idLoop input zones with
    | Some z => Ok (Zone_ID z)
    | None =>
        match Cmd.nameLoop tbl (normalize tbl input) zones with
        | Some z => Ok (Zone_ID z)
        | None => Err (ErrZoneIDOrName input)
        end
    end.
Proof.
  intros H. unfold Cmd.resolveZoneID. rewrite H.
  destruct (Cmd.idLoop input zones); [reflexivity |].
  destruct (Cmd.nameLoop tbl (normalize tbl input) zones); reflexivity.
Qed.

(** ** The zone resolver *)

(** C1.  On the zones the provider returned, [resolveZoneID] first looks, in
    the order returned, for a zone whose raw ID is the input byte for byte
    and returns that ID, whatever the names of the zones are; only when no
    ID is the input does it return the ID of the first zone whose normalized
    name is the normalized input; and a success is always one of these two
    cases, so no normalization enters the ID phase. *)
Theorem C1_id_phase_before_name_phase env tbl client input zones :
  GetZones env client = Ok zones ->
  (forall pre z post,
      zones = (pre ++ z :: post)%list -> Zone_ID z = input ->
      Forall (fun z' => Zone_ID z' <> input) pre ->
      snd (Cmd.resolveZoneID env tbl client input) = Ok (Zone_ID z))
  /\ (Exists (fun z => Zone_ID z = input) zones ->
      snd (Cmd.resolveZoneID env tbl client input) = Ok input)
  /\ (Forall (fun z => Zone_ID z <> input) zones ->
      forall pre z post,
        zones = (pre ++ z :: post)%list ->
        normalize tbl (Zone_Name z) = normalize tbl input ->
        Forall (fun z' => normalize tbl (Zone_Name z') <> normalize tbl input) pre ->
        snd (Cmd.resolveZoneID env tbl client input) = Ok (Zone_ID z))
  /\ (forall id,
        snd (Cmd.resolveZoneID env tbl client input) = Ok id ->
        (id = input /\ Exists (fun z => Zone_ID z = input) zones)
        \/ (Forall (fun z => Zone_ID z <> input) zones
            /\ Exists (fun z => Zone_ID z = id
                                /\ normalize tbl (Zone_Name z) = normalize tbl input)
                      zones)).
Proof.
  intros HZ. rewrite (resolveZoneID_result env tbl client input zones HZ).
  repeat split.
  - intros pre z post -> Hz Hpre. by rewrite (idLoop_first _ _ _ _ Hpre Hz).
  - intros (z & -> & <-)%idLoop_Exists. reflexivity.
  - intros Hid pre z post E Hz Hpre. rewrite (idLoop_None _ _ Hid). subst zones.
    by rewrite (nameLoop_first _ _ _ _ _ Hpre Hz).
  - intros id. destruct (Cmd.idLoop input zones) as [z |] eqn:E.
    + intros [= <-]. apply idLoop_Some in E as [Hin Hz]. left. split; [exact Hz |].
      apply Exists_exists. exists z. split; [by apply list_elem_of_In | exact Hz].
    + destruct (Cmd.nameLoop tbl (normalize tbl input) zones) as [z |] eqn:E';
        [| discriminate].
      intros [= <-]. apply nameLoop_Some in E' as [Hin Hz]. right. split.
      * apply Forall_forall. intros z' Hz' Heq.
        destruct (idLoop_Exists input zones) as (z'' & E'' & _);
          [apply Exists_exists; eauto | congruence].
      * apply Exists_exists. exists z. split; [by apply list_elem_of_In | auto].
Qed.

Lemma C1_witness :
  snd (Cmd.resolveZoneID (Stub.provider 200 "" Stub.twoZones) (fun r => r)
         Stub.client "example.org")
  = Ok "example.org"
  /\ snd (Cmd.resolveZoneID (Stub.provider 200 "" Stub.twoZones) (fun r => r)
            Stub.client "EXAMPLE.org")
     = Ok "z2".
Proof.
  assert (H : GetZones (Stub.provider 200 "" Stub.twoZones) Stub.client
              = Ok [mkZone "example.org" "first.com" 0 0;
                    mkZone "z2" "Example.ORG." 0 0])
    by (vm_compute; reflexivity).
  split.
  - destruct (C1_id_phase_before_name_phase _ (fun r => r) _ "example.org" _ H)
      as (_ & Hid & _).
    apply Hid. apply Exists_cons. left. reflexivity.
  - destruct (C1_id_phase_before_name_phase _ (fun r => r) _ "EXAMPLE.org" _ H)
      as (_ & _ & Hname & _).
    refine (Hname _ [mkZone "example.org" "first.com" 0 0]
                  (mkZone "z2" "Example.ORG." 0 0) [] eq_refl _ _).
    + repeat constructor; vm_compute; discriminate.
    + vm_compute. reflexivity.
    + repeat constructor; vm_compute; discriminate.
Defined.

(** C2.  When the input is the ID of no zone and the normalized name of no
    zone (the empty input included), [resolveZoneID] fails with the
    not-found error, returns no identifier at all, and has printed one line
    with the name of every available zone. *)
Theorem C2_no_match_is_not_found env tbl client input zones :
  GetZones env client = Ok zones ->
  Forall (fun z => Zone_ID z <> input) zones ->
  Forall (fun z => normalize tbl (Zone_Name z) <> normalize tbl input) zones ->
  snd (Cmd.resolveZoneID env tbl client input) = Err (ErrZoneIDOrName input)
  /\ (forall id, snd (Cmd.resolveZoneID env tbl client input) <> Ok id)
  /\ Error (ErrZoneIDOrName input)
     = "could not find zone with ID or name '" ++ input ++ "'"
  /\ exists before,
       fst (Cmd.resolveZoneID env tbl client input)
       = (before
          ++ map (fun z => Cmd.Print ("- " ++ Zone_Name z ++ " (ID: " ++ Zone_ID z
                                       ++ ")" ++ nl)) zones)%list.
Proof.
  intros HZ Hid Hname.
  assert (R : snd (Cmd.resolveZoneID env tbl client input) = Err (ErrZoneIDOrName input)).
  { rewrite (resolveZoneID_result env tbl client input zones HZ).
    by rewrite (idLoop_None _ _ Hid), (nameLoop_None _ _ _ Hname). }
  split; [exact R |]. split; [intros id; rewrite R; discriminate |].
  split; [reflexivity |].
  unfold Cmd.resolveZoneID. rewrite HZ.
  rewrite (idLoop_None _ _ Hid), (nameLoop_None _ _ _ Hname). cbn [fst].
  eexists. rewrite app_assoc. reflexivity.
Qed.

Lemma C2_witness :
  snd (Cmd.resolveZoneID (Stub.provider 200 "" Stub.twoZones) (fun r => r) Stub.client "")
  = Err (ErrZoneIDOrName "").
Proof.
  assert (H : GetZones (Stub.provider 200 "" Stub.twoZones) Stub.client
              = Ok [mkZone "example.org" "first.com" 0 0;
                    mkZone "z2" "Example.ORG." 0 0])
    by (vm_compute; reflexivity).
  refine (proj1 (C2_no_match_is_not_found _ (fun r => r) _ "" _ H _ _)).
  - repeat constructor; vm_compute; discriminate.
  - repeat constructor; vm_compute; discriminate.
Defined.

(** C4 does not hold for every pair: ["a.."] is ["a."] with a single dot
    more, yet only one dot is trimmed, so a zone named ["a."] is found for
    the input ["a."] and not for ["a.."]. *)
Lemma C4_counterexample :
  sameName "a." "a.."
  /\ normalize (fun r => r) "a." <> normalize (fun r => r) "a.."
  /\ snd (Cmd.resolveZoneID
            (Stub.provider 200 "" (Stub.zonesDocument [Stub.zoneObject "z1" "a."]))
            (fun r => r) Stub.client "a.")
     = Ok "z1"
  /\ snd (Cmd.resolveZoneID
            (Stub.provider 200 "" (Stub.zonesDocument [Stub.zoneObject "z1" "a."]))
            (fun r => r) Stub.client "a..")
     = Err (ErrZoneIDOrName "a..").
Proof.
  split.
  - exists "a.", "a.". split; [| split].
    + apply lowerASCII_sameUpToCase. reflexivity.
    + left. reflexivity.
    + right. reflexivity.
  - split; [vm_compute; discriminate |].
    split; vm_compute; reflexivity.
Qed.

(** C4, amended.  For two names that differ only by ASCII letter case
    and/or a single trailing dot, where the name without that dot does not
    itself end in a dot, the name phase makes no difference between them:
    they normalize to the same string, a zone named by one is matched by
    the other as input, and as inputs that are no zone's ID they resolve to
    the same zone. *)
Theorem C4_name_phase_ignores_case_and_dot tbl s1 s2 :
  sameBareName s1 s2 ->
  normalize tbl s1 = normalize tbl s2
  /\ (forall z rest,
        Zone_Name z = s1 ->
        Cmd.nameLoop tbl (normalize tbl s2) (z :: rest) = Some z)
  /\ (forall z rest,
        Zone_Name z = s2 ->
        Cmd.nameLoop tbl (normalize tbl s1) (z :: rest) = Some z)
  /\ (forall zones,
        Cmd.nameLoop tbl (normalize tbl s1) zones
        = Cmd.nameLoop tbl (normalize tbl s2) zones)
  /\ (forall env client zones,
        GetZones env client = Ok zones ->
        Forall (fun z => Zone_ID z <> s1 /\ Zone_ID z <> s2) zones ->
        forall id,
          snd (Cmd.resolveZoneID env tbl client s1) = Ok id
          <-> snd (Cmd.resolveZoneID env tbl client s2) = Ok id)
  /\ (forall env client id,
        GetZoneIDByName env tbl client s1 = Ok id
        <-> GetZoneIDByName env tbl client s2 = Ok id).
Proof.
  intros H. pose proof (normalize_sameBareName tbl s1 s2 H) as E.
  split; [exact E |]. split; [| split; [| split; [| split]]].
  - intros z rest <-. simpl. rewrite E.
    destruct (String.eqb_spec (normalize tbl s2) (normalize tbl s2)); congruence.
  - intros z rest <-. simpl. rewrite E.
    destruct (String.eqb_spec (normalize tbl (Zone_Name z)) (normalize tbl (Zone_Name z)));
      congruence.
  - intros zones. by rewrite E.
  - intros env client zones HZ Hid id.
    rewrite !(resolveZoneID_result env tbl client _ zones HZ).
    rewrite !idLoop_None, E by (eapply Forall_impl; [exact Hid | by intros ? []]).
    destruct (Cmd.nameLoop tbl (normalize tbl s2) zones); [reflexivity |].
    split; discriminate.
  - intros env client id. unfold GetZoneIDByName. rewrite E.
    destruct (GetZones env client) as [zones | err]; simpl; [| reflexivity].
    destruct (zoneIDByNameLoop tbl (normalize tbl s2) zones); [reflexivity |].
    split; discriminate.
Qed.

Lemma C4_witness :
  Cmd.nameLoop (fun r => r) (normalize (fun r => r) "EXAMPLE.COM.")
    [mkZone "zone1" "example.com" 3600 5]
  = Some (mkZone "zone1" "example.com" 3600 5)
  /\ Cmd.nameLoop (fun r => r) (normalize (fun r => r) "example.com")
       [mkZone "zone1" "EXAMPLE.COM." 3600 5]
     = Some (mkZone "zone1" "EXAMPLE.COM." 3600 5).
Proof.
  assert (H : sameBareName "example.com" "EXAMPLE.COM.").
  { exists "example.com", "EXAMPLE.COM". split; [| split; [| split]].
    - apply lowerASCII_sameUpToCase. reflexivity.
    - reflexivity.
    - left. reflexivity.
    - right. reflexivity. }
  destruct (C4_name_phase_ignores_case_and_dot (fun r => r) _ _ H)
    as (_ & H1 & _).
  split; [by apply H1 |].
  assert (H' : sameBareName "EXAMPLE.COM." "example.com").
  { exists "EXAMPLE.COM", "example.com". split; [| split; [| split]].
    - apply lowerASCII_sameUpToCase. reflexivity.
    - reflexivity.
    - right. reflexivity.
    - left. reflexivity. }
  destruct (C4_name_phase_ignores_case_and_dot (fun r => r) _ _ H')
    as (_ & H2 & _).
  by apply H2.
Defined.

(** ** Lenient decoding *)

Lemma stringField_assert m k : stringField m k (default "" (assertString (m !! k))).
Proof.
  unfold stringField. destruct (m !! k) as [[] |] eqn:E; simpl;
    try (right; split; [intros s'; discriminate | reflexivity]).
  left. reflexivity.
Qed.

Lemma intField_assert env m k :
  intField env m k (default 0 (toInt env <$> assertFloat64 (m !! k))).
Proof.
  unfold intField. destruct (m !! k) as [[] |] eqn:E; simpl;
    try (right; split; [intros s'; discriminate | reflexivity]).
  left. eexists. split; reflexivity.
Qed.

Lemma extractRecord_fields env m :
  extractRecord env m
  = mkRecord (default "" (assertString (m !! "id")))
             (default "" (assertString (m !! "type")))
             (default "" (assertString (m !! "name")))
             (default "" (assertString (m !! "value")))
             (default 0 (toInt env <$> assertFloat64 (m !! "ttl")))
             (default "" (assertString (m !! "zone_id")))
             "" "".
Proof.
  unfold extractRecord.
  destruct (assertString (m !! "id")), (assertString (m !! "type")),
    (assertString (m !! "name")), (assertString (m !! "value")),
    (assertFloat64 (m !! "ttl")), (assertString (m !! "zone_id")); reflexivity.
Qed.

Lemma extractZone_fields env m :
  extractZone env m
  = mkZone (default "" (assertString (m !! "id")))
           (default "" (assertString (m !! "name")))
           (default 0 (toInt env <$> assertFloat64 (m !! "ttl")))
           (default 0 (toInt env <$> assertFloat64 (m !! "records_count"))).
Proof.
  unfold extractZone.
  destruct (assertString (m !! "id")), (assertString (m !! "name")),
    (assertFloat64 (m !! "ttl")), (assertFloat64 (m !! "records_count")); reflexivity.
Qed.

Lemma extractRecord_recordOf env m : recordOf env m (extractRecord env m).
Proof.
  rewrite extractRecord_fields. unfold recordOf. simpl.
  repeat split; auto using stringField_assert, intField_assert.
Qed.

Lemma extractZone_zoneOf env m : zoneOf env m (extractZone env m).
Proof.
  rewrite extractZone_fields. unfold zoneOf. simpl.
  repeat split; auto using stringField_assert, intField_assert.
Qed.

Lemma recordsLoop_acc env l acc :
  fold_left
    (fun records recordData =>
       match assertMap (Some recordData) with
       | None => records
       | Some recordMap => (records ++ [extractRecord env recordMap])%list
       end) l acc
  = (acc ++ map (extractRecord env) (objects l))%list.
Proof.
  revert acc. induction l as [| v l IH]; intros acc; simpl.
  - by rewrite app_nil_r.
  - rewrite IH. destruct v; simpl; try reflexivity.
    by rewrite <- app_assoc.
Qed.

Lemma recordsLoop_objects env l :
  recordsLoop env l = map (extractRecord env) (objects l).
Proof. unfold recordsLoop. by rewrite recordsLoop_acc. Qed.

Lemma zonesLoop_acc env l acc :
  fold_left
    (fun zones zoneData =>
       match assertMap (Some zoneData) with
       | None => zones
       | Some zoneMap => (zones ++ [extractZone env zoneMap])%list
       end) l acc
  = (acc ++ map (extractZone env) (objects l))%list.
Proof.
  revert acc. induction l as [| v l IH]; intros acc; simpl.
  - by rewrite app_nil_r.
  - rewrite IH. destruct v; simpl; try reflexivity.
    by rewrite <- app_assoc.
Qed.

Lemma zonesLoop_objects env l :
  zonesLoop env l = map (extractZone env) (objects l).
Proof. unfold zonesLoop. by rewrite zonesLoop_acc. Qed.

Lemma Forall2_map_spec {A B} (R : A -> B -> Prop) (f : A -> B) l :
  (forall a, R a (f a)) -> Forall2 R l (map f l).
Proof. intros H. induction l; simpl; constructor; auto. Qed.

Lemma GetRecords_fetched env c zoneID doc :
  fetched env (recordsRequest c zoneID) doc ->
  GetRecords env c zoneID
  = match assertSlice (doc !! "records") with
    | None => Err (ErrFormat "records field not found or not an array")
    | Some recordsData => Ok (recordsLoop env recordsData)
    end.
Proof.
  intros (Hreq & resp & v & Hdo & Hst & Hdec & Hmap).
  unfold GetRecords, NewRequest. simpl in Hreq. rewrite Hreq. simpl.
  unfold recordsRequest in Hdo. rewrite Hdo. simpl.
  rewrite Hst. simpl. rewrite Hdec. simpl. rewrite Hmap. reflexivity.
Qed.

Lemma GetZones_fetched env c doc :
  fetched env (zonesRequest c) doc ->
  GetZones env c
  = match assertSlice (doc !! "zones") with
    | None => Err (ErrFormat "zones field not found or not an array")
    | Some zonesData => Ok (zonesLoop env zonesData)
    end.
Proof.
  intros (Hreq & resp & v & Hdo & Hst & Hdec & Hmap).
  unfold GetZones, NewRequest. simpl in Hreq. rewrite Hreq. simpl.
  unfold zonesRequest in Hdo. rewrite Hdo. simpl.
  rewrite Hst. simpl. rewrite Hdec. simpl. rewrite Hmap. reflexivity.
Qed.

Lemma assertSlice_not_array v : ~ isArray v -> assertSlice v = None.
Proof.
  intros H. destruct v as [[] |]; try reflexivity.
  exfalso. apply H. eexists. reflexivity.
Qed.

(** C3.  Once a list request was answered with status 200 and a JSON
    document, [GetRecords] (and [GetZones] alike) fails with the format
    error when the document has no [records] ([zones]) key or the key does
    not hold an array; otherwise it succeeds with one entry for each element
    that is an object, in order, the other elements being skipped, and in
    an entry every field the object lacks, or holds with another type, has
    its zero value. *)
Theorem C3_two_tier_decoding env c zoneID doc :
  (fetched env (recordsRequest c zoneID) doc ->
   (~ isArray (doc !! "records") ->
    GetRecords env c zoneID
    = Err (ErrFormat "records field not found or not an array"))
   /\ (forall elems,
         doc !! "records" = Some (ASlice elems) ->
         exists records,
           GetRecords env c zoneID = Ok records
           /\ Forall2 (recordOf env) (objects elems) records))
  /\ (fetched env (zonesRequest c) doc ->
      (~ isArray (doc !! "zones") ->
       GetZones env c = Err (ErrFormat "zones field not found or not an array"))
      /\ (forall elems,
            doc !! "zones" = Some (ASlice elems) ->
            exists zones,
              GetZones env c = Ok zones
              /\ Forall2 (zoneOf env) (objects elems) zones)).
Proof.
  split; intros F.
  - rewrite (GetRecords_fetched _ _ _ _ F). split.
    + intros H. by rewrite assertSlice_not_array.
    + intros elems ->. simpl. eexists. split; [reflexivity |].
      rewrite recordsLoop_objects. apply Forall2_map_spec, extractRecord_recordOf.
  - rewrite (GetZones_fetched _ _ _ F). split.
    + intros H. by rewrite assertSlice_not_array.
    + intros elems ->. simpl. eexists. split; [reflexivity |].
      rewrite zonesLoop_objects. apply Forall2_map_spec, extractZone_zoneOf.
Qed.

(** ** Numbers *)

Lemma shiftl_truncates (s : bool) (m : positive) (e : Z) :
  truncates s m e (if s then - Z.shiftl (Z.pos m) e else Z.shiftl (Z.pos m) e).
Proof.
  assert (Hnn : 0 <= Z.shiftl (Z.pos m) e) by (apply Z.shiftl_nonneg; lia).
  assert (Habs : Z.abs (if s then - Z.shiftl (Z.pos m) e else Z.shiftl (Z.pos m) e)
                 = Z.shiftl (Z.pos m) e) by (destruct s; lia).
  unfold truncates. rewrite Habs. split; [| split]; [| | destruct s; lia].
  - destruct (Z_le_dec 0 e) as [He | He].
    + rewrite Z.shiftl_mul_pow2 by lia.
      replace (Z.max 0 (- e)) with 0 by lia. replace (Z.max 0 e) with e by lia.
      simpl (2 ^ 0). lia.
    + replace e with (- (- e)) at 1 by lia.
      rewrite Z.shiftl_opp_r, Z.shiftr_div_pow2 by lia.
      replace (Z.max 0 (- e)) with (- e) by lia. replace (Z.max 0 e) with 0 by lia.
      simpl (2 ^ 0). rewrite Z.mul_1_r, Z.mul_comm.
      apply Z.mul_div_le. apply Z.pow_pos_nonneg; lia.
  - destruct (Z_le_dec 0 e) as [He | He].
    + rewrite Z.shiftl_mul_pow2 by lia.
      replace (Z.max 0 (- e)) with 0 by lia. replace (Z.max 0 e) with e by lia.
      simpl (2 ^ 0). lia.
    + replace e with (- (- e)) at 2 by lia.
      rewrite Z.shiftl_opp_r, Z.shiftr_div_pow2 by lia.
      replace (Z.max 0 (- e)) with (- e) by lia. replace (Z.max 0 e) with 0 by lia.
      simpl (2 ^ 0). rewrite Z.mul_1_r.
      assert (Hd : 0 < 2 ^ (- e)) by (apply Z.pow_pos_nonneg; lia).
      pose proof (Z.mul_succ_div_gt (Z.pos m) (2 ^ (- e)) Hd). lia.
Qed.

Lemma truncates_unique s m e t t' :
  truncates s m e t -> truncates s m e t' -> t = t'.
Proof.
  intros (H1 & H2 & H3) (H1' & H2' & H3').
  assert (Hd : 0 < 2 ^ Z.max 0 (- e)) by (apply Z.pow_pos_nonneg; lia).
  assert (Z.abs t = Z.abs t') by nia.
  destruct s; lia.
Qed.

Lemma lookup_not_number (m : gmap string any) k v :
  m !! k = Some v -> ~ isNumber v -> assertFloat64 (m !! k) = None.
Proof.
  intros -> H. destruct v; try reflexivity. exfalso. apply H. eexists. reflexivity.
Qed.

(** C10.  [ttl] and [records_count] are taken from an element only when
    the value under the key is a JSON number, and then they are [int(f)]:
    the integral part of [f], whenever it fits an [int].  A value of any
    other type leaves the field at 0, exactly as if the key were absent. *)
Theorem C10_numeric_fields env (m : gmap string any) :
  (forall f,
      m !! "ttl" = Some (AFloat64 f) ->
      Zone_TTL (extractZone env m) = intOfFloat64 (intOutOfRange env) f
      /\ Record_TTL (extractRecord env m) = intOfFloat64 (intOutOfRange env) f)
  /\ (forall f,
        m !! "records_count" = Some (AFloat64 f) ->
        Zone_RecordsCount (extractZone env m) = intOfFloat64 (intOutOfRange env) f)
  /\ (forall v,
        m !! "ttl" = Some v -> ~ isNumber v ->
        Zone_TTL (extractZone env m) = 0
        /\ Record_TTL (extractRecord env m) = 0
        /\ extractZone env m = extractZone env (delete "ttl" m)
        /\ extractRecord env m = extractRecord env (delete "ttl" m))
  /\ (forall v,
        m !! "records_count" = Some v -> ~ isNumber v ->
        Zone_RecordsCount (extractZone env m) = 0
        /\ extractZone env m = extractZone env (delete "records_count" m))
  /\ (forall s mant e,
        exists t,
          truncates s mant e t
          /\ (minInt <= t <= maxInt ->
              intOfFloat64 (intOutOfRange env) (S754_finite s mant e) = t))
  /\ (forall s, intOfFloat64 (intOutOfRange env) (S754_zero s) = 0).
Proof.
  split; [| split; [| split; [| split; [| split]]]].
  - intros f H. rewrite extractZone_fields, extractRecord_fields. simpl.
    rewrite H. split; reflexivity.
  - intros f H. rewrite extractZone_fields. simpl. rewrite H. reflexivity.
  - intros v H Hv. rewrite !extractZone_fields, !extractRecord_fields. simpl.
    rewrite (lookup_not_number m "ttl" v H Hv).
    rewrite lookup_delete_eq, !lookup_delete_ne by discriminate.
    repeat split; reflexivity.
  - intros v H Hv. rewrite !extractZone_fields. simpl.
    rewrite (lookup_not_number m "records_count" v H Hv).
    rewrite lookup_delete_eq, !lookup_delete_ne by discriminate.
    repeat split; reflexivity.
  - intros s mant e. eexists. split; [apply shiftl_truncates |].
    intros [H1 H2]. unfold intOfFloat64. simpl truncFloat64. cbv iota beta.
    replace (minInt <=? _) with true by lia.
    replace (_ <=? maxInt) with true by lia. reflexivity.
  - intros s. reflexivity.
Qed.

Lemma stub_fetched status body (doc : gmap string any) req :
  status = StatusOK -> fetched (Stub.provider status body (AMap doc)) req doc.
Proof.
  intros ->. split; [reflexivity |].
  exists (mkResponse StatusOK body), (AMap doc). repeat split.
Qed.

Lemma C3_witness :
  (exists records,
      GetRecords (Stub.provider 200 "" (AMap Stub.recordsDocument)) Stub.client "zone1"
      = Ok records
      /\ Forall2 (recordOf (Stub.provider 200 "" (AMap Stub.recordsDocument)))
                 (objects Stub.recordElements) records)
  /\ GetRecords (Stub.provider 200 "" (AMap Stub.metaDocument)) Stub.client "zone1"
     = Err (ErrFormat "records field not found or not an array")
  /\ GetZones (Stub.provider 200 "" (AMap Stub.metaDocument)) Stub.client
     = Err (ErrFormat "zones field not found or not an array").
Proof.
  split; [| split].
  - refine (proj2 (proj1 (C3_two_tier_decoding _ Stub.client "zone1" _)
                     (stub_fetched 200 "" Stub.recordsDocument _ eq_refl))
                  Stub.recordElements _).
    vm_compute. reflexivity.
  - refine (proj1 (proj1 (C3_two_tier_decoding _ Stub.client "zone1" _)
                     (stub_fetched 200 "" Stub.metaDocument _ eq_refl)) _).
    intros [l H]. vm_compute in H. discriminate.
  - refine (proj1 (proj2 (C3_two_tier_decoding _ Stub.client "zone1" _)
                     (stub_fetched 200 "" Stub.metaDocument _ eq_refl)) _).
    intros [l H]. vm_compute in H. discriminate.
Defined.

Lemma C10_witness :
  Zone_TTL (extractZone (Stub.provider 200 "" ANil) Stub.stringTTLZone) = 0
  /\ extractZone (Stub.provider 200 "" ANil) Stub.stringTTLZone
     = extractZone (Stub.provider 200 "" ANil) (delete "ttl" Stub.stringTTLZone)
  /\ Record_TTL (extractRecord (Stub.provider 200 "" ANil) Stub.fullRecordFields)
     = 3600
  /\ exists t,
       truncates true 11 (-2) t
       /\ (minInt <= t <= maxInt ->
           intOfFloat64 (fun _ => minInt) Stub.fMinus2_75 = t).
Proof.
  destruct (C10_numeric_fields (Stub.provider 200 "" ANil) Stub.stringTTLZone)
    as (_ & _ & H & _).
  destruct (H (AString "3600")) as (H1 & _ & H2 & _).
  - vm_compute. reflexivity.
  - intros [f Hf]. discriminate.
  - split; [exact H1 |]. split; [exact H2 |].
    destruct (C10_numeric_fields (Stub.provider 200 "" ANil) Stub.fullRecordFields)
      as (Hn & _ & _ & _ & Ht & _).
    split; [| exact (Ht true 11%positive (-2))].
    destruct (Hn Stub.f3600) as [_ ->]; vm_compute; reflexivity.
Defined.

(** ** Record mutations *)

Lemma decodeRecordResponse_not_api env body :
  ~ isApiError (decodeRecordResponse env body).
Proof.
  intros (b & st & H). unfold decodeRecordResponse in H.
  destruct (Unmarshal env body) as [v | msg]; simpl in H; [| discriminate].
  destruct v; simpl in H; try discriminate;
    match type of H with
    | context [assertMap ?x] => destruct (assertMap x); discriminate
    end.
Qed.

Lemma CreateRecord_response env c record req resp :
  CreateRecordRequest env c record = Ok req -> Do env req = Done resp ->
  CreateRecord env c record
  = if negb (StatusCode resp =? StatusOK) && negb (StatusCode resp =? StatusCreated)
    then Err (apiError resp)
    else decodeRecordResponse env (RespBody resp).
Proof. intros Hreq Hdo. unfold CreateRecord. rewrite Hreq. simpl. by rewrite Hdo. Qed.

Lemma UpdateRecord_response env c record req resp :
  UpdateRecordRequest env c record = Ok req -> Do env req = Done resp ->
  UpdateRecord env c record
  = if negb (StatusCode resp =? StatusOK)
    then Err (apiError resp)
    else decodeRecordResponse env (RespBody resp).
Proof. intros Hreq Hdo. unfold UpdateRecord. rewrite Hreq. simpl. by rewrite Hdo. Qed.

Lemma DeleteRecord_response env c recordID resp :
  NewRequestError env "DELETE" (URL (deleteRequest c recordID)) = None ->
  Do env (deleteRequest c recordID) = Done resp ->
  DeleteRecord env c recordID
  = if negb (StatusCode resp =? StatusOK) && negb (StatusCode resp =? StatusNoContent)
    then Err (apiError resp)
    else Ok tt.
Proof.
  intros Hreq Hdo. unfold DeleteRecord, NewRequest. simpl in Hreq. rewrite Hreq.
  simpl. unfold deleteRequest in Hdo. by rewrite Hdo.
Qed.

(** C5.  Given the response of the provider, [CreateRecord] goes on to
    decode it exactly for the status codes 200 and 201, [UpdateRecord]
    exactly for 200, and [DeleteRecord] succeeds exactly for 200 and 204;
    for every other status the operation fails with the API error made of
    the raw response body and the status code, both of which appear in its
    message. *)
Theorem C5_status_codes env c :
  (forall record req resp,
      CreateRecordRequest env c record = Ok req -> Do env req = Done resp ->
      (StatusCode resp = 200 \/ StatusCode resp = 201 ->
       CreateRecord env c record = decodeRecordResponse env (RespBody resp)
       /\ ~ isApiError (CreateRecord env c record))
      /\ (StatusCode resp <> 200 -> StatusCode resp <> 201 ->
          CreateRecord env c record
          = Err (ErrAPI (RespBody resp) (StatusCode resp))))
  /\ (forall record req resp,
        UpdateRecordRequest env c record = Ok req -> Do env req = Done resp ->
        (StatusCode resp = 200 ->
         UpdateRecord env c record = decodeRecordResponse env (RespBody resp)
         /\ ~ isApiError (UpdateRecord env c record))
        /\ (StatusCode resp <> 200 ->
            UpdateRecord env c record
            = Err (ErrAPI (RespBody resp) (StatusCode resp))))
  /\ (forall recordID resp,
        NewRequestError env "DELETE" (URL (deleteRequest c recordID)) = None ->
        Do env (deleteRequest c recordID) = Done resp ->
        (StatusCode resp = 200 \/ StatusCode resp = 204 ->
         DeleteRecord env c recordID = Ok tt)
        /\ (StatusCode resp <> 200 -> StatusCode resp <> 204 ->
            DeleteRecord env c recordID
            = Err (ErrAPI (RespBody resp) (StatusCode resp))))
  /\ (forall body status,
        Error (ErrAPI body status)
        = "API error: " ++ body ++ ", status code: " ++ Itoa status).
Proof.
  split; [| split; [| split]].
  - intros record req resp Hreq Hdo.
    rewrite (CreateRecord_response _ _ _ _ _ Hreq Hdo).
    unfold StatusOK, StatusCreated, apiError. split.
    + intros H.
      assert (E : negb (StatusCode resp =? 200) && negb (StatusCode resp =? 201) = false)
        by (destruct H as [-> | ->]; reflexivity).
      rewrite E. split; [reflexivity | apply decodeRecordResponse_not_api].
    + intros H1 H2.
      replace (StatusCode resp =? 200) with false by lia.
      replace (StatusCode resp =? 201) with false by lia. reflexivity.
  - intros record req resp Hreq Hdo.
    rewrite (UpdateRecord_response _ _ _ _ _ Hreq Hdo).
    unfold StatusOK, apiError. split.
    + intros ->. simpl. split; [reflexivity | apply decodeRecordResponse_not_api].
    + intros H1. replace (StatusCode resp =? 200) with false by lia. reflexivity.
  - intros recordID resp Hreq Hdo.
    rewrite (DeleteRecord_response _ _ _ _ Hreq Hdo).
    unfold StatusOK, StatusNoContent, apiError. split.
    + intros [-> | ->]; reflexivity.
    + intros H1 H2.
      replace (StatusCode resp =? 200) with false by lia.
      replace (StatusCode resp =? 204) with false by lia. reflexivity.
  - reflexivity.
Qed.

Lemma C5_witness :
  DeleteRecord (Stub.provider 404 "record not found" ANil) Stub.client "missing"
  = Err (ErrAPI "record not found" 404)
  /\ DeleteRecord (Stub.provider 204 "" ANil) Stub.client "r1" = Ok tt
  /\ CreateRecord (Stub.provider 201 "" Stub.recordDocument) Stub.client
       (Cmd.createRecordOf "zone1" "www" "A" "192.168.1.1" 3600)
     = decodeRecordResponse (Stub.provider 201 "" Stub.recordDocument) ""
  /\ UpdateRecord (Stub.provider 201 "created" Stub.recordDocument) Stub.client
       (Cmd.updateRecordOf "r1" "zone1" "" "" "192.168.1.2" 0 false)
     = Err (ErrAPI "created" 201).
Proof.
  split; [| split; [| split]].
  - destruct (C5_status_codes (Stub.provider 404 "record not found" ANil) Stub.client)
      as (_ & _ & H & _).
    refine (proj2 (H "missing" (mkResponse 404 "record not found") eq_refl eq_refl)
                  _ _); simpl; lia.
  - destruct (C5_status_codes (Stub.provider 204 "" ANil) Stub.client)
      as (_ & _ & H & _).
    refine (proj1 (H "r1" (mkResponse 204 "") eq_refl eq_refl) _). right. reflexivity.
  - destruct (C5_status_codes (Stub.provider 201 "" Stub.recordDocument) Stub.client)
      as (H & _).
    refine (proj1 (proj1 (H _ _ (mkResponse 201 "") eq_refl eq_refl) _)).
    right. reflexivity.
  - destruct (C5_status_codes (Stub.provider 201 "created" Stub.recordDocument)
                Stub.client) as (_ & H & _).
    refine (proj2 (H _ _ (mkResponse 201 "created") eq_refl eq_refl) _).
    simpl. lia.
Defined.

(** ** Request bodies *)

Lemma CreateRecordRequest_body env c record req :
  CreateRecordRequest env c record = Ok req ->
  Method req = "POST" /\ Body req = Some (MarshalRecord record).
Proof.
  unfold CreateRecordRequest, NewRequest.
  destruct (NewRequestError env _ _); [discriminate |].
  intros [= <-]. split; reflexivity.
Qed.

Lemma UpdateRecordRequest_body env c record req :
  UpdateRecordRequest env c record = Ok req ->
  Method req = "PUT" /\ Body req = Some (MarshalRecord record).
Proof.
  unfold UpdateRecordRequest, NewRequest.
  destruct (NewRequestError env _ _); [discriminate |].
  intros [= <-]. split; reflexivity.
Qed.

Ltac marshal_cases record :=
  unfold MarshalRecord, RecordFields, marshalFields, isEmptyValue, fieldOmitEmpty,
    fieldValue, fieldKey;
  cbn [andb];
  destruct (String.eqb_spec (Record_ID record) "");
  destruct (Z.eqb_spec (Record_TTL record) 0);
  destruct (String.eqb_spec (Record_Created record) "");
  destruct (String.eqb_spec (Record_Modified record) "").

(** C7.  The body [CreateRecord] sends is the marshalled record; a record
    whose ID is empty is written without an [id] key, and a TTL of 0
    without a [ttl] key, while a non-empty ID and a non-zero TTL are
    written. *)
Theorem C7_create_omits_empty_id_and_zero_ttl env c record :
  (forall req,
      CreateRecordRequest env c record = Ok req ->
      Body req = Some (MarshalRecord record))
  /\ (Record_ID record = "" -> ~ In "id" (keys (MarshalRecord record)))
  /\ (Record_TTL record = 0 -> ~ In "ttl" (keys (MarshalRecord record)))
  /\ (Record_ID record <> "" ->
      member "id" (MarshalRecord record) = Some (JString (Record_ID record)))
  /\ (Record_TTL record <> 0 ->
      member "ttl" (MarshalRecord record) = Some (JNumber (Record_TTL record))).
Proof.
  split; [intros req H; apply (CreateRecordRequest_body _ _ _ _ H) |].
  split; [| split; [| split]]; intros H; marshal_cases record;
    try contradiction; simpl; try reflexivity;
    intuition discriminate.
Qed.

Lemma C7_witness :
  ~ In "id" (keys (MarshalRecord (Cmd.createRecordOf "zone1" "www" "A" "192.168.1.1" 0)))
  /\ ~ In "ttl" (keys (MarshalRecord (Cmd.createRecordOf "zone1" "www" "A" "192.168.1.1" 0))).
Proof.
  destruct (C7_create_omits_empty_id_and_zero_ttl (Stub.provider 200 "" ANil) Stub.client
              (Cmd.createRecordOf "zone1" "www" "A" "192.168.1.1" 0))
    as (_ & H1 & H2 & _).
  split; [apply H1 | apply H2]; reflexivity.
Defined.

(** C8 does not hold for [ttl]: the body of an update that names only the
    record and the zone has no [ttl] member. *)
Lemma C8_counterexample :
  UpdateRecordRequest (Stub.provider 200 "" ANil) Stub.client
    (Cmd.updateRecordOf "rec1" "zone1" "" "" "" 0 false)
  = Ok (mkRequest "PUT" "https://dns.hetzner.com/api/v1/records/rec1"
          [("Auth-API-Token", "token"); ("Content-Type", "application/json")]
          (Some [("id", JString "rec1"); ("type", JString "");
                 ("name", JString ""); ("value", JString "");
                 ("zone_id", JString "zone1")]))
  /\ ~ carriesZeroFields
         [("id", JString "rec1"); ("type", JString ""); ("name", JString "");
          ("value", JString ""); ("zone_id", JString "zone1")].
Proof.
  split; [reflexivity |].
  intros (_ & _ & _ & H). discriminate.
Qed.

(** C8, amended.  For an update that supplies only the record id and the
    zone, the PUT body is the marshalled record: it carries [name], [type]
    and [value] as empty strings and the zone, and it leaves out [ttl],
    [created] and [modified], whose tags say [omitempty]. *)
Theorem C8_update_body env c recordID zoneID ttl :
  let record := Cmd.updateRecordOf recordID zoneID "" "" "" ttl false in
  let body := MarshalRecord record in
  (forall req,
      UpdateRecordRequest env c record = Ok req ->
      Method req = "PUT" /\ Body req = Some body)
  /\ member "name" body = Some (JString "")
  /\ member "type" body = Some (JString "")
  /\ member "value" body = Some (JString "")
  /\ member "zone_id" body = Some (JString zoneID)
  /\ ~ In "ttl" (keys body)
  /\ ~ In "created" (keys body)
  /\ ~ In "modified" (keys body)
  /\ (recordID <> "" -> member "id" body = Some (JString recordID))
  /\ (recordID = "" -> ~ In "id" (keys body)).
Proof.
  intros record body. subst body.
  split; [intros req H; apply (UpdateRecordRequest_body _ _ _ _ H) |].
  subst record. unfold Cmd.updateRecordOf. cbn [String.eqb negb].
  unfold MarshalRecord, RecordFields, marshalFields, isEmptyValue, fieldOmitEmpty,
    fieldValue, fieldKey.
  cbn [Record_ID Record_Type Record_Name Record_Value Record_TTL Record_ZoneID
       Record_Created Record_Modified andb String.eqb Z.eqb].
  destruct (String.eqb_spec recordID ""); simpl;
    repeat split; try reflexivity; try contradiction; intuition discriminate.
Qed.

Lemma C8_witness :
  member "id" (MarshalRecord (Cmd.updateRecordOf "rec1" "zone1" "" "" "" 0 false))
  = Some (JString "rec1")
  /\ ~ In "ttl" (keys (MarshalRecord (Cmd.updateRecordOf "rec1" "zone1" "" "" "" 0 false))).
Proof.
  destruct (C8_update_body (Stub.provider 200 "" ANil) Stub.client "rec1" "zone1" 0)
    as (_ & _ & _ & _ & _ & H1 & _ & _ & H2 & _).
  split; [apply H2; discriminate | exact H1].
Defined.

(** ** The record table *)

Lemma Itoa_decimalOf n : decimalOf n (Itoa n).
Proof.
  unfold decimalOf, Itoa. rewrite NilZero.isi.
  - simpl. f_equal. apply DecimalZ.of_to.
  - destruct n; simpl; try discriminate.
    intros [= H]. by apply Unsigned.to_uint_nonnil in H.
  - destruct n; simpl; try discriminate.
    intros [= H]. by apply Unsigned.to_uint_nonnil in H.
Qed.

Lemma Itoa_not_default n : Itoa n <> "default".
Proof.
  intros H. pose proof (Itoa_decimalOf n) as D. rewrite H in D.
  vm_compute in D. discriminate.
Qed.

Lemma Itoa_inj n n' : Itoa n = Itoa n' -> n = n'.
Proof.
  intros H. pose proof (Itoa_decimalOf n) as D. rewrite H in D.
  pose proof (Itoa_decimalOf n') as D'. unfold decimalOf in *. congruence.
Qed.

Lemma loadClient_prints w st :
  Forall (fun o => exists text, o = Cmd.Print text) (fst (Cmd.loadClient w st)).
Proof.
  unfold Cmd.loadClient.
  destruct (Config.LoadConfig w st) as [[[notes w'] st'] r].
  assert (Hn : Forall (fun o => exists text, o = Cmd.Print text) (map Cmd.Print notes)).
  { apply Forall_forall. intros o (x & -> & _)%list_elem_of_fmap. eauto. }
  destruct r as [cfg | err]; simpl.
  - destruct (Config.APIToken cfg =? "")%string; simpl; [| exact Hn].
    apply Forall_app. split; [exact Hn |]. repeat constructor. eauto.
  - apply Forall_app. split; [exact Hn |]. repeat constructor. eauto.
Qed.

Lemma resolveZoneID_prints env tbl client input :
  Forall (fun o => exists text, o = Cmd.Print text)
         (fst (Cmd.resolveZoneID env tbl client input)).
Proof.
  unfold Cmd.resolveZoneID.
  destruct (GetZones env client) as [zones | err]; simpl.
  - destruct (Cmd.idLoop input zones); simpl; [repeat constructor; eauto |].
    destruct (Cmd.nameLoop tbl (normalize tbl input) zones); simpl;
      [repeat constructor; eauto |].
    repeat (constructor; [eauto |]).
    apply Forall_forall. intros o (x & -> & _)%list_elem_of_fmap. eauto.
  - repeat constructor; eauto.
Qed.

Lemma Table_not_in_prints lines l :
  Forall (fun o => exists text, o = Cmd.Print text) l -> ~ In (Cmd.Table lines) l.
Proof.
  intros H Hin. apply list_elem_of_In in Hin.
  rewrite Forall_forall in H. destruct (H _ Hin) as [text E]. discriminate.
Qed.

(** C9.  In the table of [record list], whose rows are those of the
    records [GetRecords] returned, the TTL column of a record with TTL 0
    reads [default], and that of any other record is the decimal numeral
    of its TTL, which is never the word [default]. *)
Theorem C9_ttl_column_default :
  (forall record,
      (Record_TTL record = 0 -> Cmd.ttlColumn record = "default")
      /\ (Record_TTL record <> 0 ->
          Cmd.ttlColumn record = Itoa (Record_TTL record)
          /\ decimalOf (Record_TTL record) (Cmd.ttlColumn record)
          /\ Cmd.ttlColumn record <> "default")
      /\ Cmd.recordRow record
         = Record_ID record ++ tab ++ Record_Name record ++ tab
           ++ Record_Type record ++ tab ++ Record_Value record ++ tab
           ++ Cmd.ttlColumn record ++ nl)
  /\ (forall env tbl zoneIDOrName w st lines,
        In (Cmd.Table lines) (Cmd.recordListCmd env tbl zoneIDOrName w st) ->
        exists client zoneID records,
          GetRecords env client zoneID = Ok records
          /\ lines = cons ("ID" ++ tab ++ "NAME" ++ tab ++ "TYPE" ++ tab ++ "VALUE"
                           ++ tab ++ "TTL" ++ nl)
                          (map Cmd.recordRow records)).
Proof.
  split.
  - intros record. unfold Cmd.ttlColumn. split; [| split].
    + intros ->. reflexivity.
    + intros H. replace (Record_TTL record =? 0) with false by lia.
      split; [reflexivity |]. split; [apply Itoa_decimalOf | apply Itoa_not_default].
    + reflexivity.
  - intros env tbl zoneIDOrName w st lines. unfold Cmd.recordListCmd.
    pose proof (loadClient_prints w st) as HL.
    destruct (Cmd.loadClient w st) as [out [client |]]; simpl in HL;
      [| intros H; by apply Table_not_in_prints in H].
    pose proof (resolveZoneID_prints env tbl client zoneIDOrName) as HR.
    destruct (Cmd.resolveZoneID env tbl client zoneIDOrName) as [out' r]; simpl in HR.
    assert (HO : Forall (fun o => exists text, o = Cmd.Print text) (out ++ out')%list)
      by (apply Forall_app; auto).
    destruct r as [zoneID | err].
    2:{ intros H. apply Table_not_in_prints in H; [done |].
        apply Forall_app. split; [exact HO |]. repeat constructor. eauto. }
    destruct (GetRecords env client zoneID) as [records | err] eqn:EG.
    2:{ intros H. apply Table_not_in_prints in H; [done |].
        apply Forall_app. split; [exact HO |]. repeat constructor. eauto. }
    destruct (length records =? 0)%nat.
    { intros H. apply Table_not_in_prints in H; [done |].
      apply Forall_app. split; [exact HO |]. repeat constructor. eauto. }
    intros H. apply in_app_or in H as [H | H];
      [by apply Table_not_in_prints in H |].
    destruct H as [H | []]. unfold Cmd.recordTable in H. injection H as <-.
    exists client, zoneID, records. split; [exact EG | reflexivity].
Qed.

Lemma C9_witness :
  Cmd.ttlColumn (mkRecord "r2" "A" "mail" "10.0.0.1" 0 "zone1" "" "") = "default"
  /\ Cmd.ttlColumn (mkRecord "r1" "A" "www" "10.0.0.2" 3600 "zone1" "" "") = "3600".
Proof.
  destruct C9_ttl_column_default as [H _].
  split.
  - apply (H (mkRecord "r2" "A" "mail" "10.0.0.1" 0 "zone1" "" "")). reflexivity.
  - apply (H (mkRecord "r1" "A" "www" "10.0.0.2" 3600 "zone1" "" "")). discriminate.
Defined.

(** ** The configuration store *)

Lemma LoadConfig_no_home w st cause :
  Config.UserHomeDir w = inr cause ->
  snd (Config.LoadConfig w st) = inr (Config.ErrHomeDir cause).
Proof. intros H. unfold Config.LoadConfig. by rewrite H. Qed.

Lemma LoadConfig_mkdir_fails w st home cause :
  Config.UserHomeDir w = inl home ->
  Config.configDirStat w = Config.StatNotExist ->
  Config.MkdirAllError w = Some cause ->
  snd (Config.LoadConfig w st) = inr (Config.ErrCreateDir cause).
Proof. intros H1 H2 H3. unfold Config.LoadConfig. by rewrite H1, H2, H3. Qed.

Lemma GetString_fresh w dir file :
  Config.GetString w
    (Config.mkState dir file ∅ ∅ (<["api_token" := ""]> ∅) "HETZNER_DNS" true)
    "api_token"
  = tokenWithoutFile w.
Proof.
  unfold Config.GetString, tokenWithoutFile.
  cbn [Config.viperOverride Config.viperConfig Config.viperDefaults
       Config.viperEnvPrefix Config.viperAutomaticEnv].
  rewrite !lookup_empty, lookup_insert_eq.
  change (Config.envKey "HETZNER_DNS" "api_token") with "HETZNER_DNS_API_TOKEN".
  destruct (Config.environ w !! "HETZNER_DNS_API_TOKEN") as [v |]; [| reflexivity].
  destruct (String.eqb_spec v ""); [by subst | reflexivity].
Qed.

(** When the file cannot be loaded, whatever the reason, [LoadConfig]
    succeeds with the token of the environment, or the empty one. *)
Lemma LoadConfig_without_file w home :
  Config.UserHomeDir w = inl home ->
  (Config.configDirStat w = Config.StatNotExist -> Config.MkdirAllError w = None) ->
  (forall settings, Config.configFileOnDisk w <> Config.FileYAML settings) ->
  snd (Config.LoadConfig w Config.initialState)
  = inl (Config.mkConfig (tokenWithoutFile w)).
Proof.
  destruct w as [h stat mk file miss environ]. cbn. intros -> H2 H3.
  unfold Config.LoadConfig, Config.ReadInConfig.
  cbn [Config.UserHomeDir Config.configDirStat Config.MkdirAllError
       Config.configFileOnDisk Config.missingFileError].
  destruct stat; [| rewrite (H2 eq_refl) |];
    (destruct file as [| | content | settings]; [| | | by destruct (H3 settings)]);
    cbn [snd Config.configFileOnDisk]; rewrite GetString_fresh; reflexivity.
Qed.

(** C6, where the code departs from it.  On a machine with a home
    directory whose configuration file exists but is not parseable,
    [LoadConfig] prints a notice and returns a configuration with the empty
    token: it does not fail. *)
Theorem C6_malformed_file_is_loaded :
  Config.LoadConfig (Stub.world (Config.FileMalformed "api_token: [") ∅)
                    Config.initialState
  = (["Notice: Config file not found, will create a new one when you save settings."
      ++ nl],
     Stub.world (Config.FileMalformed "api_token: [") ∅,
     Config.mkState "/home/op/.config/hetznerdns"
                    "/home/op/.config/hetznerdns/config.yaml"
                    ∅ ∅ (<["api_token" := ""]> ∅) "HETZNER_DNS" true,
     inl (Config.mkConfig "")).
Proof. vm_compute. reflexivity. Qed.

Import Wire.

(** * Further properties *)

(** ** The client: requests and answers *)

Lemma GetZones_answered env c resp :
  answered env (zonesRequest c) resp ->
  GetZones env c
  = if negb (StatusCode resp =? StatusOK) then Err (apiError resp)
    else
      v ← external (Decode env (RespBody resp));
      doc ← intoMap env v;
      match assertSlice (doc !! "zones") with
      | None => Err (ErrFormat "zones field not found or not an array")
      | Some zonesData => Ok (zonesLoop env zonesData)
      end.
Proof.
  intros [Hreq Hdo]. unfold GetZones, NewRequest. simpl in Hreq. rewrite Hreq.
  simpl. unfold zonesRequest in Hdo. rewrite Hdo. reflexivity.
Qed.

Lemma GetRecords_answered env c zoneID resp :
  answered env (recordsRequest c zoneID) resp ->
  GetRecords env c zoneID
  = if negb (StatusCode resp =? StatusOK) then Err (apiError resp)
    else
      v ← external (Decode env (RespBody resp));
      doc ← intoMap env v;
      match assertSlice (doc !! "records") with
      | None => Err (ErrFormat "records field not found or not an array")
      | Some recordsData => Ok (recordsLoop env recordsData)
      end.
Proof.
  intros [Hreq Hdo]. unfold GetRecords, NewRequest. simpl in Hreq. rewrite Hreq.
  simpl. unfold recordsRequest in Hdo. rewrite Hdo. reflexivity.
Qed.

(** X1.  The list operations take status 200 alone for a success: on any
    other status, 201 and 204 included, [GetZones] and [GetRecords] fail
    with the API error made of the raw body and the status code, and the
    body is not decoded, whatever JSON it holds. *)
Theorem list_operations_fail_on_other_status env c zoneID resp :
  StatusCode resp <> 200 ->
  (answered env (zonesRequest c) resp ->
   GetZones env c = Err (ErrAPI (RespBody resp) (StatusCode resp)))
  /\ (answered env (recordsRequest c zoneID) resp ->
      GetRecords env c zoneID = Err (ErrAPI (RespBody resp) (StatusCode resp)))
  /\ (forall decode,
        answered env (zonesRequest c) resp ->
        GetZones (mkEnv (NewRequestError env) (Do env) decode (Unmarshal env)
                        (typeErrorMessage env) (intOutOfRange env)) c
        = GetZones env c).
Proof.
  intros Hst.
  assert (E : negb (StatusCode resp =? StatusOK) = true)
    by (unfold StatusOK; apply negb_true_iff; lia).
  split; [| split].
  - intros H. rewrite (GetZones_answered _ _ _ H), E. reflexivity.
  - intros H. rewrite (GetRecords_answered _ _ _ _ H), E. reflexivity.
  - intros decode H. rewrite (GetZones_answered env _ _ H), E.
    rewrite (GetZones_answered _ c resp), E; [reflexivity | exact H].
Qed.

Lemma list_operations_fail_on_other_status_witness :
  GetZones (Stub.provider 201 "created" Stub.twoZones) Stub.client
  = Err (ErrAPI "created" 201)
  /\ GetRecords (Stub.provider 204 "" (AMap Stub.recordsDocument)) Stub.client "zone1"
     = Err (ErrAPI "" 204).
Proof.
  split.
  - refine (proj1 (list_operations_fail_on_other_status
                     (Stub.provider 201 "created" Stub.twoZones) Stub.client "zone1"
                     (mkResponse 201 "created") _) _);
      [simpl; lia | split; reflexivity].
  - refine (proj1 (proj2 (list_operations_fail_on_other_status
                     (Stub.provider 204 "" (AMap Stub.recordsDocument)) Stub.client
                     "zone1" (mkResponse 204 "") _)) _);
      [simpl; lia | split; reflexivity].
Defined.



(** ** The client: what comes back *)

Lemma extractRecord_times env m :
  Record_Created (extractRecord env m) = ""
  /\ Record_Modified (extractRecord env m) = "".
Proof. rewrite extractRecord_fields. split; reflexivity. Qed.

Lemma decodeRecordResponse_Ok env body r :
  decodeRecordResponse env body = Ok r ->
  exists v doc m,
    Unmarshal env body = Done v /\ intoMap env v = Ok doc
    /\ doc !! "record" = Some (AMap m) /\ r = extractRecord env m.
Proof.
  unfold decodeRecordResponse.
  destruct (Unmarshal env body) as [v | msg]; simpl; [| discriminate].
  destruct (intoMap env v) as [doc | e] eqn:E; simpl; [| discriminate].
  destruct (doc !! "record") as [[] |] eqn:E'; simpl; try discriminate.
  intros [= <-]. eauto 10.
Qed.

Lemma CreateRecord_Ok env c record r :
  CreateRecord env c record = Ok r ->
  exists body, decodeRecordResponse env body = Ok r.
Proof.
  unfold CreateRecord.
  destruct (CreateRecordRequest env c record) as [req | e]; simpl; [| discriminate].
  destruct (Do env req) as [resp | msg]; simpl; [| discriminate].
  destruct (_ && _); [discriminate | eauto].
Qed.

Lemma UpdateRecord_Ok env c record r :
  UpdateRecord env c record = Ok r ->
  exists body, decodeRecordResponse env body = Ok r.
Proof.
  unfold UpdateRecord.
  destruct (UpdateRecordRequest env c record) as [req | e]; simpl; [| discriminate].
  destruct (Do env req) as [resp | msg]; simpl; [| discriminate].
  destruct (negb _); [discriminate | eauto].
Qed.

Lemma GetRecords_Ok env c zoneID records :
  GetRecords env c zoneID = Ok records ->
  exists elems, records = map (extractRecord env) (objects elems).
Proof.
  unfold GetRecords.
  destruct (NewRequest env _ _ _ _) as [req | e]; simpl; [| discriminate].
  destruct (Do env req) as [resp | msg]; simpl; [| discriminate].
  destruct (negb _); [discriminate |].
  destruct (Decode env _) as [v | msg]; simpl; [| discriminate].
  destruct (intoMap env v) as [doc | e]; simpl; [| discriminate].
  destruct (assertSlice _) as [l |]; [| discriminate].
  intros [= <-]. exists l. apply recordsLoop_objects.
Qed.

(** X3.  No record the client returns carries a creation or modification
    time: whatever the provider sends under [created] and [modified], the
    records of [GetRecords], [CreateRecord] and [UpdateRecord] have both
    fields empty. *)
Theorem returned_records_carry_no_times env c :
  (forall zoneID records,
      GetRecords env c zoneID = Ok records ->
      Forall (fun r => Record_Created r = "" /\ Record_Modified r = "") records)
  /\ (forall record r,
        CreateRecord env c record = Ok r ->
        Record_Created r = "" /\ Record_Modified r = "")
  /\ (forall record r,
        UpdateRecord env c record = Ok r ->
        Record_Created r = "" /\ Record_Modified r = "").
Proof.
  split; [| split].
  - intros zoneID records (elems & ->)%GetRecords_Ok.
    apply Forall_forall. intros r (m & -> & _)%list_elem_of_fmap.
    apply extractRecord_times.
  - intros record r (body & H)%CreateRecord_Ok.
    apply decodeRecordResponse_Ok in H as (_ & _ & m & _ & _ & _ & ->).
    apply extractRecord_times.
  - intros record r (body & H)%UpdateRecord_Ok.
    apply decodeRecordResponse_Ok in H as (_ & _ & m & _ & _ & _ & ->).
    apply extractRecord_times.
Qed.

Lemma returned_records_carry_no_times_witness :
  UpdateRecord (Stub.provider 200 "" Examples.timedRecordDocument) Stub.client
    (Cmd.updateRecordOf "r1" "zone1" "" "" "192.168.1.1" 0 false)
  = Ok (mkRecord "r1" "A" "www" "192.168.1.1" 0 "zone1" "" "")
  /\ Record_Created (mkRecord "r1" "A" "www" "192.168.1.1" 0 "zone1" "" "") = ""
  /\ Record_Modified (mkRecord "r1" "A" "www" "192.168.1.1" 0 "zone1" "" "") = "".
Proof.
  assert (E : UpdateRecord (Stub.provider 200 "" Examples.timedRecordDocument)
                Stub.client
                (Cmd.updateRecordOf "r1" "zone1" "" "" "192.168.1.1" 0 false)
              = Ok (mkRecord "r1" "A" "www" "192.168.1.1" 0 "zone1" "" ""))
    by (vm_compute; reflexivity).
  split; [exact E |].
  exact (proj2 (proj2 (returned_records_carry_no_times
                         (Stub.provider 200 "" Examples.timedRecordDocument)
                         Stub.client)) _ _ E).
Defined.






Lemma answered_createRequest env c record resp :
  answered env (createRequest c record) resp ->
  CreateRecordRequest env c record = Ok (createRequest c record)
  /\ Do env (createRequest c record) = Done resp.
Proof.
  intros [Hreq Hdo]. split; [| exact Hdo].
  unfold CreateRecordRequest, NewRequest. simpl in Hreq. by rewrite Hreq.
Qed.

Lemma answered_updateRequest env c record resp :
  answered env (updateRequest c record) resp ->
  UpdateRecordRequest env c record = Ok (updateRequest c record)
  /\ Do env (updateRequest c record) = Done resp.
Proof.
  intros [Hreq Hdo]. split; [| exact Hdo].
  unfold UpdateRecordRequest, NewRequest. simpl in Hreq. by rewrite Hreq.
Qed.

Lemma CreateRecord_success env c record resp :
  answered env (createRequest c record) resp ->
  StatusCode resp = 200 \/ StatusCode resp = 201 ->
  CreateRecord env c record = decodeRecordResponse env (RespBody resp).
Proof.
  intros [Hreq Hdo]%answered_createRequest Hst.
  rewrite (CreateRecord_response _ _ _ _ _ Hreq Hdo). unfold StatusOK, StatusCreated.
  by destruct Hst as [-> | ->].
Qed.

Lemma UpdateRecord_success env c record resp :
  answered env (updateRequest c record) resp ->
  StatusCode resp = 200 ->
  UpdateRecord env c record = decodeRecordResponse env (RespBody resp).
Proof.
  intros [Hreq Hdo]%answered_updateRequest Hst.
  rewrite (UpdateRecord_response _ _ _ _ _ Hreq Hdo). unfold StatusOK.
  by rewrite Hst.
Qed.



(** X6.  After a success status, [CreateRecord] and [UpdateRecord] are
    strict about the envelope and lenient inside it: a body that holds no
    object under [record] gives the format error, a body that is not JSON
    gives the error of the parser, and an object under [record] always
    gives a record, whose missing or mistyped fields are zero. *)
Theorem single_record_decoding env body :
  (forall msg,
      Unmarshal env body = Failed msg ->
      decodeRecordResponse env body = Err (ErrExternal msg))
  /\ (forall v doc,
        Unmarshal env body = Done v -> intoMap env v = Ok doc ->
        (forall m, doc !! "record" <> Some (AMap m)) ->
        decodeRecordResponse env body
        = Err (ErrFormat "record field not found or not an object"))
  /\ (forall v doc m,
        Unmarshal env body = Done v -> intoMap env v = Ok doc ->
        doc !! "record" = Some (AMap m) ->
        exists r, decodeRecordResponse env body = Ok r /\ recordOf env m r)
  /\ (forall c record resp,
        RespBody resp = body ->
        (answered env (createRequest c record) resp ->
         StatusCode resp = 200 \/ StatusCode resp = 201 ->
         CreateRecord env c record = decodeRecordResponse env body)
        /\ (answered env (updateRequest c record) resp ->
            StatusCode resp = 200 ->
            UpdateRecord env c record = decodeRecordResponse env body)).
Proof.
  split; [| split; [| split]].
  - intros msg H. unfold decodeRecordResponse. by rewrite H.
  - intros v doc Hv Hdoc Hno. unfold decodeRecordResponse. rewrite Hv. simpl.
    rewrite Hdoc. simpl. destruct (doc !! "record") as [[] |] eqn:E; try reflexivity.
    by destruct (Hno m).
  - intros v doc m Hv Hdoc Hm. unfold decodeRecordResponse. rewrite Hv. simpl.
    rewrite Hdoc. simpl. rewrite Hm. simpl. eexists. split; [reflexivity |].
    apply extractRecord_recordOf.
  - intros c record resp <-. split.
    + apply CreateRecord_success.
    + apply UpdateRecord_success.
Qed.

Lemma single_record_decoding_witness :
  decodeRecordResponse (Stub.provider 200 "" (AMap Stub.metaDocument)) ""
  = Err (ErrFormat "record field not found or not an object")
  /\ exists r,
       decodeRecordResponse (Stub.provider 200 "" Examples.timedRecordDocument) ""
       = Ok r
       /\ Record_Value r = "192.168.1.1".
Proof.
  split.
  - refine (proj1 (proj2 (single_record_decoding
                            (Stub.provider 200 "" (AMap Stub.metaDocument)) ""))
                  (AMap Stub.metaDocument) Stub.metaDocument eq_refl eq_refl _).
    intros m H. vm_compute in H. discriminate.
  - destruct (proj1 (proj2 (proj2 (single_record_decoding
                (Stub.provider 200 "" Examples.timedRecordDocument) "")))
                _ _ _ eq_refl eq_refl eq_refl) as (r & E & Hr).
    exists r. split; [exact E |].
    destruct Hr as (_ & _ & _ & [Hv | [Hv _]] & _).
    + match type of Hv with
      | ?l = _ =>
          assert (L : l = Some (AString "192.168.1.1")) by (vm_compute; reflexivity)
      end.
      rewrite L in Hv. by injection Hv.
    + exfalso. apply (Hv "192.168.1.1"). vm_compute. reflexivity.
Defined.

(** ** [GetZoneIDByName] *)

Lemma zoneIDByNameLoop_nameLoop tbl n zones :
  zoneIDByNameLoop tbl n zones = Zone_ID <$> Cmd.nameLoop tbl n zones.
Proof.
  induction zones as [| z zones IH]; simpl; [reflexivity |].
  destruct (normalize tbl (Zone_Name z) =? n)%string; [reflexivity | exact IH].
Qed.

Lemma GetZoneIDByName_result env tbl c name zones :
  GetZones env c = Ok zones ->
  GetZoneIDByName env tbl c name
  = match Cmd.nameLoop tbl (normalize tbl name) zones with
    | Some z => Ok (Zone_ID z)
    | None => Err (ErrZoneName name)
    end.
Proof.
  intros H. unfold GetZoneIDByName. rewrite H. simpl.
  rewrite zoneIDByNameLoop_nameLoop.
  by destruct (Cmd.nameLoop tbl (normalize tbl name) zones).
Qed.

(** X7.  [GetZoneIDByName] has a name phase only: it returns the ID of
    the first zone whose normalized name is the normalized input, and fails
    with its not-found error otherwise, also when the input is the ID of a
    zone; on an input that is no zone's ID it finds what [resolveZoneID]
    finds. *)
Theorem GetZoneIDByName_matches_names_only env tbl c name zones :
  GetZones env c = Ok zones ->
  (forall pre z post,
      zones = (pre ++ z :: post)%list ->
      normalize tbl (Zone_Name z) = normalize tbl name ->
      Forall (fun z' => normalize tbl (Zone_Name z') <> normalize tbl name) pre ->
      GetZoneIDByName env tbl c name = Ok (Zone_ID z))
  /\ (Forall (fun z => normalize tbl (Zone_Name z) <> normalize tbl name) zones ->
      GetZoneIDByName env tbl c name = Err (ErrZoneName name)
      /\ Error (ErrZoneName name) = "zone with name '" ++ name ++ "' not found")
  /\ (Forall (fun z => Zone_ID z <> name) zones ->
      forall id,
        GetZoneIDByName env tbl c name = Ok id
        <-> snd (Cmd.resolveZoneID env tbl c name) = Ok id).
Proof.
  intros HZ. rewrite (GetZoneIDByName_result _ _ _ _ _ HZ).
  split; [| split].
  - intros pre z post -> Hz Hpre. by rewrite (nameLoop_first _ _ _ _ _ Hpre Hz).
  - intros H. by rewrite (nameLoop_None _ _ _ H).
  - intros Hid id. rewrite (resolveZoneID_result _ _ _ _ _ HZ), (idLoop_None _ _ Hid).
    destruct (Cmd.nameLoop tbl (normalize tbl name) zones); [reflexivity |].
    split; discriminate.
Qed.

Lemma GetZoneIDByName_matches_names_only_witness :
  GetZoneIDByName (Stub.provider 200 "" Stub.twoZones) (fun r => r) Stub.client
    "example.org"
  = Ok "z2"
  /\ GetZoneIDByName (Stub.provider 200 "" Stub.twoZones) (fun r => r) Stub.client "z2"
     = Err (ErrZoneName "z2").
Proof.
  assert (H : GetZones (Stub.provider 200 "" Stub.twoZones) Stub.client
              = Ok [mkZone "example.org" "first.com" 0 0;
                    mkZone "z2" "Example.ORG." 0 0])
    by (vm_compute; reflexivity).
  split.
  - destruct (GetZoneIDByName_matches_names_only _ (fun r => r) _ "example.org" _ H)
      as (Hn & _).
    refine (Hn [mkZone "example.org" "first.com" 0 0]
               (mkZone "z2" "Example.ORG." 0 0) [] eq_refl _ _).
    + vm_compute. reflexivity.
    + repeat constructor; vm_compute; discriminate.
  - destruct (GetZoneIDByName_matches_names_only _ (fun r => r) _ "z2" _ H)
      as (_ & Hn & _).
    refine (proj1 (Hn _)). repeat constructor; vm_compute; discriminate.
Defined.

(** ** The commands *)

Lemma loadClient_cases w st :
  let '(notes, _, _, r) := Config.LoadConfig w st in
  Cmd.loadClient w st
  = match r with
    | inr err =>
        ((map Cmd.Print notes
          ++ [Cmd.Print ("Error loading config: " ++ Config.Error err ++ nl)])%list,
         None)
    | inl cfg =>
        if (Config.APIToken cfg =? "")%string
        then ((map Cmd.Print notes
               ++ [Cmd.Print ("API token not set. Please run 'hetznerdns config set' to configure your API token." ++ nl)])%list,
              None)
        else (map Cmd.Print notes, Some (NewClient (Config.APIToken cfg)))
    end.
Proof.
  unfold Cmd.loadClient.
  destruct (Config.LoadConfig w st) as [[[notes w'] st'] r].
  destruct r as [cfg | err]; [| reflexivity].
  by destruct (Config.APIToken cfg =? "")%string.
Qed.

(** X8.  Without a token no command talks to the provider: when
    [LoadConfig] fails, or the token it finds is empty, [record list],
    [record create], [record update], [record delete] and [zone list] print
    the notes of [LoadConfig] and one line saying so, whatever the provider
    would have answered. *)
Theorem commands_without_token_stay_local w st :
  (exists err, snd (Config.LoadConfig w st) = inr err)
  \/ snd (Config.LoadConfig w st) = inl (Config.mkConfig "") ->
  exists line,
    (line = "API token not set. Please run 'hetznerdns config set' to configure your API token." ++ nl
     \/ exists err, line = "Error loading config: " ++ Config.Error err ++ nl)
    /\ forall env tbl zone name recordType value ttl ttlChanged recordID,
         let out := (map Cmd.Print (fst (fst (fst (Config.LoadConfig w st))))
                     ++ [Cmd.Print line])%list in
         Cmd.recordListCmd env tbl zone w st = out
         /\ Cmd.recordCreateCmd env tbl zone name recordType value ttl w st = out
         /\ Cmd.recordUpdateCmd env tbl recordID zone name recordType value ttl
              ttlChanged w st = out
         /\ Cmd.recordDeleteCmd env recordID w st = out
         /\ ZoneCmd.zoneListCmd env w st = out.
Proof.
  intros H. pose proof (loadClient_cases w st) as L.
  destruct (Config.LoadConfig w st) as [[[notes w'] st'] r]. simpl in H.
  destruct H as [[err ->] | ->].
  - exists ("Error loading config: " ++ Config.Error err ++ nl).
    split; [right; exists err; reflexivity |].
    intros. unfold Cmd.recordListCmd, Cmd.recordCreateCmd, Cmd.recordUpdateCmd,
      Cmd.recordDeleteCmd, ZoneCmd.zoneListCmd. rewrite L. repeat split.
  - eexists. split; [left; reflexivity |].
    intros. unfold Cmd.recordListCmd, Cmd.recordCreateCmd, Cmd.recordUpdateCmd,
      Cmd.recordDeleteCmd, ZoneCmd.zoneListCmd. rewrite L. repeat split.
Qed.

Lemma commands_without_token_stay_local_witness :
  exists line,
    Cmd.recordDeleteCmd (Stub.provider 200 "" ANil) "r1" Examples.bareWorld
      Config.initialState
    = (map Cmd.Print (fst (fst (fst (Config.LoadConfig Examples.bareWorld
                                                         Config.initialState))))
       ++ [Cmd.Print line])%list.
Proof.
  destruct (commands_without_token_stay_local Examples.bareWorld Config.initialState)
    as (line & _ & H).
  - right. vm_compute. reflexivity.
  - exists line.
    exact (proj1 (proj2 (proj2 (proj2
             (H (Stub.provider 200 "" ANil) (fun r => r) "" "" "" "" 0 false "r1"))))).
Defined.

(** X9.  [record list] asks for the records of the zone the resolver
    found and prints one of three things after the resolver's lines: the
    error of [GetRecords], the line "No records found for this zone." when
    the list is empty, or one table with a header and one row for each
    record, in order. *)
Theorem record_list_outcomes env tbl zone w st out client out' zoneID :
  Cmd.loadClient w st = (out, Some client) ->
  Cmd.resolveZoneID env tbl client zone = (out', Ok zoneID) ->
  (forall err,
      GetRecords env client zoneID = Err err ->
      Cmd.recordListCmd env tbl zone w st
      = (out ++ out' ++ [Cmd.Print ("Error fetching records: " ++ Error err ++ nl)])%list)
  /\ (GetRecords env client zoneID = Ok [] ->
      Cmd.recordListCmd env tbl zone w st
      = (out ++ out' ++ [Cmd.Print ("No records found for this zone." ++ nl)])%list)
  /\ (forall records,
        GetRecords env client zoneID = Ok records -> records <> [] ->
        exists lines,
          Cmd.recordListCmd env tbl zone w st
          = (out ++ out' ++ [Cmd.Table lines])%list
          /\ length lines = S (length records)
          /\ tl lines = map Cmd.recordRow records).
Proof.
  intros HL HR. unfold Cmd.recordListCmd. rewrite HL, HR.
  split; [| split].
  - intros err ->. by rewrite <- app_assoc.
  - intros ->. simpl. by rewrite <- app_assoc.
  - intros records -> Hne. destruct records as [| r records]; [done |].
    cbn [length Nat.eqb]. eexists. rewrite <- app_assoc. split; [reflexivity |].
    split; [simpl; by rewrite length_map | reflexivity].
Qed.

Lemma record_list_outcomes_witness :
  exists lines,
    Cmd.recordListCmd Examples.hetzner (fun r => r) "Example.org" Examples.tokenWorld
      Config.initialState
    = (fst (Cmd.loadClient Examples.tokenWorld Config.initialState)
       ++ fst (Cmd.resolveZoneID Examples.hetzner (fun r => r)
                 (NewClient "secret-token-1234") "Example.org")
       ++ [Cmd.Table lines])%list
    /\ length lines = 3%nat.
Proof.
  destruct (record_list_outcomes Examples.hetzner (fun r => r) "Example.org"
              Examples.tokenWorld Config.initialState
              (fst (Cmd.loadClient Examples.tokenWorld Config.initialState))
              (NewClient "secret-token-1234")
              (fst (Cmd.resolveZoneID Examples.hetzner (fun r => r)
                      (NewClient "secret-token-1234") "Example.org"))
              "z2")
    as (_ & _ & H).
  - vm_compute. reflexivity.
  - vm_compute. reflexivity.
  - destruct (H [mkRecord "r1" "A" "www" "192.168.1.1" 3600 "zone1" "" "";
                 mkRecord "r2" "A" "mail" "" 0 "zone1" "" ""])
      as (lines & E & Hl & _).
    + vm_compute. reflexivity.
    + discriminate.
    + exists lines. split; [exact E | exact Hl].
Defined.

(** X10.  [record delete] never resolves a zone: it sends the one DELETE
    request, and prints "Record deleted successfully." exactly when the
    status is 200 or 204; for any other status it prints the API error
    with the raw body and the status code. *)
Theorem record_delete_outcomes env recordID w st out client resp :
  Cmd.loadClient w st = (out, Some client) ->
  answered env (deleteRequest client recordID) resp ->
  (StatusCode resp = 200 \/ StatusCode resp = 204 ->
   Cmd.recordDeleteCmd env recordID w st
   = (out ++ [Cmd.Print ("Record deleted successfully." ++ nl)])%list)
  /\ (StatusCode resp <> 200 -> StatusCode resp <> 204 ->
      Cmd.recordDeleteCmd env recordID w st
      = (out ++ [Cmd.Print ("Error deleting record: "
                            ++ ("API error: " ++ RespBody resp ++ ", status code: "
                                ++ Itoa (StatusCode resp))
                            ++ nl)])%list)
  /\ (forall do,
        do (deleteRequest client recordID) = Do env (deleteRequest client recordID) ->
        Cmd.recordDeleteCmd (withDo env do) recordID w st
        = Cmd.recordDeleteCmd env recordID w st).
Proof.
  intros HL [Hreq Hdo]. unfold Cmd.recordDeleteCmd. rewrite HL.
  rewrite (DeleteRecord_response _ _ _ _ Hreq Hdo).
  unfold StatusOK, StatusNoContent, apiError. split; [| split].
  - intros [-> | ->]; reflexivity.
  - intros H1 H2.
    replace (StatusCode resp =? 200) with false by lia.
    replace (StatusCode resp =? 204) with false by lia. reflexivity.
  - intros do H. f_equal.
    assert (E : DeleteRecord (withDo env do) client recordID
                = DeleteRecord env client recordID).
    { unfold DeleteRecord, NewRequest, withDo. simpl.
      destruct (NewRequestError env _ _); [reflexivity |]. simpl.
      unfold deleteRequest in H. by rewrite H. }
    rewrite E, (DeleteRecord_response _ _ _ _ Hreq Hdo). reflexivity.
Qed.

Lemma record_delete_outcomes_witness :
  Cmd.recordDeleteCmd Examples.hetzner "missing" Examples.tokenWorld Config.initialState
  = (fst (Cmd.loadClient Examples.tokenWorld Config.initialState)
     ++ [Cmd.Print ("Error deleting record: "
                    ++ ("API error: " ++ "record not found" ++ ", status code: "
                        ++ Itoa 404)
                    ++ nl)])%list.
Proof.
  refine (proj1 (proj2 (record_delete_outcomes Examples.hetzner "missing"
                          Examples.tokenWorld Config.initialState _
                          (NewClient "secret-token-1234")
                          (mkResponse 404 "record not found") _ _)) _ _).
  - vm_compute. reflexivity.
  - split; reflexivity.
  - simpl. lia.
  - simpl. lia.
Defined.

(** X11.  The guards of [record update] change nothing: the record sent
    carries the name, type and value flags as they are, empty or not, and
    the TTL flag when it was given, else 0.  So an empty flag cannot be
    told from a missing one, and an explicit [--ttl 0] sends the same body
    as no [--ttl] at all. *)
Theorem update_guards_change_nothing recordID zoneID name recordType value ttl ttlChanged :
  Cmd.updateRecordOf recordID zoneID name recordType value ttl ttlChanged
  = mkRecord recordID recordType name value (if ttlChanged then ttl else 0)
             zoneID "" ""
  /\ MarshalRecord (Cmd.updateRecordOf recordID zoneID name recordType value 0 true)
     = MarshalRecord (Cmd.updateRecordOf recordID zoneID name recordType value ttl false)
  /\ (forall env c,
        UpdateRecordRequest env c
          (Cmd.updateRecordOf recordID zoneID name recordType value 0 true)
        = UpdateRecordRequest env c
            (Cmd.updateRecordOf recordID zoneID name recordType value ttl false)).
Proof.
  assert (E : forall t ch,
             Cmd.updateRecordOf recordID zoneID name recordType value t ch
             = mkRecord recordID recordType name value (if ch then t else 0)
                        zoneID "" "").
  { intros t ch. unfold Cmd.updateRecordOf.
    destruct (String.eqb_spec name ""), (String.eqb_spec recordType ""),
      (String.eqb_spec value ""), ch; subst; reflexivity. }
  split; [apply E |]. rewrite !E. split; [reflexivity |].
  intros env c. reflexivity.
Qed.

(** X12.  When the zone list cannot be fetched, [resolveZoneID] returns
    the error of [GetZones] as it is, having printed it once and listed no
    zone; [record list] then prints it a second time and asks for no
    records. *)
Theorem resolver_passes_fetch_error_on env tbl client zone err :
  GetZones env client = Err err ->
  Cmd.resolveZoneID env tbl client zone
  = ([Cmd.Print ("Attempting to resolve '" ++ zone ++ "' as a zone name..." ++ nl);
      Cmd.Print ("Error fetching zones: " ++ Error err ++ nl)],
     Err err)
  /\ (forall w st out,
        Cmd.loadClient w st = (out, Some client) ->
        Cmd.recordListCmd env tbl zone w st
        = (out
           ++ [Cmd.Print ("Attempting to resolve '" ++ zone ++ "' as a zone name..." ++ nl);
               Cmd.Print ("Error fetching zones: " ++ Error err ++ nl);
               Cmd.Print ("Error: " ++ Error err ++ nl)])%list).
Proof.
  intros H.
  assert (E : Cmd.resolveZoneID env tbl client zone
              = ([Cmd.Print ("Attempting to resolve '" ++ zone ++ "' as a zone name..." ++ nl);
                  Cmd.Print ("Error fetching zones: " ++ Error err ++ nl)],
                 Err err))
    by (unfold Cmd.resolveZoneID; by rewrite H).
  split; [exact E |].
  intros w st out HL. unfold Cmd.recordListCmd. rewrite HL, E.
  by rewrite <- app_assoc.
Qed.

Lemma resolver_passes_fetch_error_on_witness :
  Cmd.resolveZoneID (Stub.provider 401 "Invalid authentication credentials" ANil)
    (fun r => r) Stub.client "example.com"
  = ([Cmd.Print ("Attempting to resolve 'example.com' as a zone name..." ++ nl);
      Cmd.Print ("Error fetching zones: "
                 ++ Error (ErrAPI "Invalid authentication credentials" 401) ++ nl)],
     Err (ErrAPI "Invalid authentication credentials" 401)).
Proof.
  refine (proj1 (resolver_passes_fetch_error_on _ (fun r => r) Stub.client
                   "example.com" _ _)).
  reflexivity.
Defined.

(** X13.  [zone list] prints the error of [GetZones], or "No zones found."
    for an empty list, or one table with a header and a row for each zone;
    the TTL and record count columns are decimal numerals, so a zone whose
    TTL is 0 or was not sent shows 0 there, not the word "default" of
    [record list]. *)
Theorem zone_list_outcomes env w st out client :
  Cmd.loadClient w st = (out, Some client) ->
  (forall err,
      GetZones env client = Err err ->
      ZoneCmd.zoneListCmd env w st
      = (out ++ [Cmd.Print ("Error fetching zones: " ++ Error err ++ nl)])%list)
  /\ (GetZones env client = Ok [] ->
      ZoneCmd.zoneListCmd env w st
      = (out ++ [Cmd.Print ("No zones found." ++ nl)])%list)
  /\ (forall zones,
        GetZones env client = Ok zones -> zones <> [] ->
        exists lines,
          ZoneCmd.zoneListCmd env w st = (out ++ [Cmd.Table lines])%list
          /\ length lines = S (length zones)
          /\ Forall2
               (fun zone line =>
                  exists ttl count,
                    line = Zone_ID zone ++ tab ++ Zone_Name zone ++ tab ++ ttl
                           ++ tab ++ count ++ nl
                    /\ decimalOf (Zone_TTL zone) ttl
                    /\ decimalOf (Zone_RecordsCount zone) count
                    /\ (Zone_TTL zone = 0 -> ttl = "0"))
               zones (tl lines)).
Proof.
  intros HL. unfold ZoneCmd.zoneListCmd. rewrite HL. split; [| split].
  - intros err ->. reflexivity.
  - intros ->. reflexivity.
  - intros zones -> Hne. destruct zones as [| z zones]; [done |].
    cbn [length Nat.eqb]. eexists. split; [reflexivity |].
    split; [simpl; by rewrite length_map |].
    cbn [tl]. apply Forall2_map_spec. intros zone.
    exists (Itoa (Zone_TTL zone)), (Itoa (Zone_RecordsCount zone)).
    split; [reflexivity |]. split; [apply Itoa_decimalOf |].
    split; [apply Itoa_decimalOf |]. intros ->. reflexivity.
Qed.

Lemma zone_list_outcomes_witness :
  exists lines,
    ZoneCmd.zoneListCmd Examples.hetzner Examples.tokenWorld Config.initialState
    = (fst (Cmd.loadClient Examples.tokenWorld Config.initialState)
       ++ [Cmd.Table lines])%list
    /\ length lines = 3%nat.
Proof.
  destruct (zone_list_outcomes Examples.hetzner Examples.tokenWorld
              Config.initialState
              (fst (Cmd.loadClient Examples.tokenWorld Config.initialState))
              (NewClient "secret-token-1234"))
    as (_ & _ & H).
  - vm_compute. reflexivity.
  - destruct (H [mkZone "example.org" "first.com" 0 0;
                 mkZone "z2" "Example.ORG." 0 0])
      as (lines & E & Hl & _).
    + vm_compute. reflexivity.
    + discriminate.
    + exists lines. split; [exact E | exact Hl].
Defined.

(** ** [LoadConfig] *)

(** X14.  [LoadConfig] fails in two cases only: the home directory
    cannot be determined, or the configuration directory does not exist and
    cannot be created.  In every other case it succeeds, whatever the state
    of the configuration file: absent, unreadable, malformed or
    well-formed. *)
Theorem LoadConfig_fails_exactly_when w st :
  ((exists err, snd (Config.LoadConfig w st) = inr err)
   <-> (exists cause, Config.UserHomeDir w = inr cause)
       \/ (Config.configDirStat w = Config.StatNotExist
           /\ exists cause, Config.MkdirAllError w = Some cause))
  /\ (forall cause,
        Config.UserHomeDir w = inr cause ->
        snd (Config.LoadConfig w st) = inr (Config.ErrHomeDir cause))
  /\ (forall home cause,
        Config.UserHomeDir w = inl home ->
        Config.configDirStat w = Config.StatNotExist ->
        Config.MkdirAllError w = Some cause ->
        snd (Config.LoadConfig w st) = inr (Config.ErrCreateDir cause)).
Proof.
  split; [| split].
  - destruct w as [h stat mk file miss environ]. unfold Config.LoadConfig.
    cbn [Config.UserHomeDir Config.configDirStat Config.MkdirAllError].
    destruct h as [home | cause].
    + destruct stat; try destruct mk as [cause |];
        (split; [intros [err H] | intros [[cause' H] | [H [cause' H']]]]);
        try discriminate;
        try (cbv zeta in H;
             match type of H with
             | context [Config.ReadInConfig ?a ?b] =>
                 destruct (Config.ReadInConfig a b) as [st' e']
             end; discriminate).
      * right. split; [reflexivity | eauto].
      * eexists. reflexivity.
    + split; [intros _; left; eauto | intros _; eexists; reflexivity].
  - apply LoadConfig_no_home.
  - apply LoadConfig_mkdir_fails.
Qed.

Lemma LoadConfig_fails_exactly_when_witness :
  snd (Config.LoadConfig
         (Config.mkWorld (inr "$HOME is not defined") Config.StatNotExist None
                         Config.FileAbsent Config.PathError ∅)
         Config.initialState)
  = inr (Config.ErrHomeDir "$HOME is not defined").
Proof.
  refine (proj1 (proj2 (LoadConfig_fails_exactly_when _ Config.initialState))
                "$HOME is not defined" _).
  reflexivity.
Defined.

(** The token of a machine on which the file was read. *)
Lemma GetString_loaded w dir file settings :
  Config.GetString w
    (Config.mkState dir file ∅ settings (<["api_token" := ""]> ∅) "HETZNER_DNS" true)
    "api_token"
  = match Config.environ w !! "HETZNER_DNS_API_TOKEN" with
    | Some v => if (v =? "")%string then default "" (settings !! "api_token") else v
    | None => default "" (settings !! "api_token")
    end.
Proof.
  unfold Config.GetString.
  cbn [Config.viperOverride Config.viperConfig Config.viperDefaults
       Config.viperEnvPrefix Config.viperAutomaticEnv].
  rewrite lookup_empty, lookup_insert_eq.
  change (Config.envKey "HETZNER_DNS" "api_token") with "HETZNER_DNS_API_TOKEN".
  destruct (Config.environ w !! "HETZNER_DNS_API_TOKEN") as [v |].
  - destruct (v =? "")%string; [| reflexivity].
    by destruct (settings !! "api_token").
  - by destruct (settings !! "api_token").
Qed.

(** X15.  The token of a fresh process with a well-formed file: the
    environment variable HETZNER_DNS_API_TOKEN wins over the file when it
    is set and not empty; an empty variable counts as unset, and then the
    [api_token] of the file is used, or the empty string when the file has
    none. *)
Theorem token_precedence w home settings :
  Config.UserHomeDir w = inl home ->
  (Config.configDirStat w = Config.StatNotExist -> Config.MkdirAllError w = None) ->
  Config.configFileOnDisk w = Config.FileYAML settings ->
  let fromFile := default "" (settings !! "api_token") in
  (forall v,
      Config.environ w !! "HETZNER_DNS_API_TOKEN" = Some v -> v <> "" ->
      snd (Config.LoadConfig w Config.initialState) = inl (Config.mkConfig v))
  /\ (Config.environ w !! "HETZNER_DNS_API_TOKEN" = Some ""
      \/ Config.environ w !! "HETZNER_DNS_API_TOKEN" = None ->
      snd (Config.LoadConfig w Config.initialState)
      = inl (Config.mkConfig fromFile)).
Proof.
  destruct w as [h stat mk file miss environ]. cbn. intros -> H2 ->.
  assert (E : snd (Config.LoadConfig
                     (Config.mkWorld (inl home) stat mk (Config.FileYAML settings)
                                     miss environ) Config.initialState)
              = inl (Config.mkConfig
                       match environ !! "HETZNER_DNS_API_TOKEN" with
                       | Some v => if (v =? "")%string
                                   then default "" (settings !! "api_token") else v
                       | None => default "" (settings !! "api_token")
                       end)).
  { unfold Config.LoadConfig, Config.ReadInConfig.
    cbn [Config.UserHomeDir Config.configDirStat Config.MkdirAllError
         Config.configFileOnDisk Config.missingFileError].
    destruct stat; [| rewrite (H2 eq_refl) |];
      cbn [snd Config.configFileOnDisk Config.configDir Config.configFile
           Config.viperOverride Config.viperDefaults Config.viperEnvPrefix
           Config.viperAutomaticEnv Config.initialState];
      rewrite GetString_loaded; reflexivity. }
  rewrite E. split.
  - intros v -> Hv. destruct (String.eqb_spec v ""); [contradiction | reflexivity].
  - intros [-> | ->]; reflexivity.
Qed.

Lemma token_precedence_witness :
  snd (Config.LoadConfig
         (Stub.world (Config.FileYAML {[ "api_token" := "file-token" ]})
                     {[ "HETZNER_DNS_API_TOKEN" := "env-test-token" ]})
         Config.initialState)
  = inl (Config.mkConfig "env-test-token")
  /\ snd (Config.LoadConfig
            (Stub.world (Config.FileYAML {[ "api_token" := "file-token" ]})
                        {[ "HETZNER_DNS_API_TOKEN" := "" ]})
            Config.initialState)
     = inl (Config.mkConfig "file-token").
Proof.
  split.
  - refine (proj1 (token_precedence
                     (Stub.world (Config.FileYAML {[ "api_token" := "file-token" ]})
                                 {[ "HETZNER_DNS_API_TOKEN" := "env-test-token" ]})
                     "/home/op" {[ "api_token" := "file-token" ]}
                     eq_refl _ eq_refl) "env-test-token" _ _).
    + discriminate.
    + vm_compute. reflexivity.
    + discriminate.
  - refine (proj2 (token_precedence
                     (Stub.world (Config.FileYAML {[ "api_token" := "file-token" ]})
                                 {[ "HETZNER_DNS_API_TOKEN" := "" ]})
                     "/home/op" {[ "api_token" := "file-token" ]}
                     eq_refl _ eq_refl) _).
    + discriminate.
    + left. vm_compute. reflexivity.
Defined.

Lemma string_append_assoc (a b c : string) : ((a ++ b) ++ c = a ++ (b ++ c))%string.
Proof.
  induction a as [| x a IH]; [reflexivity |].
  change (String x ((a ++ b) ++ c) = String x (a ++ (b ++ c)))%string.
  f_equal. exact IH.
Qed.




(** ** [SaveConfig] *)

Lemma SaveConfig_state d st config :
  snd (fst (fst (Store.SaveConfig d st config)))
  = Store.Set_ st "api_token" (Config.APIToken config).
Proof.
  unfold Store.SaveConfig.
  destruct (Store.statOK d _).
  - by destruct (Store.writeConfigError d).
  - destruct (Store.mkdirAllError d _); [reflexivity |].
    by destruct (Store.writeFileError d _).
Qed.

Lemma LoadConfig_override w st v cfg :
  Config.viperOverride st !! "api_token" = Some v ->
  snd (Config.LoadConfig w st) = inl cfg ->
  cfg = Config.mkConfig v.
Proof.
  intros Hv. destruct w as [h stat mk file miss environ]. unfold Config.LoadConfig.
  cbn [Config.UserHomeDir Config.configDirStat Config.MkdirAllError].
  destruct h as [home | cause]; [| discriminate].
  destruct stat; try destruct mk as [cause |]; cbv zeta; try discriminate;
    unfold Config.ReadInConfig; cbn [Config.configFileOnDisk];
    destruct file; cbn [snd]; unfold Config.GetString;
    cbn [Config.viperOverride]; rewrite Hv; congruence.
Qed.

(** X17.  [SaveConfig] sets the token in the running process before it
    touches the disk, and never takes it back: whether the write succeeds
    or fails, a [LoadConfig] that follows in the same process and succeeds
    returns the token just saved, whatever the environment variable and the
    file say. *)
Theorem saved_token_wins_in_process d st config w cfg :
  let st' := snd (fst (fst (Store.SaveConfig d st config))) in
  snd (Config.LoadConfig w st') = inl cfg ->
  cfg = config
  /\ Config.GetString w st' "api_token" = Config.APIToken config.
Proof.
  cbv zeta. rewrite SaveConfig_state. intros H.
  assert (Hv : Config.viperOverride
                 (Store.Set_ st "api_token" (Config.APIToken config))
               !! "api_token" = Some (Config.APIToken config))
    by (unfold Store.Set_; cbn [Config.viperOverride]; apply lookup_insert_eq).
  split.
  - rewrite (LoadConfig_override _ _ _ _ Hv H). by destruct config.
  - unfold Config.GetString. by rewrite Hv.
Qed.

Lemma saved_token_wins_in_process_witness :
  Config.GetString
    (Stub.world (Config.FileYAML {[ "api_token" := "file-token" ]})
                {[ "HETZNER_DNS_API_TOKEN" := "env-test-token" ]})
    (snd (fst (fst (Store.SaveConfig
                      (Store.mkDisk (fun _ => true) (fun p => p) (fun _ => None)
                                    (fun _ => None) (Some "disk full"))
                      Config.initialState (Config.mkConfig "new-token")))))
    "api_token"
  = "new-token".
Proof.
  refine (proj2 (saved_token_wins_in_process
                   (Store.mkDisk (fun _ => true) (fun p => p) (fun _ => None)
                                 (fun _ => None) (Some "disk full"))
                   Config.initialState (Config.mkConfig "new-token")
                   (Stub.world (Config.FileYAML {[ "api_token" := "file-token" ]})
                               {[ "HETZNER_DNS_API_TOKEN" := "env-test-token" ]})
                   (Config.mkConfig "new-token") _)).
  vm_compute. reflexivity.
Defined.

(** X18.  What [SaveConfig] does to the disk.  It writes at most once, and
    exactly once when it returns no error.  An existing file is only ever
    rewritten through viper; a missing one is created at [configFile] with
    mode 0600 and the single line [api_token: TOKEN], after its directory
    was made with mode 0755, and no write is tried when that fails.  The
    line "Created config file at" is printed only for a file that was
    created. *)
Theorem SaveConfig_disk_calls d st config :
  let '(out, _, calls, err) := Store.SaveConfig d st config in
  let file := Config.configFile st in
  (length (List.filter Store.isWrite calls) <= 1)%nat
  /\ (err = None -> length (List.filter Store.isWrite calls) = 1%nat)
  /\ (In Store.WriteConfig calls <-> Store.statOK d file = true)
  /\ (forall path content perm,
        In (Store.WriteFile path content perm) calls ->
        path = file
        /\ content = "api_token: " ++ Config.APIToken config ++ nl
        /\ perm = Store.mode0600
        /\ Store.statOK d file = false
        /\ Store.mkdirAllError d (Store.Dir d file) = None
        /\ calls = [Store.MkdirAll (Store.Dir d file) Store.mode0755;
                    Store.WriteFile path content perm])
  /\ (forall cause,
        Store.statOK d file = false ->
        Store.mkdirAllError d (Store.Dir d file) = Some cause ->
        calls = [Store.MkdirAll (Store.Dir d file) Store.mode0755]
        /\ err = Some (Store.ErrCreateDir cause))
  /\ (out = [] \/ (out = ["Created config file at: " ++ file ++ nl]
                   /\ err = None /\ Store.statOK d file = false)).
Proof.
  unfold Store.SaveConfig. cbn [Store.Set_ Config.configFile].
  destruct (Store.statOK d (Config.configFile st)) eqn:Hstat.
  - destruct (Store.writeConfigError d); simpl;
      (split; [lia |]); (split; [try discriminate; reflexivity |]);
      (split; [split; [reflexivity | intros _; left; reflexivity] |]);
      (split; [intros ? ? ? [H | []]; discriminate |]);
      (split; [intros; discriminate | by left]).
  - destruct (Store.mkdirAllError d _) as [cause |] eqn:Hmk.
    + simpl. split; [lia |]. split; [discriminate |].
      split; [split; [intros [H | []]; discriminate | discriminate] |].
      split; [intros ? ? ? [H | []]; discriminate |].
      split; [| by left]. intros cause' _ E. by injection E as ->.
    + destruct (Store.writeFileError d _); simpl;
        (split; [lia |]); (split; [try discriminate; reflexivity |]);
        (split; [split; [intros [H | [H | []]]; discriminate | discriminate] |]);
        (split; [intros ? ? ? [H | [H | []]]; [discriminate |];
                 injection H as <- <- <-; repeat split |]);
        (split; [intros; discriminate |]); [by left | right; repeat split].
Qed.

Lemma SaveConfig_disk_calls_witness :
  let '(out, _, calls, err) :=
    Store.SaveConfig Examples.emptyDisk
      (snd (fst (Config.LoadConfig Examples.bareWorld Config.initialState)))
      (Config.mkConfig "new-token") in
  length (List.filter Store.isWrite calls) = 1%nat.
Proof.
  pose proof (SaveConfig_disk_calls Examples.emptyDisk
      (snd (fst (Config.LoadConfig Examples.bareWorld Config.initialState)))
      (Config.mkConfig "new-token")) as H.
  destruct (Store.SaveConfig _ _ _) as [[[out st'] calls] err] eqn:E.
  apply (proj1 (proj2 H)).
  vm_compute in E. congruence.
Defined.

(** ** The configuration commands *)





Lemma substring_prefix (a b : string) :
  substring 0 (String.length a) (a ++ b) = a.
Proof.
  induction a as [| x a IH]; [by destruct b |].
  cbn [String.length]. change (String x a ++ b) with (String x (a ++ b)).
  cbn [substring]. by rewrite IH.
Qed.

Lemma substring_skip (a b : string) n m :
  substring (String.length a + n) m (a ++ b) = substring n m b.
Proof.
  induction a as [| x a IH]; [reflexivity |].
  cbn [String.length]. change (String x a ++ b) with (String x (a ++ b)).
  cbn [Nat.add substring]. exact IH.
Qed.

Lemma substring_all (s : string) : substring 0 (String.length s) s = s.
Proof.
  induction s as [| x s IH]; [reflexivity |].
  cbn [String.length substring]. by rewrite IH.
Qed.

Lemma length_append (a b : string) :
  String.length (a ++ b) = (String.length a + String.length b)%nat.
Proof.
  induction a as [| x a IH]; [reflexivity |].
  change (String x a ++ b) with (String x (a ++ b)).
  cbn [String.length]. by rewrite IH.
Qed.

Lemma substring_length_le n m (s : string) :
  (String.length (substring n m s) <= m)%nat.
Proof.
  revert n m. induction s as [| x s IH]; intros n m.
  - destruct n, m; simpl; lia.
  - destruct n as [| n]; [destruct m as [| m] |]; cbn [substring String.length].
    + lia.
    + specialize (IH 0%nat m). lia.
    + apply IH.
Qed.

(** X20.  What [config show] reveals of a token.  A token of more than
    eight bytes is shown as its first four bytes, three dots and its last
    four bytes, so two tokens that agree there print the same line; a token
    of one to eight bytes prints eight stars, whatever it is; only the
    empty token prints "Not set". *)
Theorem config_show_masks_the_token :
  (forall pre mid post,
      String.length pre = 4%nat -> String.length post = 4%nat -> mid <> "" ->
      ConfigCmd.tokenLine (pre ++ mid ++ post)
      = "API token: " ++ pre ++ "..." ++ post ++ nl)
  /\ (forall token,
        token <> "" -> (String.length token <= 8)%nat ->
        ConfigCmd.tokenLine token = "API token: ********" ++ nl)
  /\ (forall token,
        ConfigCmd.tokenLine token = "API token: Not set" ++ nl <-> token = "")
  /\ (forall w st notes w' st' cfg,
        Config.LoadConfig w st = (notes, w', st', inl cfg) ->
        ConfigCmd.configShowCmd w st
        = (map Cmd.Print notes
           ++ [Cmd.Print (ConfigCmd.tokenLine (Config.APIToken cfg))])%list).
Proof.
  split; [| split; [| split]].
  - intros pre mid post Hpre Hpost Hmid. unfold ConfigCmd.tokenLine.
    assert (Hlen : String.length (pre ++ mid ++ post)
                   = (4 + String.length mid + 4)%nat)
      by (rewrite !length_append; lia).
    assert (Hm : (0 < String.length mid)%nat) by (destruct mid; [done | simpl; lia]).
    destruct (String.eqb_spec (pre ++ mid ++ post) "") as [E |].
    { rewrite E in Hlen. simpl in Hlen. lia. }
    rewrite Hlen.
    replace (8 <? 4 + String.length mid + 4)%nat with true
      by (symmetry; apply Nat.ltb_lt; lia).
    unfold ConfigCmd.maskedToken. rewrite Hlen.
    rewrite <- Hpre at 1. rewrite substring_prefix.
    replace (4 + String.length mid + 4 - 4)%nat
      with (String.length pre + (String.length mid + 0))%nat by lia.
    rewrite substring_skip, substring_skip.
    rewrite <- Hpost at 1. rewrite substring_all.
    apply (f_equal (String.append "API token: ")).
    by rewrite !string_append_assoc.
  - intros token Hne Hlen. unfold ConfigCmd.tokenLine.
    destruct (String.eqb_spec token ""); [done |].
    replace (8 <? String.length token)%nat with false
      by (symmetry; apply Nat.ltb_ge; lia).
    reflexivity.
  - intros token. unfold ConfigCmd.tokenLine.
    destruct (String.eqb_spec token "") as [-> | Hne]; [done |].
    split; [| done].
    destruct (8 <? String.length token)%nat.
    + unfold ConfigCmd.maskedToken. intros H. exfalso.
      pose proof (substring_length_le 0 4 token) as L. revert H L.
      destruct (substring 0 4 token) as [| c [| c1 [| c2 [| c3 [| c4 s]]]]];
        simpl; intros H L; try discriminate. lia.
    + discriminate.
  - intros w st notes w' st' cfg E. unfold ConfigCmd.configShowCmd. by rewrite E.
Qed.

Lemma config_show_masks_the_token_witness :
  ConfigCmd.tokenLine ("secr" ++ "et-token-" ++ "1234")
  = "API token: " ++ "secr" ++ "..." ++ "1234" ++ nl
  /\ ConfigCmd.tokenLine "12345678" = "API token: ********" ++ nl.
Proof.
  split.
  - apply (proj1 config_show_masks_the_token "secr" "et-token-" "1234");
      [reflexivity | reflexivity | discriminate].
  - apply (proj1 (proj2 config_show_masks_the_token) "12345678");
      [discriminate | simpl; lia].
Defined.

(** ** The machine-readable help *)

Lemma Lookup_found flags name :
  In name (map LLMHelp.Flag_Name flags) ->
  exists f, LLMHelp.Lookup flags name = Some f.
Proof.
  induction flags as [| f flags IH]; [intros [] |].
  intros [E | H]; cbn [LLMHelp.Lookup].
  - rewrite E, String.eqb_refl. eauto.
  - destruct (LLMHelp.Flag_Name f =? name)%string; eauto.
Qed.

Lemma annotate_names flags name :
  map LLMHelp.Flag_Name (LLMHelp.annotate flags name)
  = map LLMHelp.Flag_Name flags.
Proof.
  induction flags as [| f flags IH]; [reflexivity |].
  cbn [LLMHelp.annotate].
  destruct (LLMHelp.Flag_Name f =? name)%string; [reflexivity |].
  cbn [map]. by rewrite IH.
Qed.

(** The [VisitAll] loop reports each flag it visits, in order, and reports
    it required as long as the flag set knows its name. *)
Lemma visitAll_options toVisit flagSet :
  (forall flag, In flag toVisit ->
                In (LLMHelp.Flag_Name flag) (map LLMHelp.Flag_Name flagSet)) ->
  fst (LLMHelp.visitAll toVisit flagSet)
  = map (fun flag =>
           LLMHelp.mkFlagOption (LLMHelp.Flag_Name flag) (LLMHelp.Flag_Shorthand flag)
             (LLMHelp.Flag_Usage flag) (LLMHelp.Flag_Type flag) true)
        toVisit.
Proof.
  revert flagSet. induction toVisit as [| flag rest IH]; intros flagSet H;
    [reflexivity |].
  cbn [LLMHelp.visitAll].
  destruct (Lookup_found flagSet (LLMHelp.Flag_Name flag)) as [f Hf];
    [apply H; by left |].
  rewrite Hf. unfold LLMHelp.MarkFlagRequired. rewrite Hf.
  specialize (IH (LLMHelp.annotate flagSet (LLMHelp.Flag_Name flag))).
  destruct (LLMHelp.visitAll rest _) as [options flagSet'].
  cbn [fst map] in *. f_equal. apply IH.
  intros flag' Hin. rewrite annotate_names. apply H. by right.
Qed.

Lemma getCommandOptions_flags name short long hidden flags commands :
  LLMHelp.Option_Flags
    (fst (LLMHelp.getCommandOptions
            (LLMHelp.mkCommand name short long hidden flags commands)))
  = map (fun flag =>
           LLMHelp.mkFlagOption (LLMHelp.Flag_Name flag) (LLMHelp.Flag_Shorthand flag)
             (LLMHelp.Flag_Usage flag) (LLMHelp.Flag_Type flag) true)
        flags.
Proof.
  cbn [LLMHelp.getCommandOptions].
  pose proof (visitAll_options flags flags (fun flag H => in_map _ _ _ H)) as E.
  destruct (LLMHelp.visitAll flags flags) as [options flags'].
  cbn [fst] in *. by rewrite <- E.
Qed.

Lemma getCommandOptions_subcommands name short long hidden flags commands :
  LLMHelp.Option_Subcommands
    (fst (LLMHelp.getCommandOptions
            (LLMHelp.mkCommand name short long hidden flags commands)))
  = map (fun c => fst (LLMHelp.getCommandOptions c))
        (List.filter (fun c => negb (LLMHelp.Hidden c)) commands).
Proof.
  cbn [LLMHelp.getCommandOptions].
  destruct (LLMHelp.visitAll flags flags) as [options flags'].
  cbn [fst LLMHelp.Option_Subcommands].
  induction commands as [| c rest IH]; [reflexivity |].
  cbn [List.filter]. destruct (negb (LLMHelp.Hidden c)).
  - destruct (LLMHelp.getCommandOptions c) as [o c'] eqn:E.
    match goal with
    | |- context [(fix loop (l : list LLMHelp.Command) {struct l} := _) rest] =>
        destruct ((fix loop (l : list LLMHelp.Command) {struct l} := _) rest) as [os rest']
    end.
    cbn [fst map] in *. rewrite E. cbn [fst]. by rewrite IH.
  - match goal with
    | |- context [(fix loop (l : list LLMHelp.Command) {struct l} := _) rest] =>
        destruct ((fix loop (l : list LLMHelp.Command) {struct l} := _) rest) as [os rest']
    end.
    cbn [fst] in *. exact IH.
Qed.

Lemma allRequired_eq o :
  LLMHelp.allRequired o
  = forallb LLMHelp.FlagOption_Required (LLMHelp.Option_Flags o)
    && forallb LLMHelp.allRequired (LLMHelp.Option_Subcommands o).
Proof.
  destruct o as [name description examples subcommands flags].
  cbn [LLMHelp.allRequired LLMHelp.Option_Flags LLMHelp.Option_Subcommands].
  reflexivity.
Qed.

Lemma optionNames_eq o :
  LLMHelp.optionNames o
  = LLMHelp.Names (LLMHelp.Option_Name o)
      (map LLMHelp.optionNames (LLMHelp.Option_Subcommands o)).
Proof.
  destruct o as [name description examples subcommands flags].
  cbn [LLMHelp.optionNames LLMHelp.Option_Name LLMHelp.Option_Subcommands].
  reflexivity.
Qed.

Lemma visibleNames_eq c :
  LLMHelp.visibleNames c
  = LLMHelp.Names (LLMHelp.Name c)
      (map LLMHelp.visibleNames
           (List.filter (fun c' => negb (LLMHelp.Hidden c')) (LLMHelp.Commands c))).
Proof.
  destruct c as [name short long hidden flags commands].
  cbn [LLMHelp.visibleNames LLMHelp.Name LLMHelp.Commands].
  f_equal. induction commands as [| c' rest IH]; [reflexivity |].
  cbn [List.filter]. destruct (LLMHelp.Hidden c'); cbn [negb map]; by rewrite IH.
Qed.

Lemma getCommandOptions_name c :
  LLMHelp.Option_Name (fst (LLMHelp.getCommandOptions c)) = LLMHelp.Name c.
Proof.
  destruct c as [name short long hidden flags commands].
  cbn [LLMHelp.getCommandOptions].
  by destruct (LLMHelp.visitAll flags flags).
Qed.

(** X21.  [llmhelp] reports every flag as required.  Each flag of a
    command is listed once, in the order [VisitAll] gives, with its name,
    shorthand, usage and type, and with [required] true whether or not the
    flag was marked required before: the test for it is the call that marks
    it.  This holds for every command of the document. *)
Theorem llmhelp_reports_every_flag_required cmd :
  LLMHelp.Option_Flags (LLMHelp.llmHelpCmd cmd)
  = map (fun flag =>
           LLMHelp.mkFlagOption (LLMHelp.Flag_Name flag) (LLMHelp.Flag_Shorthand flag)
             (LLMHelp.Flag_Usage flag) (LLMHelp.Flag_Type flag) true)
        (LLMHelp.Flags cmd)
  /\ LLMHelp.allRequired (LLMHelp.llmHelpCmd cmd) = true.
Proof.
  unfold LLMHelp.llmHelpCmd. split.
  - destruct cmd as [name short long hidden flags commands].
    apply getCommandOptions_flags.
  - induction cmd as [name short long hidden flags commands IH]
      using LLMHelp.Command_tree_ind.
    rewrite allRequired_eq, getCommandOptions_flags, getCommandOptions_subcommands.
    apply andb_true_intro. split.
    + rewrite forallb_forall. intros o Ho. apply in_map_iff in Ho.
      by destruct Ho as (flag & <- & _).
    + rewrite forallb_forall. intros o Ho. apply in_map_iff in Ho.
      destruct Ho as (c & <- & Hc). apply filter_In in Hc as [Hc _].
      rewrite List.Forall_forall in IH. by apply IH.
Qed.

Lemma llmhelp_reports_every_flag_required_witness :
  LLMHelp.allRequired (LLMHelp.llmHelpCmd Examples.recordCmd) = true
  /\ map LLMHelp.FlagOption_Required
         (LLMHelp.Option_Flags (LLMHelp.llmHelpCmd Examples.recordUpdateCmd))
     = [true; true; true; true; true; true].
Proof.
  split.
  - exact (proj2 (llmhelp_reports_every_flag_required Examples.recordCmd)).
  - rewrite (proj1 (llmhelp_reports_every_flag_required Examples.recordUpdateCmd)).
    reflexivity.
Defined.

(** X22.  The shape of the [llmhelp] document.  The entry of a command
    holds the entries of its children that are not hidden, in the order of
    [Commands()], each built as for the root; so the names in the document
    are those of the commands that can be reached from the root through
    visible commands only.  A hidden command takes its whole subtree with
    it, while the root is listed even if it is hidden. *)
Theorem llmhelp_lists_the_visible_commands cmd :
  LLMHelp.Option_Name (LLMHelp.llmHelpCmd cmd) = LLMHelp.Name cmd
  /\ LLMHelp.Option_Subcommands (LLMHelp.llmHelpCmd cmd)
     = map LLMHelp.llmHelpCmd
           (List.filter (fun c => negb (LLMHelp.Hidden c)) (LLMHelp.Commands cmd))
  /\ LLMHelp.optionNames (LLMHelp.llmHelpCmd cmd) = LLMHelp.visibleNames cmd.
Proof.
  unfold LLMHelp.llmHelpCmd. split; [apply getCommandOptions_name |]. split.
  - destruct cmd as [name short long hidden flags commands].
    apply getCommandOptions_subcommands.
  - induction cmd as [name short long hidden flags commands IH]
      using LLMHelp.Command_tree_ind.
    rewrite optionNames_eq, visibleNames_eq, getCommandOptions_name,
      getCommandOptions_subcommands.
    cbn [LLMHelp.Name LLMHelp.Commands]. f_equal.
    rewrite map_map. apply map_ext_in. intros c Hc.
    apply filter_In in Hc as [Hc _].
    rewrite List.Forall_forall in IH. by apply IH.
Qed.

Lemma llmhelp_lists_the_visible_commands_witness :
  LLMHelp.optionNames (LLMHelp.llmHelpCmd Examples.withHidden)
  = LLMHelp.Names "tool" [LLMHelp.Names "version" []].
Proof.
  rewrite (proj2 (proj2 (llmhelp_lists_the_visible_commands Examples.withHidden))).
  reflexivity.
Defined.

(** X23.  The examples of [llmhelp].  Only the five names [config],
    [zone], [record], [version] and [llmhelp] have examples, so the root
    and every subcommand such as [list] or [create] have none; and every
    example of a name is a command line that starts with [hetznerdns]
    followed by that name. *)
Theorem examples_belong_to_their_command cmdName :
  (LLMHelp.parseExamples cmdName <> []
   <-> In cmdName ["config"; "zone"; "record"; "version"; "llmhelp"])
  /\ (forall e,
        In e (LLMHelp.parseExamples cmdName) ->
        LLMHelp.HasPrefix (LLMHelp.Example_Command e) ("hetznerdns " ++ cmdName)
        = true).
Proof.
  unfold LLMHelp.parseExamples.
  destruct (String.eqb_spec cmdName "config") as [-> | N1].
  { split; [split; [intros _; simpl; tauto | discriminate] |].
    intros e [<- | [<- | [<- | []]]]; reflexivity. }
  destruct (String.eqb_spec cmdName "zone") as [-> | N2].
  { split; [split; [intros _; simpl; tauto | discriminate] |].
    intros e [<- | []]; reflexivity. }
  destruct (String.eqb_spec cmdName "record") as [-> | N3].
  { split; [split; [intros _; simpl; tauto | discriminate] |].
    intros e [<- | [<- | [<- | [<- | [<- | [<- | []]]]]]]; reflexivity. }
  destruct (String.eqb_spec cmdName "version") as [-> | N4].
  { split; [split; [intros _; simpl; tauto | discriminate] |].
    intros e [<- | []]; reflexivity. }
  destruct (String.eqb_spec cmdName "llmhelp") as [-> | N5].
  { split; [split; [intros _; simpl; tauto | discriminate] |].
    intros e [<- | []]; reflexivity. }
  split; [| intros e []].
  split; [done |]. simpl. intros [H | [H | [H | [H | [H | []]]]]]; congruence.
Qed.

Lemma examples_belong_to_their_command_witness :
  LLMHelp.HasPrefix "hetznerdns record delete --id RECORD_ID" "hetznerdns record"
  = true.
Proof.
  apply (proj2 (examples_belong_to_their_command "record")
           (LLMHelp.mkExample "Delete a record"
                              "hetznerdns record delete --id RECORD_ID")).
  simpl. tauto.
Defined.

(** ** [record create] and [record update] *)

Lemma GetZones_withDo env do c :
  do (zonesRequest c) = Do env (zonesRequest c) ->
  GetZones (withDo env do) c = GetZones env c.
Proof.
  intros H. unfold GetZones, NewRequest, withDo. simpl.
  destruct (NewRequestError env _ _); [reflexivity |]. simpl.
  unfold zonesRequest in H. by rewrite H.
Qed.

Lemma resolveZoneID_withDo env do tbl c zone :
  do (zonesRequest c) = Do env (zonesRequest c) ->
  Cmd.resolveZoneID (withDo env do) tbl c zone = Cmd.resolveZoneID env tbl c zone.
Proof.
  intros H. unfold Cmd.resolveZoneID. by rewrite (GetZones_withDo _ _ _ H).
Qed.

(** X24.  [record create] and [record update] change nothing when the
    zone cannot be resolved: they print the lines of the resolver and
    "Error:" with its error, and the only request the transport sees is the
    one for the zone list, so no POST or PUT is sent. *)
Theorem mutations_stop_at_the_resolver env tbl w st out client zone out' err
    recordID name recordType value ttl ttlChanged :
  Cmd.loadClient w st = (out, Some client) ->
  Cmd.resolveZoneID env tbl client zone = (out', Err err) ->
  let failure := (out ++ out' ++ [Cmd.Print ("Error: " ++ Error err ++ nl)])%list in
  Cmd.recordCreateCmd env tbl zone name recordType value ttl w st = failure
  /\ Cmd.recordUpdateCmd env tbl recordID zone name recordType value ttl ttlChanged
       w st = failure
  /\ (forall do,
        do (zonesRequest client) = Do env (zonesRequest client) ->
        Cmd.recordCreateCmd (withDo env do) tbl zone name recordType value ttl w st
        = failure
        /\ Cmd.recordUpdateCmd (withDo env do) tbl recordID zone name recordType
             value ttl ttlChanged w st = failure).
Proof.
  intros HL HR. cbv zeta.
  unfold Cmd.recordCreateCmd, Cmd.recordUpdateCmd. rewrite HL, HR.
  split; [by rewrite <- app_assoc |]. split; [by rewrite <- app_assoc |].
  intros do H. rewrite (resolveZoneID_withDo _ _ _ _ _ H), HR.
  split; by rewrite <- app_assoc.
Qed.

Lemma mutations_stop_at_the_resolver_witness :
  Cmd.recordCreateCmd Examples.hetzner (fun r => r) "missing.org" "www" "A"
    "192.168.1.1" 3600 Examples.tokenWorld Config.initialState
  = (fst (Cmd.loadClient Examples.tokenWorld Config.initialState)
     ++ fst (Cmd.resolveZoneID Examples.hetzner (fun r => r)
               (NewClient "secret-token-1234") "missing.org")
     ++ [Cmd.Print ("Error: " ++ Error (ErrZoneIDOrName "missing.org") ++ nl)])%list.
Proof.
  refine (proj1 (mutations_stop_at_the_resolver Examples.hetzner (fun r => r)
                   Examples.tokenWorld Config.initialState
                   (fst (Cmd.loadClient Examples.tokenWorld Config.initialState))
                   (NewClient "secret-token-1234") "missing.org"
                   (fst (Cmd.resolveZoneID Examples.hetzner (fun r => r)
                           (NewClient "secret-token-1234") "missing.org"))
                   (ErrZoneIDOrName "missing.org")
                   "" "www" "A" "192.168.1.1" 3600 false _ _)).
  - vm_compute. reflexivity.
  - vm_compute. reflexivity.
Defined.

Lemma decodeRecordResponse_object env body doc m :
  Unmarshal env body = Done (AMap doc) ->
  doc !! "record" = Some (AMap m) ->
  decodeRecordResponse env body = Ok (extractRecord env m).
Proof.
  intros Hv Hm. unfold decodeRecordResponse. rewrite Hv. simpl. by rewrite Hm.
Qed.

Lemma extractRecord_ID env m s :
  stringField m "id" s -> Record_ID (extractRecord env m) = s.
Proof.
  rewrite extractRecord_fields. cbn [Record_ID].
  intros [-> | [Hno ->]]; [reflexivity |].
  destruct (m !! "id") as [[] |] eqn:E; try reflexivity.
  by destruct (Hno s).
Qed.

(** X25.  After a resolved zone, [record create] sends the record with the
    resolved zone ID and an empty ID, and [record update] the record of its
    flags; on a success status with an object under [record] each prints
    its success line with the ID found in the answer, not the one it sent.
    When the answer holds no string under [id] the line ends after the
    colon, and success is reported all the same. *)
Theorem mutations_print_the_answered_id env tbl w st out client zone out' zoneID
    recordID name recordType value ttl (ttlChanged : bool) resp doc m id :
  Cmd.loadClient w st = (out, Some client) ->
  Cmd.resolveZoneID env tbl client zone = (out', Ok zoneID) ->
  Unmarshal env (RespBody resp) = Done (AMap doc) ->
  doc !! "record" = Some (AMap m) ->
  stringField m "id" id ->
  (answered env
     (createRequest client (mkRecord "" recordType name value ttl zoneID "" "")) resp ->
   StatusCode resp = 200 \/ StatusCode resp = 201 ->
   Cmd.recordCreateCmd env tbl zone name recordType value ttl w st
   = (out ++ out'
      ++ [Cmd.Print ("Record created successfully with ID: " ++ id ++ nl)])%list)
  /\ (answered env
        (updateRequest client
           (mkRecord recordID recordType name value (if ttlChanged then ttl else 0)
                     zoneID "" "")) resp ->
      StatusCode resp = 200 ->
      Cmd.recordUpdateCmd env tbl recordID zone name recordType value ttl ttlChanged
        w st
      = (out ++ out'
         ++ [Cmd.Print ("Record updated successfully: " ++ id ++ nl)])%list).
Proof.
  intros HL HR Hv Hm Hid.
  unfold Cmd.recordCreateCmd, Cmd.recordUpdateCmd. rewrite HL, HR. split.
  - intros Ha Hst. unfold Cmd.createRecordOf.
    rewrite (CreateRecord_success _ _ _ _ Ha Hst).
    rewrite (decodeRecordResponse_object _ _ _ _ Hv Hm).
    rewrite (extractRecord_ID _ _ _ Hid). by rewrite <- app_assoc.
  - intros Ha Hst.
    assert (E : Cmd.updateRecordOf recordID zoneID name recordType value ttl ttlChanged
                = mkRecord recordID recordType name value
                    (if ttlChanged then ttl else 0) zoneID "" "").
    { unfold Cmd.updateRecordOf.
      destruct (String.eqb_spec name ""), (String.eqb_spec recordType ""),
        (String.eqb_spec value ""), ttlChanged; subst; reflexivity. }
    rewrite E, (UpdateRecord_success _ _ _ _ Ha Hst).
    rewrite (decodeRecordResponse_object _ _ _ _ Hv Hm).
    rewrite (extractRecord_ID _ _ _ Hid). by rewrite <- app_assoc.
Qed.

Lemma mutations_print_the_answered_id_witness :
  Cmd.recordCreateCmd Examples.silent (fun r => r) "z2" "www" "A" "192.168.1.1" 0
    Examples.tokenWorld Config.initialState
  = (fst (Cmd.loadClient Examples.tokenWorld Config.initialState)
     ++ fst (Cmd.resolveZoneID Examples.silent (fun r => r)
               (NewClient "secret-token-1234") "z2")
     ++ [Cmd.Print ("Record created successfully with ID: " ++ "" ++ nl)])%list.
Proof.
  refine (proj1 (mutations_print_the_answered_id Examples.silent (fun r => r)
                   Examples.tokenWorld Config.initialState
                   (fst (Cmd.loadClient Examples.tokenWorld Config.initialState))
                   (NewClient "secret-token-1234") "z2"
                   (fst (Cmd.resolveZoneID Examples.silent (fun r => r)
                           (NewClient "secret-token-1234") "z2"))
                   "z2" "" "www" "A" "192.168.1.1" 0 false
                   (mkResponse 201 "record")
                   (list_to_map [("record", Stub.object [])]) (list_to_map []) ""
                   _ _ _ _ _) _ _).
  - vm_compute. reflexivity.
  - vm_compute. reflexivity.
  - reflexivity.
  - reflexivity.
  - right. split; [intros s' H; vm_compute in H; discriminate | reflexivity].
  - split; reflexivity.
  - right. reflexivity.
Defined.
